(** * pytools.vectorizations: the structural map/zip engine

    A shallow embedding of [src/pytools/vectorizations.py]: the type tables,
    the helper predicates, and the four decorators [vectorize],
    [vectorize_param], [vectorize_multi] and [vectorize_multi_param]
    (the spec's [map], [map_with_params], [zip] and [zip_with_params]),
    together with the loguru catcher every decorated function is wrapped in. *)

From Stdlib Require Import ZArith List String Ascii Bool Arith Lia DecimalString.
Import ListNotations.
Local Open Scope string_scope.

Set Implicit Arguments.
Set Warnings "-register-all".

(** ** Python types *)

(** The types of [TYPES] other than [int], [str], [bytes] and [bool]; their
    instances are opaque to the engine. *)
Inductive scalar_type : Type :=
| t_float | t_complex | t_bytearray | t_memoryview
| np_int8 | np_int16 | np_int32 | np_int64
| np_uint8 | np_uint16 | np_uint32 | np_uint64
| np_float16 | np_float32 | np_float64
| np_complex64 | np_complex128 | np_bool_ | np_str_ | np_bytes_
| pd_Int8Dtype | pd_Int16Dtype | pd_Int32Dtype | pd_Int64Dtype
| pd_UInt8Dtype | pd_UInt16Dtype | pd_UInt32Dtype | pd_UInt64Dtype
| pd_Float32Dtype | pd_Float64Dtype | pd_BooleanDtype | pd_StringDtype
| t_datetime | t_timedelta | t_time | t_date | t_timezone
| np_datetime64 | pd_Timestamp | pd_Timedelta | pa_TimestampType.

Inductive pytype : Type :=
| t_int | t_bool | t_str | t_bytes
| t_scalar (t : scalar_type)
| t_list | t_set | t_tuple | t_dict
| np_ndarray | pd_DataFrame | pd_Series
| t_NoneType
| t_object (cls : string).

Definition scalar_type_eq_dec (a b : scalar_type) : {a = b} + {a <> b}.
Proof. decide equality. Defined.

Definition pytype_eq_dec (a b : pytype) : {a = b} + {a <> b}.
Proof. decide equality; [apply scalar_type_eq_dec | apply string_dec]. Defined.

Definition pytype_eqb (a b : pytype) : bool :=
  if pytype_eq_dec a b then true else false.

(** [issubclass a b] for the classes above.  Besides identity, the proper
    subclass pairs are those of CPython, numpy and pandas; a user class
    [t_object] derives from [object] only. *)
Definition issubclass (a b : pytype) : bool :=
  pytype_eqb a b ||
  match a, b with
  | t_bool, t_int => true
  | t_scalar np_float64, t_scalar t_float => true
  | t_scalar np_complex128, t_scalar t_complex => true
  | t_scalar np_str_, t_str => true
  | t_scalar np_bytes_, t_bytes => true
  | t_scalar t_datetime, t_scalar t_date => true
  | t_scalar pd_Timestamp, t_scalar t_datetime => true
  | t_scalar pd_Timestamp, t_scalar t_date => true
  | t_scalar pd_Timedelta, t_scalar t_timedelta => true
  | _, _ => false
  end.

(** ** Python values *)

(** A set and a dict keep their elements in iteration order.  An array is
    its shape and its printed form (the engine never looks inside); a frame
    is its index and its columns, a series its (label, value) pairs.
    [VScalar t r] is the instance of [t] printed as [r], [VObject cls r] an
    instance of a class that is in neither table. *)
Inductive value : Type :=
| VNone
| VInt (n : Z)
| VBool (b : bool)
| VStr (s : string)
| VBytes (s : string)
| VScalar (t : scalar_type) (r : string)
| VObject (cls : string) (r : string)
| VList (l : list value)
| VTuple (l : list value)
| VSet (l : list value)
| VDict (items : list (value * value))
| VArray (shape : list nat) (r : string)
| VFrame (index : list value) (columns : list (value * list value))
| VSeries (items : list (value * value)).

Definition type_of (v : value) : pytype :=
  match v with
  | VNone => t_NoneType
  | VInt _ => t_int
  | VBool _ => t_bool
  | VStr _ => t_str
  | VBytes _ => t_bytes
  | VScalar t _ => t_scalar t
  | VObject cls _ => t_object cls
  | VList _ => t_list
  | VTuple _ => t_tuple
  | VSet _ => t_set
  | VDict _ => t_dict
  | VArray _ _ => np_ndarray
  | VFrame _ _ => pd_DataFrame
  | VSeries _ => pd_Series
  end.

(** [isinstance(v, typ)] and [isinstance(v, types)] for a tuple of types. *)
Definition isinstance1 (v : value) (typ : pytype) : bool :=
  issubclass (type_of v) typ.

Definition isinstance (v : value) (types : list pytype) : bool :=
  existsb (isinstance1 v) types.

(** Keyword arguments [**params]. *)
Definition kwargs : Type := list (string * value).

(** ** The type tables (lines 9-68) *)

Definition ALL_ARGUMENTS : string := "All arguments should have the same shape.".

Definition BASE_TYPES : list pytype :=
  [t_int; t_scalar t_float; t_scalar t_complex; t_str; t_bytes;
   t_scalar t_bytearray; t_scalar t_memoryview; t_bool].

Definition NUMPY_TYPES : list pytype :=
  map t_scalar
    [np_int8; np_int16; np_int32; np_int64;
     np_uint8; np_uint16; np_uint32; np_uint64;
     np_float16; np_float32; np_float64;
     np_complex64; np_complex128; np_bool_; np_str_; np_bytes_].

Definition PANDAS_TYPES : list pytype :=
  map t_scalar
    [pd_Int8Dtype; pd_Int16Dtype; pd_Int32Dtype; pd_Int64Dtype;
     pd_UInt8Dtype; pd_UInt16Dtype; pd_UInt32Dtype; pd_UInt64Dtype;
     pd_Float32Dtype; pd_Float64Dtype; pd_BooleanDtype; pd_StringDtype].

Definition DATETIME_TYPES : list pytype :=
  map t_scalar
    [t_datetime; t_timedelta; t_time; t_date; t_timezone;
     np_datetime64; pd_Timestamp; pd_Timedelta; pa_TimestampType].

Definition TYPES : list pytype :=
  BASE_TYPES ++ NUMPY_TYPES ++ PANDAS_TYPES ++ DATETIME_TYPES.

Definition CONTAINER_TYPES : list pytype :=
  [t_list; t_set; t_tuple; t_dict; np_ndarray; pd_DataFrame; pd_Series].

(** ** Exceptions and results *)

(** An exception is its class name, whether the class derives from
    [Exception] (as opposed to [BaseException] only, like
    [KeyboardInterrupt]), and its message. *)
Record exn : Type := mkExn {
  exn_class : string;
  exn_is_Exception : bool;
  exn_message : string
}.

Definition TypeError (msg : string) : exn := mkExn "TypeError" true msg.
Definition IndexError (msg : string) : exn := mkExn "IndexError" true msg.
Definition AttributeError (msg : string) : exn := mkExn "AttributeError" true msg.
Definition RecursionError (msg : string) : exn := mkExn "RecursionError" true msg.

Inductive outcome (A : Type) : Type :=
| Return (a : A)
| Raise (e : exn).
Arguments Return {A} a.
Arguments Raise {A} e.

Definition obind {A B} (o : outcome A) (k : A -> outcome B) : outcome B :=
  match o with
  | Return a => k a
  | Raise e => Raise e
  end.

Notation "x <~ o ;; k" := (obind o (fun x => k))
  (at level 61, o at next level, right associativity).

Fixpoint omap {A B} (f : A -> outcome B) (l : list A) : outcome (list B) :=
  match l with
  | [] => Return []
  | a :: t => b <~ f a ;; bs <~ omap f t ;; Return (b :: bs)
  end.

(** ** Printed forms: [repr] and [str] *)

Definition squote : ascii := ascii_of_nat 39.
Definition dquote : ascii := ascii_of_nat 34.
Definition backslash : ascii := ascii_of_nat 92.

Fixpoint contains (c : ascii) (s : string) : bool :=
  match s with
  | EmptyString => false
  | String d t => Ascii.eqb c d || contains c t
  end.

Definition hex_digit (n : nat) : ascii :=
  if (n <? 10)%nat then ascii_of_nat (48 + n) else ascii_of_nat (87 + n).

Definition hex_escape (c : ascii) : string :=
  let n := nat_of_ascii c in
  String backslash (String "x" (String (hex_digit (n / 16)) (String (hex_digit (n mod 16)) ""))).

(** One character of a [str] ([bytes] when [is_bytes]) literal quoted with
    [q].  A string is read as its code points, all below 256. *)
Definition escape_char (q : ascii) (is_bytes : bool) (c : ascii) : string :=
  let n := nat_of_ascii c in
  if Ascii.eqb c q then String backslash (String q "")
  else if Ascii.eqb c backslash then String backslash (String backslash "")
  else if (n =? 9)%nat then String backslash "t"
  else if (n =? 10)%nat then String backslash "n"
  else if (n =? 13)%nat then String backslash "r"
  else if (n <? 32)%nat || (n =? 127)%nat then hex_escape c
  else if (128 <=? n)%nat then
    if is_bytes || (n <=? 160)%nat || (n =? 173)%nat then hex_escape c else String c ""
  else String c "".

Fixpoint escape (q : ascii) (is_bytes : bool) (s : string) : string :=
  match s with
  | EmptyString => ""
  | String c t => escape_char q is_bytes c ++ escape q is_bytes t
  end.

(** Single quotes unless the text has a single quote and no double quote. *)
Definition quote_of (s : string) : ascii :=
  if contains squote s && negb (contains dquote s) then dquote else squote.

Definition repr_str (s : string) : string :=
  let q := quote_of s in String q (escape q false s ++ String q "").

Definition repr_bytes (s : string) : string :=
  let q := quote_of s in String "b" (String q (escape q true s ++ String q "")).

Definition repr_int (n : Z) : string := NilZero.string_of_int (Z.to_int n).

Fixpoint join (sep : string) (l : list string) : string :=
  match l with
  | [] => ""
  | [x] => x
  | x :: t => x ++ sep ++ join sep t
  end.

(** [repr(v)].  The printed form of a frame or a series is not modelled:
    neither is hashable, so neither can be a dict key, and both are
    containers, so neither reaches the engine's error message. *)
Fixpoint py_repr (v : value) : string :=
  match v with
  | VNone => "None"
  | VInt n => repr_int n
  | VBool b => if b then "True" else "False"
  | VStr s => repr_str s
  | VBytes s => repr_bytes s
  | VScalar _ r => r
  | VObject _ r => r
  | VList l => "[" ++ join ", " (map py_repr l) ++ "]"
  | VTuple l =>
      match l with
      | [x] => "(" ++ py_repr x ++ ",)"
      | _ => "(" ++ join ", " (map py_repr l) ++ ")"
      end
  | VSet l =>
      match l with
      | [] => "set()"
      | _ => "{" ++ join ", " (map py_repr l) ++ "}"
      end
  | VDict items =>
      "{" ++ join ", " (map (fun kv => let '(k, x) := kv in py_repr k ++ ": " ++ py_repr x) items) ++ "}"
  | VArray _ r => r
  | VFrame _ _ => "<DataFrame>"
  | VSeries _ => "<Series>"
  end.

(** [str(v)], what an f-string prints. *)
Definition py_str (v : value) : string :=
  match v with
  | VStr s => s
  | _ => py_repr v
  end.

(** ** Equality and hashing, as [set] and [dict] use them *)

Definition list_eqb {A} (eqb : A -> A -> bool) : list A -> list A -> bool :=
  fix go (x y : list A) : bool :=
    match x, y with
    | [], [] => true
    | a :: x', b :: y' => eqb a b && go x' y'
    | _, _ => false
    end.

(** [a == b].  [True == 1] and [False == 0]; sequences compare element
    by element; the opaque values compare by type and printed form (so
    equality across numeric types, as in [1 == 1.0], is not modelled). *)
Fixpoint py_eqb (a b : value) {struct a} : bool :=
  match a, b with
  | VNone, VNone => true
  | VInt x, VInt y => Z.eqb x y
  | VInt x, VBool y => Z.eqb x (Z.b2z y)
  | VBool x, VInt y => Z.eqb (Z.b2z x) y
  | VBool x, VBool y => Bool.eqb x y
  | VStr x, VStr y => String.eqb x y
  | VBytes x, VBytes y => String.eqb x y
  | VScalar t x, VScalar u y => (if scalar_type_eq_dec t u then true else false) && String.eqb x y
  | VObject c x, VObject d y => String.eqb c d && String.eqb x y
  | VList x, VList y => list_eqb py_eqb x y
  | VTuple x, VTuple y => list_eqb py_eqb x y
  | VSet x, VSet y =>
      Nat.eqb (List.length x) (List.length y) && forallb (fun e => existsb (py_eqb e) y) x
  | VDict x, VDict y =>
      Nat.eqb (List.length x) (List.length y) &&
      forallb (fun kv => let '(k, v) := kv in
                         existsb (fun kv' => py_eqb k (fst kv') && py_eqb v (snd kv')) y) x
  | VArray s x, VArray t y => list_eqb Nat.eqb s t && String.eqb x y
  | _, _ => false
  end.

(** [hash(v)] succeeds ([memoryview] objects are taken read-only). *)
Fixpoint hashable (v : value) : bool :=
  match v with
  | VList _ | VSet _ | VDict _ | VArray _ _ | VFrame _ _ | VSeries _ => false
  | VScalar t_bytearray _ => false
  | VTuple l => forallb hashable l
  | _ => true
  end.

(** The values on which [py_eqb] and [hashable] are exactly Python's [==]
    and [hash]: [None], integers, booleans, strings, bytes and tuples of
    such values.  (Floats, numpy scalars and user objects are opaque in the
    model: [1 == 1.0] and [nan != nan] are out of its reach.) *)
Fixpoint exact_eq (v : value) : bool :=
  match v with
  | VNone | VInt _ | VBool _ | VStr _ | VBytes _ => true
  | VTuple l => forallb exact_eq l
  | _ => false
  end.

(** [s.add(x)] and [d[k] = x] on the ordered representations. *)
Definition set_add (s : list value) (x : value) : list value :=
  if existsb (py_eqb x) s then s else (s ++ [x])%list.

Definition set_of_list (l : list value) : list value := fold_left set_add l [].

Fixpoint dict_set (d : list (value * value)) (k x : value) : list (value * value) :=
  match d with
  | [] => [(k, x)]
  | (k', x') :: t => if py_eqb k k' then (k', x) :: t else (k', x') :: dict_set t k x
  end.

Definition dict_of_items (items : list (value * value)) : list (value * value) :=
  fold_left (fun d kv => dict_set d (fst kv) (snd kv)) items [].

(** ** Built-in operations the engine applies to its values *)

Definition not_iterable (v : value) : exn :=
  TypeError (match v with
             | VNone => "'NoneType' object is not iterable"
             | VInt _ => "'int' object is not iterable"
             | VBool _ => "'bool' object is not iterable"
             | _ => "object is not iterable"
             end).

Fixpoint chars (s : string) : list ascii :=
  match s with
  | EmptyString => []
  | String c t => c :: chars t
  end.

(** The elements [for x in v] yields: those of a list, tuple or set, the
    keys of a dict, the column labels of a frame, the values of a series,
    the characters of a [str], the bytes of a [bytes].  Iterating an opaque
    value is not modelled; the engine only iterates tuples, sets and the
    result of a recursive call on lists, which is a list or [None]
    ([vectorize_list_result], [vectorize_multi_list_result]). *)
Definition py_iter (v : value) : outcome (list value) :=
  match v with
  | VList l | VTuple l | VSet l => Return l
  | VDict items => Return (map fst items)
  | VFrame _ columns => Return (map fst columns)
  | VSeries items => Return (map snd items)
  | VStr s => Return (map (fun c => VStr (String c "")) (chars s))
  | VBytes s => Return (map (fun c => VInt (Z.of_nat (nat_of_ascii c))) (chars s))
  | _ => Raise (not_iterable v)
  end.

(** [list(v)], [tuple(v)] and [set(v)].  A new set lists its elements in
    the order of their first occurrence (CPython orders them by hash; the
    engine does not depend on the order). *)
Definition py_list (v : value) : outcome value :=
  l <~ py_iter v ;; Return (VList l).

Definition py_tuple (v : value) : outcome value :=
  l <~ py_iter v ;; Return (VTuple l).

Definition py_set (v : value) : outcome value :=
  l <~ py_iter v ;;
  if forallb hashable l then Return (VSet (set_of_list l))
  else Raise (TypeError "unhashable type").

(** [len(v)]. *)
Definition py_len (v : value) : outcome nat :=
  match v with
  | VList l | VTuple l | VSet l => Return (List.length l)
  | VDict items => Return (List.length items)
  | VStr s | VBytes s => Return (String.length s)
  | VFrame index _ => Return (List.length index)
  | VSeries items => Return (List.length items)
  | VArray (n :: _) _ => Return n
  | _ => Raise (TypeError "object has no len()")
  end.

(** [seq[i]] for a non-negative [i]. *)
Definition py_index (l : list value) (i : nat) : outcome value :=
  match nth_error l i with
  | Some x => Return x
  | None => Raise (IndexError "index out of range")
  end.

(** [obj[i]] on a list or a tuple. *)
Definition py_getitem (obj : value) (i : nat) : outcome value :=
  match obj with
  | VList l | VTuple l => py_index l i
  | _ => Raise (TypeError "object is not subscriptable")
  end.

(** [obj.keys()] and [obj.values()] on a dict (a series has both as
    well: its labels and its values). *)
Definition py_keys (obj : value) : outcome (list value) :=
  match obj with
  | VDict items | VSeries items => Return (map fst items)
  | VFrame _ columns => Return (map fst columns)
  | _ => Raise (AttributeError "object has no attribute 'keys'")
  end.

Definition py_values (obj : value) : outcome (list value) :=
  match obj with
  | VDict items | VSeries items => Return (map snd items)
  | _ => Raise (AttributeError "object has no attribute 'values'")
  end.

(** [obj.shape] of a frame, a series or an array. *)
Definition py_shape (obj : value) : outcome (list nat) :=
  match obj with
  | VFrame index columns => Return [List.length index; List.length columns]
  | VSeries items => Return [List.length items]
  | VArray shape _ => Return shape
  | _ => Raise (AttributeError "object has no attribute 'shape'")
  end.

(** [np.shape(obj)].  The engine applies it to arrays only; for a frame and
    a series it is their [shape], for a scalar the empty shape, and a flat
    list or tuple has one dimension (deeper nesting is not modelled). *)
Definition np_shape (obj : value) : outcome (list nat) :=
  match obj with
  | VArray shape _ => Return shape
  | VFrame index columns => Return [List.length index; List.length columns]
  | VSeries items => Return [List.length items]
  | VList l | VTuple l => Return [List.length l]
  | _ => Return []
  end.

(** [frame.to_dict(orient="list")] and [series.to_dict()]. *)
Definition to_dict_list (obj : value) : outcome value :=
  match obj with
  | VFrame _ columns =>
      Return (VDict (dict_of_items (map (fun c => (fst c, VList (snd c))) columns)))
  | _ => Raise (AttributeError "object has no attribute 'to_dict'")
  end.

Definition to_dict (obj : value) : outcome value :=
  match obj with
  | VSeries items => Return (VDict (dict_of_items items))
  | _ => Raise (AttributeError "object has no attribute 'to_dict'")
  end.

(** ** Computations *)

(** The leaf function is user code: it may read and write the world [W]
    and it may raise.  A computation threads the world and stops at the
    first exception. *)
Definition M (W A : Type) : Type := W -> W * outcome A.

Definition ret {W A} (a : A) : M W A := fun w => (w, Return a).

Definition raise {W A} (e : exn) : M W A := fun w => (w, Raise e).

Definition lift {W A} (o : outcome A) : M W A := fun w => (w, o).

Definition bind {W A B} (m : M W A) (k : A -> M W B) : M W B :=
  fun w => match m w with
           | (w', Return a) => k a w'
           | (w', Raise e) => (w', Raise e)
           end.

Notation "x <- m ;; k" := (bind m (fun x => k))
  (at level 61, m at next level, right associativity).

(** A list comprehension [[f(el) for el in l]]. *)
Definition list_comp {W A B} (f : A -> M W B) : list A -> M W (list B) :=
  fix go (l : list A) : M W (list B) :=
    match l with
    | [] => ret []
    | a :: t => b <- f a ;; bs <- go t ;; ret (b :: bs)
    end.

(** A [for] loop over [l] that updates [acc]. *)
Definition for_each {W A B} (f : B -> A -> M W B) : list A -> B -> M W B :=
  fix go (l : list A) (acc : B) : M W B :=
    match l with
    | [] => ret acc
    | a :: t => acc' <- f acc a ;; go t acc'
    end.

(** A dict comprehension [{key: f(key, val) for key, val in items}]. *)
Definition dict_comp {W} (f : value -> value -> M W value)
    (items : list (value * value)) : M W (list (value * value)) :=
  for_each (fun d kv => let '(key, val) := kv in
                        r <- f key val ;; ret (dict_set d key r)) items [].

(** [@logger.catch] (loguru, defaults [exception=Exception],
    [reraise=False], [default=None]): an exception deriving from [Exception]
    that leaves the wrapped call is logged and the call returns [None];
    any other exception passes.  The record written to the log sinks is not
    part of the world. *)
Definition logger_catch {W} (m : M W value) : M W value :=
  fun w => match m w with
           | (w', Return a) => (w', Return a)
           | (w', Raise e) =>
               if exn_is_Exception e then (w', Return VNone) else (w', Raise e)
           end.

(** ** Helper predicates (lines 71-107) *)

Definition all_types_same (obj : list value) (types : list pytype) : bool :=
  forallb (fun el => isinstance el types) obj.

Definition argument_consistency (objects : list value) (cont_types : list pytype) : bool :=
  existsb (fun typ => forallb (fun obj => isinstance1 obj typ) objects) cont_types.

Definition shape_eqb : list nat -> list nat -> bool := list_eqb Nat.eqb.

Definition len_consistency (objects : list value) (ctype : string) : outcome bool :=
  if existsb (String.eqb ctype) ["tuple"; "list"; "str"] then
    bs <~ omap (fun obj => a <~ py_len obj ;; first <~ py_index objects 0 ;;
                           b <~ py_len first ;; Return (Nat.eqb a b)) objects ;;
    Return (forallb id bs)
  else if String.eqb ctype "dict" then
    bs <~ omap (fun obj => a <~ py_keys obj ;; first <~ py_index objects 0 ;;
                           b <~ py_keys first ;;
                           Return (Nat.eqb (List.length a) (List.length b))) objects ;;
    Return (forallb id bs)
  else if existsb (String.eqb ctype) ["pd.Series"; "pd.DataFrame"] then
    bs <~ omap (fun obj => a <~ py_shape obj ;; first <~ py_index objects 0 ;;
                           b <~ py_shape first ;; Return (shape_eqb a b)) objects ;;
    Return (forallb id bs)
  else if String.eqb ctype "np.ndarray" then
    bs <~ omap (fun obj => a <~ np_shape obj ;; first <~ py_index objects 0 ;;
                           b <~ np_shape first ;; Return (shape_eqb a b)) objects ;;
    Return (forallb id bs)
  else Return false.

(** The result is a Python tuple: the section itself for ["list"], the
    pair (keys, values) for ["dict"], the empty tuple otherwise. *)
Definition get_section (objects : list value) (i : nat) (ctype : string) : outcome value :=
  if String.eqb ctype "list" then
    els <~ omap (fun obj => py_getitem obj i) objects ;;
    Return (VTuple els)
  else if String.eqb ctype "dict" then
    key_el <~ omap (fun obj => ks <~ py_keys obj ;; py_index ks i) objects ;;
    val_el <~ omap (fun obj => vs <~ py_values obj ;; py_index vs i) objects ;;
    Return (VTuple [VList key_el; VTuple val_el])
  else Return (VTuple []).

Definition dtype_consistency_in_container (container : list value)
    (base_dtypes : list pytype) : bool :=
  forallb (fun element => isinstance element base_dtypes) container.

(** [key_el, val_el = t]. *)
Definition unpack2 (t : value) : outcome (value * value) :=
  l <~ py_iter t ;;
  match l with
  | [a; b] => Return (a, b)
  | _ => Raise (mkExn "ValueError" true "wrong number of values to unpack")
  end.

(** [str(CONTAINER_TYPES)]. *)
Definition CONTAINER_TYPES_str : string :=
  "(<class 'list'>, <class 'set'>, <class 'tuple'>, <class 'dict'>, " ++
  "<class 'numpy.ndarray'>, <class 'pandas.core.frame.DataFrame'>, " ++
  "<class 'pandas.core.series.Series'>)".

(** Nesting depth, counting the conversions the engine makes on the way
    down (a tuple or a set becomes a list, a frame a dict of lists, a
    series a dict). *)
Fixpoint rank (v : value) : nat :=
  match v with
  | VList l => 1 + list_max (map rank l)
  | VTuple l | VSet l => 2 + list_max (map rank l)
  | VDict items => 1 + list_max (map (fun kv => let '(_, x) := kv in rank x) items)
  | VFrame _ columns =>
      3 + list_max (map (fun c => let '(_, col) := c in list_max (map rank col)) columns)
  | VSeries items => 2 + list_max (map (fun kv => let '(_, x) := kv in rank x) items)
  | _ => 0
  end.

Definition ranks (objects : list value) : nat := list_max (map rank objects).

(** ** The four decorators (lines 110-373) *)

Section Engine.

(** The world the leaf function lives in. *)
Variable W : Type.

(** The decorated function: [fun.__name__] and the call
    [fun( *args, **params)]. *)
Variable fun_name : string.
Variable fn : list value -> kwargs -> M W value.

(** The pandas constructors [pd.DataFrame(data)] and [pd.Series(data)]. *)
Variable DataFrame : value -> outcome value.
Variable Series : value -> outcome value.

(** *** [vectorize] (lines 110-152)

    [vectorize_body self] is the undecorated [to_vectorize]; [self] is
    the name [to_vectorize] as the body sees it, that is, the decorated
    function. *)
Definition vectorize_body (self : value -> M W value) (obj : value) : M W value :=
  if isinstance obj TYPES then fn [obj] []
  else if negb (isinstance obj CONTAINER_TYPES) then
    raise (TypeError (py_str obj ++ " is not a data container."))
  else
    match obj with
    | VList l =>
        if all_types_same l TYPES then
          r <- list_comp (fun el => fn [el] []) l ;; ret (VList r)
        else
          r <- list_comp (fun el => if isinstance el TYPES then fn [el] []
                                    else self el) l ;;
          ret (VList r)
    | VTuple _ =>
        lst <- lift (py_list obj) ;; r <- self lst ;; lift (py_tuple r)
    | VSet _ =>
        lst <- lift (py_list obj) ;; r <- self lst ;; lift (py_set r)
    | VDict items =>
        r <- dict_comp (fun key val => if isinstance obj [t_dict] then fn [val] []
                                       else self val) items ;;
        ret (VDict r)
    | VArray _ _ => fn [obj] []
    | VFrame _ _ =>
        d <- lift (to_dict_list obj) ;; r <- self d ;; lift (DataFrame r)
    | _ => ret VNone  (* no branch matches: the function falls off its end *)
    end.

Fixpoint vectorize_upto (n : nat) (obj : value) : M W value :=
  match n with
  | O => ret VNone
  | S k => logger_catch (vectorize_body (vectorize_upto k) obj)
  end.

(** [vectorize(fun)]: the spec's [map]. *)
Definition vectorize (obj : value) : M W value :=
  vectorize_upto (S (rank obj)) obj.

(** *** [vectorize_param] (lines 155-197) *)
Definition vectorize_param_body (self : value -> kwargs -> M W value)
    (obj : value) (params : kwargs) : M W value :=
  if isinstance obj TYPES then fn [obj] params
  else if negb (isinstance obj CONTAINER_TYPES) then
    raise (TypeError (py_str obj ++ " is not a data container."))
  else
    match obj with
    | VList l =>
        if all_types_same l TYPES then
          r <- list_comp (fun el => fn [el] params) l ;; ret (VList r)
        else
          r <- list_comp (fun el => if isinstance el TYPES then fn [el] params
                                    else self el []) l ;;
          ret (VList r)
    | VTuple _ =>
        lst <- lift (py_list obj) ;; r <- self lst [] ;; lift (py_tuple r)
    | VSet _ =>
        lst <- lift (py_list obj) ;; r <- self lst [] ;; lift (py_set r)
    | VDict items =>
        r <- dict_comp (fun key val => if isinstance obj [t_dict] then fn [val] params
                                       else self val []) items ;;
        ret (VDict r)
    | VArray _ _ => fn [obj] params
    | VFrame _ _ =>
        d <- lift (to_dict_list obj) ;; r <- self d [] ;; lift (DataFrame r)
    | _ => ret VNone
    end.

Fixpoint vectorize_param_upto (n : nat) (obj : value) (params : kwargs) : M W value :=
  match n with
  | O => ret VNone
  | S k => logger_catch (vectorize_param_body (vectorize_param_upto k) obj params)
  end.

(** [vectorize_param(fun)]: the spec's [map_with_params]. *)
Definition vectorize_param (obj : value) (params : kwargs) : M W value :=
  vectorize_param_upto (S (rank obj)) obj params.

(** *** [vectorize_multi] (lines 200-282) *)

(** [all([shape(obj) == shape(objects[0]) for obj in objects])]. *)
Definition all_same (A : Type) (eqb : A -> A -> bool) (shape : value -> outcome A)
    (objects : list value) : outcome bool :=
  bs <~ omap (fun obj => a <~ shape obj ;; first <~ py_index objects 0 ;;
                         b <~ shape first ;; Return (eqb a b)) objects ;;
  Return (forallb id bs).

Definition vectorize_multi_body (self : list value -> M W value)
    (objects : list value) : M W value :=
  if all_types_same objects TYPES then fn objects []
  else if negb (argument_consistency objects CONTAINER_TYPES) then
    raise (TypeError ("Input objects should have the same type. Allowed types are "
                      ++ CONTAINER_TYPES_str ++ "."))
  else
    first <- lift (py_index objects 0) ;;
    match first with
    | VList _ =>
        ok <- lift (len_consistency objects "list") ;;
        if negb ok then raise (TypeError ALL_ARGUMENTS) else
        n <- lift (py_len first) ;;
        r <- for_each (fun r i =>
               el <- lift (get_section objects i "list") ;;
               args <- lift (py_iter el) ;;
               x <- (if all_types_same args TYPES then fn args [] else self args) ;;
               ret (r ++ [x])%list) (seq 0 n) [] ;;
        ret (VList r)
    | VTuple _ =>
        ok <- lift (len_consistency objects "list") ;;
        if negb ok then raise (TypeError ALL_ARGUMENTS) else
        new_objects <- lift (omap py_list objects) ;;
        r <- self new_objects ;; lift (py_tuple r)
    | VSet _ =>
        ok <- lift (len_consistency objects "list") ;;
        if negb ok then raise (TypeError ALL_ARGUMENTS) else
        new_objects <- lift (omap py_list objects) ;;
        r <- self new_objects ;; lift (py_set r)
    | VDict _ =>
        ok <- lift (all_same Nat.eqb (fun obj => ks <~ py_keys obj ;;
                                                 Return (List.length ks)) objects) ;;
        if negb ok then raise (TypeError ALL_ARGUMENTS) else
        ks <- lift (py_keys first) ;;
        r <- for_each (fun r i =>
               key_el <- lift (omap (fun obj => ks <~ py_keys obj ;; py_index ks i) objects) ;;
               val_el <- lift (omap (fun obj => vs <~ py_values obj ;; py_index vs i) objects) ;;
               x <- (if forallb (fun element => isinstance element TYPES) val_el
                     then fn val_el [] else self val_el) ;;
               ret (dict_set r (VStr (fun_name ++ py_str (VList key_el))) x))
             (seq 0 (List.length ks)) [] ;;
        ret (VDict r)
    | VArray _ _ =>
        ok <- lift (all_same shape_eqb np_shape objects) ;;
        if negb ok then raise (TypeError ALL_ARGUMENTS) else
        fn objects []
    | VFrame _ _ =>
        ok <- lift (all_same shape_eqb py_shape objects) ;;
        if negb ok then raise (TypeError ALL_ARGUMENTS) else
        new_objects <- lift (omap to_dict_list objects) ;;
        r <- self new_objects ;; lift (DataFrame r)
    | VSeries _ =>
        ok <- lift (all_same shape_eqb py_shape objects) ;;
        if negb ok then raise (TypeError ALL_ARGUMENTS) else
        new_objects <- lift (omap to_dict objects) ;;
        r <- self new_objects ;; lift (Series r)
    | _ => ret VNone
    end.

Fixpoint vectorize_multi_upto (n : nat) (objects : list value) : M W value :=
  match n with
  | O => ret VNone
  | S k => logger_catch (vectorize_multi_body (vectorize_multi_upto k) objects)
  end.

(** [vectorize_multi(fun)]: the spec's [zip]. *)
Definition vectorize_multi (objects : list value) : M W value :=
  vectorize_multi_upto (S (ranks objects)) objects.

(** *** [vectorize_multi_param] (lines 285-373) *)
Definition vectorize_multi_param_body (self : list value -> kwargs -> M W value)
    (objects : list value) (params : kwargs) : M W value :=
  if negb (forallb (fun param => isinstance param TYPES) (map snd params)) then
    raise (TypeError ("Parameters should be of type: " ++ CONTAINER_TYPES_str))
  else if forallb (fun obj => isinstance obj TYPES) objects then fn objects params
  else if negb (existsb (fun typ => forallb (fun obj => isinstance1 obj typ) objects)
                        CONTAINER_TYPES) then
    raise (TypeError ("Input objects should have the same type. Allowed types are "
                      ++ CONTAINER_TYPES_str ++ "."))
  else
    first <- lift (py_index objects 0) ;;
    match first with
    | VList _ =>
        ok <- lift (len_consistency objects "list") ;;
        if negb ok then raise (TypeError ALL_ARGUMENTS) else
        n <- lift (py_len first) ;;
        r <- for_each (fun r i =>
               el <- lift (get_section objects i "list") ;;
               args <- lift (py_iter el) ;;
               x <- (if dtype_consistency_in_container args TYPES then fn args params
                     else self args params) ;;
               ret (r ++ [x])%list) (seq 0 n) [] ;;
        ret (VList r)
    | VTuple _ =>
        ok <- lift (len_consistency objects "tuple") ;;
        if negb ok then raise (TypeError ALL_ARGUMENTS) else
        new_objects <- lift (omap py_list objects) ;;
        r <- self new_objects params ;; lift (py_tuple r)
    | VSet _ =>
        ok <- lift (len_consistency objects "set") ;;
        if negb ok then raise (TypeError ALL_ARGUMENTS) else
        new_objects <- lift (omap py_list objects) ;;
        r <- self new_objects params ;; lift (py_set r)
    | VDict _ =>
        ok <- lift (len_consistency objects "dict") ;;
        if negb ok then raise (TypeError ALL_ARGUMENTS) else
        ks <- lift (py_keys first) ;;
        r <- for_each (fun r i =>
               section <- lift (get_section objects i "dict") ;;
               kv <- lift (unpack2 section) ;;
               let '(key_el, val_el) := kv in
               vals <- lift (py_iter val_el) ;;
               x <- (if dtype_consistency_in_container vals TYPES then fn vals params
                     else self vals params) ;;
               ret (dict_set r (VStr (fun_name ++ py_str key_el)) x))
             (seq 0 (List.length ks)) [] ;;
        ret (VDict r)
    | VArray _ _ =>
        ok <- lift (len_consistency objects "np.ndarray") ;;
        if negb ok then raise (TypeError ALL_ARGUMENTS) else
        fn objects params
    | VFrame _ _ =>
        ok <- lift (len_consistency objects "pd.DataFrame") ;;
        if negb ok then raise (TypeError ALL_ARGUMENTS) else
        new_objects <- lift (omap to_dict_list objects) ;;
        r <- self new_objects params ;; lift (DataFrame r)
    | VSeries _ =>
        ok <- lift (len_consistency objects "pd.Series") ;;
        if negb ok then raise (TypeError ALL_ARGUMENTS) else
        new_objects <- lift (omap to_dict objects) ;;
        r <- self new_objects params ;; lift (Series r)
    | _ => ret VNone
    end.

Fixpoint vectorize_multi_param_upto (n : nat) (objects : list value) (params : kwargs)
    : M W value :=
  match n with
  | O => ret VNone
  | S k => logger_catch (vectorize_multi_param_body (vectorize_multi_param_upto k)
                                                    objects params)
  end.

(** [vectorize_multi_param(fun)]: the spec's [zip_with_params]. *)
Definition vectorize_multi_param (objects : list value) (params : kwargs) : M W value :=
  vectorize_multi_param_upto (S (ranks objects)) objects params.

End Engine.

(** *** [vectorize] under a recursion limit

    [vectorize_within frames] is [vectorize(fun)] run by an interpreter
    whose stack has room for [frames] nested calls of [to_vectorize]: the
    call that would exceed it raises [RecursionError], which derives from
    [Exception]. *)
Fixpoint vectorize_within {W} (fn : list value -> kwargs -> M W value)
    (DataFrame : value -> outcome value) (frames : nat) (obj : value) : M W value :=
  match frames with
  | O => raise (RecursionError "maximum recursion depth exceeded")
  | S k => logger_catch (vectorize_body fn DataFrame (vectorize_within fn DataFrame k) obj)
  end.

(** ** Observing the calls *)

(** One call [fun( *args, **params)]. *)
Definition call : Type := (list value * kwargs)%type.

(** [traced fn] behaves as [fn] and appends every call it receives to a
    log kept next to the world. *)
Definition traced {W} (fn : list value -> kwargs -> M W value)
    : list value -> kwargs -> M (list call * W) value :=
  fun args params lw =>
    let '(log, w) := lw in
    let '(w', r) := fn args params w in
    ((log ++ [(args, params)])%list, w', r).

(** [watched fn] behaves as [fn] and notes, next to the world, every
    exception [fn] raises, in the order raised. *)
Definition watched {W} (fn : list value -> kwargs -> M W value)
    : list value -> kwargs -> M (list exn * W) value :=
  fun args params lw =>
    let '(log, w) := lw in
    match fn args params w with
    | (w', Return x) => ((log, w'), Return x)
    | (w', Raise e) => (((log ++ [e])%list, w'), Raise e)
    end.

(** Every exception noted derives from [Exception]. *)
Definition quiet (log : list exn) : bool := forallb exn_is_Exception log.

(** The exception noted last. *)
Definition last_raised (log : list exn) : option exn := last (map Some log) None.

(** ** Leaf functions and inputs used in the examples *)

(** [def add(x, y): return x + y] on integers. *)
Definition add : list value -> kwargs -> M unit value :=
  fun args params w =>
    match args, params with
    | [VInt x; VInt y], [] => (w, Return (VInt (x + y)))
    | _, _ => (w, Raise (TypeError "unsupported operand"))
    end.

(** [def times(x, scale=1): return x * scale] on integers. *)
Definition times : list value -> kwargs -> M unit value :=
  fun args params w =>
    match args, params with
    | [VInt x], [] => (w, Return (VInt x))
    | [VInt x], [("scale", VInt k)] => (w, Return (VInt (x * k)))
    | _, _ => (w, Raise (TypeError "unsupported call"))
    end.

(** [lambda x: 0]. *)
Definition zero : list value -> kwargs -> M unit value :=
  fun args params w =>
    match args, params with
    | [_], [] => (w, Return (VInt 0))
    | _, _ => (w, Raise (TypeError "unsupported call"))
    end.

(** [lambda x: x]. *)
Definition identity : list value -> kwargs -> M unit value :=
  fun args params w =>
    match args, params with
    | [x], [] => (w, Return x)
    | _, _ => (w, Raise (TypeError "unsupported call"))
    end.

(** A leaf function that raises [ValueError] on every call. *)
Definition boom : exn := mkExn "ValueError" true "boom".

Definition always_raises : list value -> kwargs -> M unit value :=
  fun _ _ w => (w, Raise boom).

(** A leaf function interrupted on every call ([KeyboardInterrupt] derives
    from [BaseException] only). *)
Definition interrupt : exn := mkExn "KeyboardInterrupt" false "".

Definition interrupted : list value -> kwargs -> M unit value :=
  fun _ _ w => (w, Raise interrupt).

(** A frame constructor for the examples: a dict of columns becomes the
    frame of those columns, indexed from 0 by the first column's length,
    and [None] the empty frame. *)
Definition frame_of (data : value) : outcome value :=
  match data with
  | VNone => Return (VFrame [] [])
  | VDict items =>
      cols <~ omap (fun kv => col <~ py_iter (snd kv) ;; Return (fst kv, col)) items ;;
      Return (VFrame (map (fun i => VInt (Z.of_nat i))
                          (seq 0 (match cols with [] => 0 | c :: _ => List.length (snd c) end)))
                     cols)
  | _ => Raise (mkExn "ValueError" true "DataFrame constructor not properly called!")
  end.

Definition series_of (data : value) : outcome value :=
  match data with
  | VNone => Return (VSeries [])
  | VDict items => Return (VSeries items)
  | _ => Raise (mkExn "ValueError" true "Series constructor not properly called!")
  end.

(** [x] wrapped in [n + 1] lists: [[x]], [[[x]]], ... *)
Fixpoint nest (n : nat) (x : value) : value :=
  match n with
  | O => VList [x]
  | S k => VList [nest k x]
  end.

(** [x] wrapped in [n] lists. *)
Fixpoint wrap (n : nat) (x : value) : value :=
  match n with
  | O => x
  | S k => VList [wrap k x]
  end.

Definition is_dict (v : value) : bool :=
  match v with VDict _ => true | _ => false end.

(** A flat, single-level mapping: a dict none of whose values is a dict. *)
Definition flat_mapping (v : value) : bool :=
  match v with
  | VDict items => forallb (fun kv => negb (is_dict (snd kv))) items
  | _ => false
  end.

(** The shape the zip engine compares for each container kind. *)
Definition shape_of (v : value) : list nat :=
  match v with
  | VList l | VTuple l | VSet l => [List.length l]
  | VDict items => [List.length items]
  | VArray shape _ => shape
  | VFrame index columns => [List.length index; List.length columns]
  | VSeries items => [List.length items]
  | _ => []
  end.

(** [obj] has the shape of [first]. *)
Definition shapes_agree (first : value) (obj : value) : bool :=
  shape_eqb (shape_of obj) (shape_of first).

(** The keys and the values at position [i] of each mapping. *)
Definition keys_at (objects : list value) (i : nat) : outcome (list value) :=
  omap (fun obj => ks <~ py_keys obj ;; py_index ks i) objects.

Definition values_at (objects : list value) (i : nat) : outcome (list value) :=
  omap (fun obj => vs <~ py_values obj ;; py_index vs i) objects.

(** The key the mapping branch of the zip engine writes at position [i]:
    [f"{fun.__name__}{key_el}"]. *)
Definition synthesized_key (fun_name : string) (key_el : list value) : value :=
  VStr (fun_name ++ py_str (VList key_el)).

(** One turn of the loop of the zip engine over the key positions of its
    mappings: the entry for position [i] is written into [r].  [self] is the
    recursive call. *)
Definition zip_entry {W} (fun_name : string) (fn : list value -> kwargs -> M W value)
    (self : list value -> M W value) (params : kwargs)
    (objects : list value) (r : list (value * value)) (i : nat)
    : M W (list (value * value)) :=
  key_el <- lift (keys_at objects i) ;;
  val_el <- lift (values_at objects i) ;;
  x <- (if all_types_same val_el TYPES then fn val_el params else self val_el) ;;
  ret (dict_set r (synthesized_key fun_name key_el) x).

(** No element equals an earlier one: the invariant of a set's elements. *)
Fixpoint distinct (l : list value) : bool :=
  match l with
  | [] => true
  | x :: t => negb (existsb (fun y => py_eqb y x) t) && distinct t
  end.

(** The keys of a dict are distinct. *)
Definition distinct_keys (items : list (value * value)) : bool :=
  distinct (map fst items).

(** A list or [None]: what a decorated function returns for lists. *)
Definition list_or_None (v : value) : Prop :=
  v = VNone \/ exists ys, v = VList ys.

(** Every value [m] returns satisfies [P]. *)
Definition returns_only {W A} (P : A -> Prop) (m : M W A) : Prop :=
  forall w w' a, m w = (w', Return a) -> P a.

(** Every object has the type of the first. *)
Definition same_kind (objects : list value) (first : value) : Prop :=
  forall obj, In obj objects -> type_of obj = type_of first.

(** ** Which exceptions can leave a computation *)

(** Every exception that leaves [m] satisfies [P]. *)
Definition raises_only {W A} (P : exn -> Prop) (m : M W A) : Prop :=
  forall w w' e, m w = (w', Raise e) -> P e.

Definition oraises {A} (P : exn -> Prop) (o : outcome A) : Prop :=
  forall e, o = Raise e -> P e.

(** An exception deriving from [Exception]; the built-in operations raise
    no other. *)
Definition ordinary (e : exn) : Prop := exn_is_Exception e = true.

(** [e] is an exception some call of the leaf function raised. *)
Definition raised_by_fn {W} (fn : list value -> kwargs -> M W value) (e : exn) : Prop :=
  exists args params w w', fn args params w = (w', Raise e).

(** What can leave an undecorated body, and what can leave a decorated
    function. *)
Definition body_exn {W} (fn : list value -> kwargs -> M W value) (e : exn) : Prop :=
  ordinary e \/ raised_by_fn fn e.

Definition escaping {W} (fn : list value -> kwargs -> M W value) (e : exn) : Prop :=
  exn_is_Exception e = false /\ raised_by_fn fn e.

(** How a run that noted [log] may end: on a return, or on an exception
    deriving from [Exception], nothing else was noted; any other exception
    is the one noted last, after exceptions deriving from [Exception]
    only. *)
Definition settled {A} (log : list exn) (o : outcome A) : Prop :=
  match o with
  | Return _ => quiet log = true
  | Raise e =>
      if exn_is_Exception e then quiet log = true
      else exists l, log = (l ++ [e])%list /\ quiet l = true
  end.

Definition faithful {W A} (m : M (list exn * W) A) : Prop :=
  forall log w log' w' o,
    quiet log = true -> m (log, w) = ((log', w'), o) -> settled log' o.

(** What the caller of a decorated function sees, given the exceptions the
    leaf function raised during the call: an exception exactly when the
    last one raised does not derive from [Exception], and then that very
    exception; a returned value exactly when all of them derive from
    [Exception]. *)
Definition reaches {A} (log : list exn) (o : outcome A) : Prop :=
  (forall e, o = Raise e <-> last_raised log = Some e /\ exn_is_Exception e = false) /\
  ((exists x, o = Return x) <-> quiet log = true).

(** The items, keys and values at position [i] of dicts that all have
    more than [i] items. *)
Definition item_at (i : nat) (d : list (value * value)) : value * value :=
  nth i d (VNone, VNone).

Definition keys_of (dicts : list (list (value * value))) (i : nat) : list value :=
  map (fun d => fst (item_at i d)) dicts.

Definition values_of (dicts : list (list (value * value))) (i : nat) : list value :=
  map (fun d => snd (item_at i d)) dicts.

(** [dict(zip(keys, xs))] for the keys the zip engine synthesizes at the
    positions below [n]. *)
Definition zipped (fun_name : string) (dicts : list (list (value * value)))
    (n : nat) (xs : list value) : value :=
  VDict (dict_of_items
           (combine (map (fun i => synthesized_key fun_name (keys_of dicts i)) (seq 0 n)) xs)).

(** The value the zip engine stores for position [i] of its mappings:
    the leaf function's result when the values at [i] are all leaves, the
    result of the recursive call [self] on them otherwise. *)
Definition zip_value {W} (fn : list value -> kwargs -> M W value)
    (self : list value -> M W value) (params : kwargs)
    (dicts : list (list (value * value))) (i : nat) : M W value :=
  if all_types_same (values_of dicts i) TYPES then fn (values_of dicts i) params
  else self (values_of dicts i).

(** An instance of one of the classes of the model itself, not of a class
    a user derived. *)
Definition builtin (v : value) : bool :=
  match v with
  | VObject _ _ => false
  | _ => true
  end.

(** ** Structures used to state further properties *)

(** A leaf, or a structure the single-input map can rebuild as it was:
    lists and tuples of such structures, sets of distinct hashable ones,
    dicts with distinct keys, arrays. *)
Fixpoint plain (v : value) : bool :=
  match v with
  | VNone | VObject _ _ | VFrame _ _ | VSeries _ => false
  | VList l | VTuple l => forallb plain l
  | VSet l => forallb plain l && forallb hashable l && distinct l
  | VDict items => distinct (map fst items)
  | _ => true
  end.

(** The [i]-th element of every list: what [get_section] takes from lists
    that all have more than [i] elements. *)
Definition section_of (lists : list (list value)) (i : nat) : list value :=
  map (fun l => nth i l VNone) lists.

(** Every element of every list is a leaf. *)
Definition all_leaves (lists : list (list value)) : bool :=
  forallb (fun l => all_types_same l TYPES) lists.

(** ** [stringcolor]: ANSI colors (src/pytools/stringcolor.py) *)

Definition ValueError (msg : string) : exn := mkExn "ValueError" true msg.
Definition KeyError (msg : string) : exn := mkExn "KeyError" true msg.

(** The escape character [\033]. *)
Definition ESC : ascii := ascii_of_nat 27.

Definition code (s : string) : string := String ESC s.

(** The integer an [int] (or a [bool], which is an [int]) stands for. *)
Definition int_of (n : value) : option Z :=
  match n with
  | VInt z => Some z
  | VBool b => Some (Z.b2z b)
  | _ => None
  end.

(** [is_in_interval(n, lower, upper)] (lines 1-14).  [type_str n] is the
    printed form of [type(n)]. *)
Definition is_in_interval (type_str : value -> string) (n : value) (lower upper : Z)
    : outcome bool :=
  if negb (isinstance1 n t_int) then
    Raise (ValueError ("`n` must be integer. Got instead " ++ type_str n ++ "."))
  else
    match int_of n with
    | Some z => Return ((lower <=? z)%Z && (z <=? upper)%Z)
    | None => Raise (TypeError "'<=' not supported")
    end.

(** The tables [Color.set_params] installs (lines 31-63). *)
Definition Color_font : list (string * string) :=
  [("white", code "[37m"); ("purple", code "[35m"); ("cyan", code "[36m");
   ("black", code "[30m"); ("red", code "[31m"); ("blue", code "[34m");
   ("green", code "[32m"); ("yellow", code "[33m"); ("gray", code "[90m");
   ("lightwhite", code "[97m"); ("lightred", code "[91m"); ("lightblue", code "[94m");
   ("lightgreen", code "[92m"); ("lightyellow", code "[93m");
   ("lightpurple", code "[95m"); ("lightcyan", code "[96m")].

Definition Color_bg : list (string * string) :=
  [("white", code "[47m"); ("black", code "[40m"); ("red", code "[41m");
   ("blue", code "[44m"); ("green", code "[42m"); ("yellow", code "[43m");
   ("purple", code "[45m"); ("cyan", code "[46m")].

Definition reset_font : string := code "[39m".
Definition reset_bg : string := code "[49m".

Fixpoint lookup (d : list (string * string)) (k : string) : option string :=
  match d with
  | [] => None
  | (k', x) :: t => if String.eqb k k' then Some x else lookup t k
  end.

(** [list(d.keys())] printed. *)
Definition keys_str (d : list (string * string)) : string :=
  py_repr (VList (map (fun kv => VStr (fst kv)) d)).

(** [Color.paint(to_color, font_color, bg_color)] (lines 65-81). *)
Definition paint (to_color : value) (font_color bg_color : string) : outcome string :=
  if negb (existsb (String.eqb font_color) (map fst Color_font)) then
    Raise (ValueError ("`font_color` color " ++ font_color
                       ++ " not supported. Select one of " ++ keys_str Color_font))
  else if negb (existsb (String.eqb bg_color) (map fst Color_bg)) then
    Raise (ValueError ("`bg_color` color " ++ bg_color
                       ++ " not supported. Select one of " ++ keys_str Color_bg))
  else
    match lookup Color_font font_color, lookup Color_bg bg_color with
    | Some f, Some b => Return (f ++ b ++ py_str to_color ++ reset_font ++ reset_bg)
    | _, _ => Raise (KeyError font_color)
    end.

(** [Color.paint_rgb(to_color, font_rgb, bg_rgb)] (lines 83-106). *)
Definition paint_rgb (type_str : value -> string) (to_color font_rgb bg_rgb : value)
    : outcome string :=
  fs <~ py_iter font_rgb ;;
  oks <~ omap (fun rgb => is_in_interval type_str rgb 0 255) fs ;;
  if negb (forallb id oks) then
    Raise (ValueError ("`font_rgb` must be 3-tuple of integer numbers in range [0, 255]. Got "
                       ++ py_str font_rgb ++ "."))
  else
    bs <~ py_iter bg_rgb ;;
    oks <~ omap (fun rgb => is_in_interval type_str rgb 0 255) bs ;;
    if negb (forallb id oks) then
      Raise (ValueError ("`font_rgb` must be 3-tuple of integer numbers in range [0, 255]. Got "
                         ++ py_str bg_rgb ++ "."))
    else
      f0 <~ py_getitem font_rgb 0 ;; f1 <~ py_getitem font_rgb 1 ;;
      f2 <~ py_getitem font_rgb 2 ;;
      let font_color := code ("[38;2;" ++ py_str f0 ++ ";" ++ py_str f1 ++ ";"
                              ++ py_str f2 ++ "m") in
      b0 <~ py_getitem bg_rgb 0 ;; b1 <~ py_getitem bg_rgb 1 ;;
      b2 <~ py_getitem bg_rgb 2 ;;
      let bg_color := code ("[48;2;" ++ py_str b0 ++ ";" ++ py_str b1 ++ ";"
                            ++ py_str b2 ++ "m") in
      Return (font_color ++ bg_color ++ py_str to_color ++ reset_font ++ reset_bg).

(** A color component in range. *)
Definition component (z : Z) : bool := (0 <=? z)%Z && (z <=? 255)%Z.

(** An [int] (or [bool]) that is a color component in range. *)
Definition in_range (c : value) : bool :=
  match int_of c with
  | Some z => component z
  | None => false
  end.

Definition is_int (c : value) : Prop := isinstance1 c t_int = true.

Definition rgb_message (rgb : value) : string :=
  "`font_rgb` must be 3-tuple of integer numbers in range [0, 255]. Got " ++ py_str rgb ++ ".".

Definition rgb_code (layer : string) (r g b : value) : string :=
  code ("[" ++ layer ++ ";2;" ++ py_str r ++ ";" ++ py_str g ++ ";" ++ py_str b ++ "m").

(** * Facts *)

(** ** Computations agree when their parts do *)

Lemma bind_ext {W A B} (m1 m2 : M W A) (k1 k2 : A -> M W B) :
  (forall w, m1 w = m2 w) ->
  (forall a w, k1 a w = k2 a w) ->
  forall w, bind m1 k1 w = bind m2 k2 w.
Proof.
  intros Hm Hk w. unfold bind. rewrite Hm.
  destruct (m2 w) as [w' [a | e]]; [apply Hk | reflexivity].
Qed.

Lemma logger_catch_ext {W} (m1 m2 : M W value) :
  (forall w, m1 w = m2 w) ->
  forall w, logger_catch m1 w = logger_catch m2 w.
Proof. intros Hm w. unfold logger_catch. now rewrite Hm. Qed.

Lemma logger_catch_return {W} (m : M W value) (w w' : W) (a : value) :
  m w = (w', Return a) -> logger_catch m w = (w', Return a).
Proof. intros H. unfold logger_catch. now rewrite H. Qed.

Lemma list_comp_ext {W A B} (f g : A -> M W B) (l : list A) :
  (forall a w, In a l -> f a w = g a w) ->
  forall w, list_comp f l w = list_comp g l w.
Proof.
  induction l as [| a t IH]; intros H w; [reflexivity |].
  cbn [list_comp]. apply bind_ext.
  - intros w0. apply H. now left.
  - intros b w0. apply bind_ext; [| reflexivity].
    apply IH. intros a' w1 Hin. apply H. now right.
Qed.

Lemma for_each_ext {W A B} (f g : B -> A -> M W B) (l : list A) :
  (forall acc a w, In a l -> f acc a w = g acc a w) ->
  forall acc w, for_each f l acc w = for_each g l acc w.
Proof.
  induction l as [| a t IH]; intros H acc w; [reflexivity |].
  cbn [for_each]. apply bind_ext.
  - intros w0. apply H. now left.
  - intros acc' w0. apply IH. intros acc0 a' w1 Hin. apply H. now right.
Qed.

Lemma bind_lift_ext {W A B} (o : outcome A) (k1 k2 : A -> M W B) :
  (forall a, o = Return a -> forall w, k1 a w = k2 a w) ->
  forall w, bind (lift o) k1 w = bind (lift o) k2 w.
Proof.
  intros H w. unfold bind, lift. destruct o as [a | e]; [now apply H | reflexivity].
Qed.

Lemma bind_assoc {W A B C} (m : M W A) (f : A -> M W B) (g : B -> M W C) (w : W) :
  bind (bind m f) g w = bind m (fun a => bind (f a) g) w.
Proof. unfold bind. destruct (m w) as [w' [a | e]]; reflexivity. Qed.

Lemma bind_ret_l {W A B} (a : A) (f : A -> M W B) (w : W) :
  bind (ret a) f w = f a w.
Proof. reflexivity. Qed.

Lemma bind_ret_r {W A} (m : M W A) (w : W) : bind m (fun a => ret a) w = m w.
Proof. unfold bind, ret. destruct (m w) as [w' [a | e]]; reflexivity. Qed.

Lemma omap_item_dicts (dicts : list (list (value * value))) (i : nat)
    (sel : list (value * value) -> list value) (proj : value * value -> value) :
  (forall d, sel d = map proj d) ->
  (forall d, In d dicts -> i < List.length d) ->
  omap (fun d => py_index (sel d) i) dicts
  = Return (map (fun d => proj (nth i d (VNone, VNone))) dicts).
Proof.
  intros Hsel. induction dicts as [| d t IH]; intros H; [reflexivity |].
  cbn [map omap]. unfold py_index at 1. rewrite Hsel.
  rewrite (nth_error_nth' (map proj d) (proj (VNone, VNone)))
    by (rewrite length_map; apply H; now left).
  cbn [obind]. rewrite IH by (intros d' Hd'; apply H; now right).
  now rewrite map_nth.
Qed.

Lemma list_comp_returns {W A B} (f : A -> M W B) (l : list A) :
  (forall a, In a l -> forall w, exists w' b, f a w = (w', Return b)) ->
  forall w, exists w' bs,
    list_comp f l w = (w', Return bs) /\
    Forall2 (fun a b => exists w1 w2, f a w1 = (w2, Return b)) l bs.
Proof.
  induction l as [| a t IH]; intros H w.
  - exists w, []. split; [reflexivity | constructor].
  - destruct (H a (or_introl eq_refl) w) as [w1 [b Hb]].
    destruct (IH (fun a' Ha' => H a' (or_intror Ha')) w1) as [w2 [bs [Hbs HF]]].
    exists w2, (b :: bs). split.
    + cbn [list_comp]. unfold bind. now rewrite Hb, Hbs.
    + constructor; [now exists w, w1 | exact HF].
Qed.

(** ** Nesting depth *)

Lemma list_max_map_ge {A} (f : A -> nat) (l : list A) (x : A) :
  In x l -> f x <= list_max (map f l).
Proof.
  unfold list_max.
  induction l as [| a t IH]; intros Hin; [destruct Hin |].
  cbn [map fold_right]. destruct Hin as [-> | Hin]; [lia |].
  specialize (IH Hin). lia.
Qed.

Lemma list_max_map_le {A} (f : A -> nat) (l : list A) (n : nat) :
  (forall x, In x l -> f x <= n) -> list_max (map f l) <= n.
Proof.
  unfold list_max.
  induction l as [| a t IH]; intros H; cbn [map fold_right]; [lia |].
  assert (f a <= n) by (apply H; now left).
  assert (fold_right Nat.max 0 (map f t) <= n)
    by (apply IH; intros x Hx; apply H; now right).
  lia.
Qed.

Lemma rank_element (l : list value) (x : value) :
  In x l -> rank x <= list_max (map rank l).
Proof. apply list_max_map_ge. Qed.

(** [dict_set] and [dict_of_items] only store values they were given. *)
Lemma dict_set_values (d : list (value * value)) (k x : value) (kv : value * value) :
  In kv (dict_set d k x) -> snd kv = x \/ In kv d.
Proof.
  induction d as [| [k' x'] t IH]; cbn [dict_set]; intros Hin.
  - destruct Hin as [<- | []]. now left.
  - destruct (py_eqb k k').
    + destruct Hin as [<- | Hin]; [now left | right; now right].
    + destruct Hin as [<- | Hin]; [right; now left |].
      destruct (IH Hin) as [? | ?]; [now left | right; now right].
Qed.

Lemma fold_dict_set_values (items d : list (value * value)) (kv : value * value) :
  In kv (fold_left (fun d kv => dict_set d (fst kv) (snd kv)) items d) ->
  In (snd kv) (map snd items) \/ In kv d.
Proof.
  revert d. induction items as [| [k x] t IH]; cbn [fold_left map]; intros d Hin.
  - now right.
  - destruct (IH _ Hin) as [H | H]; [left; now right |].
    destruct (dict_set_values _ _ _ _ H) as [H' | H']; [left; now left | now right].
Qed.

Lemma dict_of_items_values (items : list (value * value)) (kv : value * value) :
  In kv (dict_of_items items) -> In (snd kv) (map snd items).
Proof.
  intros Hin. destruct (fold_dict_set_values _ _ _ Hin) as [H | []]. exact H.
Qed.

Lemma rank_dict_of_items (items : list (value * value)) :
  rank (VDict (dict_of_items items)) <= rank (VDict items).
Proof.
  cbn [rank]. apply le_n_S. apply list_max_map_le. intros [k x] Hin.
  apply dict_of_items_values in Hin. cbn [snd] in Hin.
  apply in_map_iff in Hin. destruct Hin as [[k' x'] [Heq Hin]]. cbn [snd] in Heq. subst x'.
  apply (list_max_map_ge (fun kv : value * value => let '(_, x) := kv in rank x) _ _ Hin).
Qed.

Lemma rank_to_dict_list (obj d : value) :
  to_dict_list obj = Return d -> rank d < rank obj.
Proof.
  destruct obj; try discriminate. cbn [to_dict_list]. intros [= <-].
  eapply Nat.le_lt_trans; [apply rank_dict_of_items |].
  cbn [rank]. apply le_n_S, le_n_S.
  apply list_max_map_le. intros [k x] Hin.
  apply in_map_iff in Hin. destruct Hin as [[c col] [[= <- <-] Hin]].
  cbn [rank]. apply le_n_S.
  apply (list_max_map_ge (fun c : value * list value =>
                            let '(_, col) := c in list_max (map rank col)) _ _ Hin).
Qed.

Lemma rank_to_dict (obj d : value) :
  to_dict obj = Return d -> rank d < rank obj.
Proof.
  destruct obj; try discriminate. cbn [to_dict]. intros [= <-].
  eapply Nat.le_lt_trans; [apply rank_dict_of_items |].
  cbn [rank]. lia.
Qed.

Lemma isinstance_dict (items : list (value * value)) :
  isinstance (VDict items) [t_dict] = true.
Proof. reflexivity. Qed.

(** ** Sections and conversions go down in depth *)

Lemma omap_Forall2 {A B} (f : A -> outcome B) (l : list A) (r : list B) :
  omap f l = Return r -> Forall2 (fun a b => f a = Return b) l r.
Proof.
  revert r. induction l as [| a t IH]; cbn [omap]; intros r H.
  - injection H as <-. constructor.
  - destruct (f a) as [b | e] eqn:Hb; cbn [obind] in H; [| discriminate].
    destruct (omap f t) as [bs | e] eqn:Hbs; cbn [obind] in H; [| discriminate].
    injection H as <-. constructor; [exact Hb | now apply IH].
Qed.

Lemma Forall2_In_r {A B} (R : A -> B -> Prop) (l : list A) (r : list B) (b : B) :
  Forall2 R l r -> In b r -> exists a, In a l /\ R a b.
Proof.
  induction 1 as [| a0 b0 l r HR _ IH]; intros Hin; [destruct Hin |].
  destruct Hin as [<- | Hin].
  - exists a0. split; [now left | exact HR].
  - destruct (IH Hin) as [a [Ha HRa]]. exists a. split; [now right | exact HRa].
Qed.

Lemma ranks_lt (objects args : list value) :
  args <> [] ->
  (forall x, In x args -> exists obj, In obj objects /\ rank x < rank obj) ->
  ranks args < ranks objects.
Proof.
  intros Hne H. unfold ranks. apply list_max_lt.
  - destruct args; [congruence | discriminate].
  - apply Forall_forall. intros k Hk. apply in_map_iff in Hk.
    destruct Hk as [x [<- Hx]]. destruct (H x Hx) as [obj [Hobj Hlt]].
    apply (list_max_map_ge rank) in Hobj. lia.
Qed.

Lemma rank_py_index (l : list value) (i : nat) (x : value) :
  py_index l i = Return x -> In x l.
Proof.
  unfold py_index. destruct (nth_error l i) eqn:Hn; [| discriminate].
  intros [= <-]. eapply nth_error_In; eassumption.
Qed.

Lemma rank_py_getitem (obj : value) (i : nat) (x : value) :
  py_getitem obj i = Return x -> rank x < rank obj.
Proof.
  destruct obj; try discriminate; cbn [py_getitem]; intros H;
    apply rank_py_index, rank_element in H; cbn [rank]; lia.
Qed.

Lemma rank_py_values (obj : value) (vs : list value) (i : nat) (x : value) :
  py_values obj = Return vs -> py_index vs i = Return x -> rank x < rank obj.
Proof.
  destruct obj; try discriminate; cbn [py_values]; intros [= <-] H;
    apply rank_py_index in H; apply in_map_iff in H;
    destruct H as [[k x'] [Hx Hin]]; cbn [snd] in Hx; subst x';
    apply (list_max_map_ge (fun kv : value * value => let '(_, x) := kv in rank x)) in Hin;
    cbn [rank]; lia.
Qed.

(** The section of lists at index [i]. *)
Lemma rank_section_list (objects : list value) (i : nat) (el : value) (args : list value) :
  get_section objects i "list" = Return el ->
  py_iter el = Return args ->
  forall x, In x args -> exists obj, In obj objects /\ rank x < rank obj.
Proof.
  unfold get_section. cbn [String.eqb Ascii.eqb Bool.eqb].
  destruct (omap (fun obj => py_getitem obj i) objects) as [els | e] eqn:Hels;
    cbn [obind]; [| discriminate].
  intros [= <-]. cbn [py_iter]. intros [= <-] x Hx.
  apply omap_Forall2 in Hels.
  destruct (Forall2_In_r x Hels Hx) as [obj [Hobj Hget]].
  exists obj. split; [exact Hobj | now apply rank_py_getitem in Hget].
Qed.

(** The values of the mappings at position [i]. *)
Lemma rank_values_at (objects : list value) (i : nat) (val_el : list value) :
  omap (fun obj => vs <~ py_values obj ;; py_index vs i) objects = Return val_el ->
  forall x, In x val_el -> exists obj, In obj objects /\ rank x < rank obj.
Proof.
  intros H x Hx. apply omap_Forall2 in H.
  destruct (Forall2_In_r x H Hx) as [obj [Hobj Hget]].
  exists obj. split; [exact Hobj |].
  destruct (py_values obj) as [vs | e] eqn:Hvs; cbn [obind] in Hget; [| discriminate].
  eapply rank_py_values; eassumption.
Qed.

(** What [get_section] returns for ["dict"]. *)
Lemma get_section_dict (objects : list value) (i : nat) (section : value) :
  get_section objects i "dict" = Return section ->
  exists key_el val_el,
    keys_at objects i = Return key_el /\ values_at objects i = Return val_el /\
    section = VTuple [VList key_el; VTuple val_el].
Proof.
  unfold get_section, keys_at, values_at. cbn [String.eqb Ascii.eqb Bool.eqb].
  destruct (omap (fun obj => ks <~ py_keys obj ;; py_index ks i) objects) as [key_el | e];
    cbn [obind]; [| discriminate].
  destruct (omap (fun obj => vs <~ py_values obj ;; py_index vs i) objects) as [val_el | e];
    cbn [obind]; [| discriminate].
  intros [= <-]. now exists key_el, val_el.
Qed.

Lemma rank_section_dict (objects : list value) (i : nat) (section key_el val_el : value)
    (vals : list value) :
  get_section objects i "dict" = Return section ->
  unpack2 section = Return (key_el, val_el) ->
  py_iter val_el = Return vals ->
  forall x, In x vals -> exists obj, In obj objects /\ rank x < rank obj.
Proof.
  intros Hs Hu Hv. apply get_section_dict in Hs.
  destruct Hs as [ks [vs [_ [Hvs ->]]]]. cbn in Hu. injection Hu as <- <-.
  cbn in Hv. injection Hv as <-. now apply rank_values_at with (i := i).
Qed.

Lemma all_types_same_nil_false (args : list value) (types : list pytype) :
  all_types_same args types = false -> args <> [].
Proof. destruct args; [discriminate | discriminate]. Qed.

(** A conversion that lowers the depth of every object lowers [ranks]. *)
Lemma ranks_omap (conv : value -> outcome value) (objects news : list value) :
  objects <> [] ->
  (forall obj d, In obj objects -> conv obj = Return d -> rank d < rank obj) ->
  omap conv objects = Return news ->
  ranks news < ranks objects.
Proof.
  intros Hne Hconv H. apply omap_Forall2 in H.
  apply ranks_lt.
  - destruct H; [congruence | discriminate].
  - intros x Hx. destruct (Forall2_In_r x H Hx) as [obj [Hobj Hc]].
    exists obj. split; [exact Hobj | now apply (Hconv obj)].
Qed.

(** After [argument_consistency], every object has the type of the first. *)
Lemma isinstance1_container (v : value) (typ : pytype) :
  In typ CONTAINER_TYPES -> isinstance1 v typ = true -> type_of v = typ.
Proof.
  intros Hin H. unfold isinstance1, issubclass, pytype_eqb in H.
  destruct (pytype_eq_dec (type_of v) typ) as [Heq | Hne]; [exact Heq |].
  cbn [orb] in H. cbn in Hin.
  repeat (destruct Hin as [<- | Hin];
          [destruct (type_of v) as [| | | | t | | | | | | | | |]; try discriminate;
           destruct t; discriminate |]).
  destruct Hin.
Qed.

Lemma argument_consistency_types (objects : list value) (first : value) :
  argument_consistency objects CONTAINER_TYPES = true ->
  py_index objects 0 = Return first ->
  forall obj, In obj objects -> type_of obj = type_of first.
Proof.
  unfold argument_consistency. intros H Hfirst obj Hobj.
  apply existsb_exists in H. destruct H as [typ [Htyp Hall]].
  rewrite forallb_forall in Hall. apply rank_py_index in Hfirst.
  rewrite (isinstance1_container _ Htyp (Hall _ Hobj)).
  now rewrite (isinstance1_container _ Htyp (Hall _ Hfirst)).
Qed.

Lemma rank_py_list_tuple (obj d : value) :
  type_of obj = t_tuple \/ type_of obj = t_set ->
  py_list obj = Return d -> rank d < rank obj.
Proof.
  intros [Ht | Ht]; destruct obj; try discriminate; cbn; intros [= <-]; cbn [rank]; lia.
Qed.

(** ** The decorated functions satisfy the source's recursive equations *)

Section Unfolding.

Variable W : Type.
Variable fun_name : string.
Variable fn : list value -> kwargs -> M W value.
Variable DataFrame : value -> outcome value.
Variable Series : value -> outcome value.

(** The body only calls [self] on values of smaller depth. *)
Lemma vectorize_body_ext (f g : value -> M W value) (obj : value) :
  (forall x w, rank x < rank obj -> f x w = g x w) ->
  forall w, vectorize_body fn DataFrame f obj w = vectorize_body fn DataFrame g obj w.
Proof.
  intros H w. unfold vectorize_body.
  destruct (isinstance obj TYPES); [reflexivity |].
  destruct (negb (isinstance obj CONTAINER_TYPES)); [reflexivity |].
  destruct obj; try reflexivity.
  - destruct (all_types_same l TYPES); [reflexivity |].
    apply bind_ext; [| reflexivity].
    apply list_comp_ext. intros el w0 Hin.
    destruct (isinstance el TYPES); [reflexivity |].
    apply H. cbn [rank]. apply rank_element in Hin. lia.
  - apply bind_lift_ext. intros lst [= <-] w0.
    apply bind_ext; [| reflexivity]. intros w1. apply H. cbn [rank]. lia.
  - apply bind_lift_ext. intros lst [= <-] w0.
    apply bind_ext; [| reflexivity]. intros w1. apply H. cbn [rank]. lia.
  - apply bind_lift_ext. intros d Hd w0.
    apply bind_ext; [| reflexivity]. intros w1. apply H.
    now apply rank_to_dict_list.
Qed.

Lemma vectorize_upto_stable (n m : nat) :
  forall obj w, rank obj < n -> rank obj < m ->
                vectorize_upto fn DataFrame n obj w = vectorize_upto fn DataFrame m obj w.
Proof.
  revert m. induction n as [| n IH]; intros [| m] obj w Hn Hm; try lia.
  cbn [vectorize_upto]. apply logger_catch_ext. apply vectorize_body_ext.
  intros x w0 Hx. apply IH; lia.
Qed.

(** [vectorize] is the decorated body applied to itself. *)
Lemma vectorize_unfold (obj : value) (w : W) :
  vectorize fn DataFrame obj w
  = logger_catch (vectorize_body fn DataFrame (vectorize fn DataFrame) obj) w.
Proof.
  unfold vectorize at 1. cbn [vectorize_upto].
  apply logger_catch_ext. apply vectorize_body_ext.
  intros x w0 Hx. unfold vectorize. apply vectorize_upto_stable; lia.
Qed.

Lemma vectorize_param_body_ext (f g : value -> kwargs -> M W value)
    (obj : value) (params : kwargs) :
  (forall x p w, rank x < rank obj -> f x p w = g x p w) ->
  forall w, vectorize_param_body fn DataFrame f obj params w
            = vectorize_param_body fn DataFrame g obj params w.
Proof.
  intros H w. unfold vectorize_param_body.
  destruct (isinstance obj TYPES); [reflexivity |].
  destruct (negb (isinstance obj CONTAINER_TYPES)); [reflexivity |].
  destruct obj; try reflexivity.
  - destruct (all_types_same l TYPES); [reflexivity |].
    apply bind_ext; [| reflexivity].
    apply list_comp_ext. intros el w0 Hin.
    destruct (isinstance el TYPES); [reflexivity |].
    apply H. cbn [rank]. apply rank_element in Hin. lia.
  - apply bind_lift_ext. intros lst [= <-] w0.
    apply bind_ext; [| reflexivity]. intros w1. apply H. cbn [rank]. lia.
  - apply bind_lift_ext. intros lst [= <-] w0.
    apply bind_ext; [| reflexivity]. intros w1. apply H. cbn [rank]. lia.
  - apply bind_lift_ext. intros d Hd w0.
    apply bind_ext; [| reflexivity]. intros w1. apply H.
    now apply rank_to_dict_list.
Qed.

Lemma vectorize_param_upto_stable (n m : nat) :
  forall obj params w, rank obj < n -> rank obj < m ->
    vectorize_param_upto fn DataFrame n obj params w
    = vectorize_param_upto fn DataFrame m obj params w.
Proof.
  revert m. induction n as [| n IH]; intros [| m] obj params w Hn Hm; try lia.
  cbn [vectorize_param_upto]. apply logger_catch_ext. apply vectorize_param_body_ext.
  intros x p w0 Hx. apply IH; lia.
Qed.

Lemma vectorize_param_unfold (obj : value) (params : kwargs) (w : W) :
  vectorize_param fn DataFrame obj params w
  = logger_catch (vectorize_param_body fn DataFrame (vectorize_param fn DataFrame)
                                       obj params) w.
Proof.
  unfold vectorize_param at 1. cbn [vectorize_param_upto].
  apply logger_catch_ext. apply vectorize_param_body_ext.
  intros x p w0 Hx. unfold vectorize_param. apply vectorize_param_upto_stable; lia.
Qed.

Lemma vectorize_multi_body_ext (f g : list value -> M W value) (objects : list value) :
  (forall xs w, ranks xs < ranks objects -> f xs w = g xs w) ->
  forall w, vectorize_multi_body fun_name fn DataFrame Series f objects w
            = vectorize_multi_body fun_name fn DataFrame Series g objects w.
Proof.
  intros H w. unfold vectorize_multi_body.
  destruct (all_types_same objects TYPES); [reflexivity |].
  destruct (argument_consistency objects CONTAINER_TYPES) eqn:Hcons; [| reflexivity].
  cbn [negb]. revert w. apply bind_lift_ext. intros first Hfirst w.
  assert (Hne : objects <> []) by (intros ->; discriminate).
  pose proof (argument_consistency_types _ Hcons Hfirst) as Hty.
  destruct first; try reflexivity.
  - apply bind_ext; [reflexivity |]. intros [|] w0; [| reflexivity]. cbn [negb].
    apply bind_ext; [reflexivity |]. intros n w1.
    apply bind_ext; [| reflexivity]. apply for_each_ext. intros r i w2 _.
    apply bind_lift_ext. intros el Hel w3.
    apply bind_lift_ext. intros args Hargs w4.
    apply bind_ext; [| reflexivity]. intros w5.
    destruct (all_types_same args TYPES) eqn:Hleaf; [reflexivity |].
    apply H. apply ranks_lt; [eapply all_types_same_nil_false; eassumption |].
    eapply rank_section_list; eassumption.
  - apply bind_ext; [reflexivity |]. intros [|] w0; [| reflexivity]. cbn [negb].
    apply bind_lift_ext. intros news Hnews w1.
    apply bind_ext; [| reflexivity]. intros w2. apply H.
    apply (ranks_omap py_list Hne); [| exact Hnews].
    intros obj d Hobj. apply rank_py_list_tuple. left. now rewrite (Hty _ Hobj).
  - apply bind_ext; [reflexivity |]. intros [|] w0; [| reflexivity]. cbn [negb].
    apply bind_lift_ext. intros news Hnews w1.
    apply bind_ext; [| reflexivity]. intros w2. apply H.
    apply (ranks_omap py_list Hne); [| exact Hnews].
    intros obj d Hobj. apply rank_py_list_tuple. right. now rewrite (Hty _ Hobj).
  - apply bind_ext; [reflexivity |]. intros [|] w0; [| reflexivity]. cbn [negb].
    apply bind_ext; [reflexivity |]. intros ks w1.
    apply bind_ext; [| reflexivity]. apply for_each_ext. intros r i w2 _.
    apply bind_ext; [reflexivity |]. intros key_el w3.
    apply bind_lift_ext. intros val_el Hval w4.
    apply bind_ext; [| reflexivity]. intros w5.
    destruct (forallb (fun element => isinstance element TYPES) val_el) eqn:Hleaf;
      [reflexivity |].
    apply H. apply ranks_lt; [eapply all_types_same_nil_false; exact Hleaf |].
    eapply rank_values_at; eassumption.
  - apply bind_ext; [reflexivity |]. intros [|] w0; [| reflexivity]. cbn [negb].
    apply bind_lift_ext. intros news Hnews w1.
    apply bind_ext; [| reflexivity]. intros w2. apply H.
    apply (ranks_omap to_dict_list Hne); [| exact Hnews].
    intros obj d _. apply rank_to_dict_list.
  - apply bind_ext; [reflexivity |]. intros [|] w0; [| reflexivity]. cbn [negb].
    apply bind_lift_ext. intros news Hnews w1.
    apply bind_ext; [| reflexivity]. intros w2. apply H.
    apply (ranks_omap to_dict Hne); [| exact Hnews].
    intros obj d _. apply rank_to_dict.
Qed.

Lemma vectorize_multi_upto_stable (n m : nat) :
  forall objects w, ranks objects < n -> ranks objects < m ->
    vectorize_multi_upto fun_name fn DataFrame Series n objects w
    = vectorize_multi_upto fun_name fn DataFrame Series m objects w.
Proof.
  revert m. induction n as [| n IH]; intros [| m] objects w Hn Hm; try lia.
  cbn [vectorize_multi_upto]. apply logger_catch_ext. apply vectorize_multi_body_ext.
  intros xs w0 Hx. apply IH; lia.
Qed.

Lemma vectorize_multi_unfold (objects : list value) (w : W) :
  vectorize_multi fun_name fn DataFrame Series objects w
  = logger_catch (vectorize_multi_body fun_name fn DataFrame Series
                    (vectorize_multi fun_name fn DataFrame Series) objects) w.
Proof.
  unfold vectorize_multi at 1. cbn [vectorize_multi_upto].
  apply logger_catch_ext. apply vectorize_multi_body_ext.
  intros xs w0 Hx. unfold vectorize_multi. apply vectorize_multi_upto_stable; lia.
Qed.

Lemma vectorize_multi_param_body_ext (f g : list value -> kwargs -> M W value)
    (objects : list value) (params : kwargs) :
  (forall xs p w, ranks xs < ranks objects -> f xs p w = g xs p w) ->
  forall w, vectorize_multi_param_body fun_name fn DataFrame Series f objects params w
            = vectorize_multi_param_body fun_name fn DataFrame Series g objects params w.
Proof.
  intros H w. unfold vectorize_multi_param_body.
  destruct (negb (forallb (fun param => isinstance param TYPES) (map snd params)));
    [reflexivity |].
  destruct (forallb (fun obj => isinstance obj TYPES) objects); [reflexivity |].
  destruct (existsb (fun typ => forallb (fun obj => isinstance1 obj typ) objects)
                    CONTAINER_TYPES) eqn:Hcons; [| reflexivity].
  cbn [negb]. revert w. apply bind_lift_ext. intros first Hfirst w.
  assert (Hne : objects <> []) by (intros ->; discriminate).
  pose proof (argument_consistency_types _ Hcons Hfirst) as Hty.
  destruct first; try reflexivity.
  - apply bind_ext; [reflexivity |]. intros [|] w0; [| reflexivity]. cbn [negb].
    apply bind_ext; [reflexivity |]. intros n w1.
    apply bind_ext; [| reflexivity]. apply for_each_ext. intros r i w2 _.
    apply bind_lift_ext. intros el Hel w3.
    apply bind_lift_ext. intros args Hargs w4.
    apply bind_ext; [| reflexivity]. intros w5.
    destruct (dtype_consistency_in_container args TYPES) eqn:Hleaf; [reflexivity |].
    apply H. apply ranks_lt; [eapply all_types_same_nil_false; exact Hleaf |].
    eapply rank_section_list; eassumption.
  - apply bind_ext; [reflexivity |]. intros [|] w0; [| reflexivity]. cbn [negb].
    apply bind_lift_ext. intros news Hnews w1.
    apply bind_ext; [| reflexivity]. intros w2. apply H.
    apply (ranks_omap py_list Hne); [| exact Hnews].
    intros obj d Hobj. apply rank_py_list_tuple. left. now rewrite (Hty _ Hobj).
  - apply bind_ext; [reflexivity |]. intros [|] w0; [| reflexivity]. cbn [negb].
    apply bind_ext; [reflexivity |]. intros ks w1.
    apply bind_ext; [| reflexivity]. apply for_each_ext. intros r i w2 _.
    apply bind_lift_ext. intros section Hsection w3.
    apply bind_lift_ext. intros [key_el val_el] Hkv w4.
    apply bind_lift_ext. intros vals Hvals w5.
    apply bind_ext; [| reflexivity]. intros w6.
    destruct (dtype_consistency_in_container vals TYPES) eqn:Hleaf; [reflexivity |].
    apply H. apply ranks_lt; [eapply all_types_same_nil_false; exact Hleaf |].
    eapply rank_section_dict; eassumption.
  - apply bind_ext; [reflexivity |]. intros [|] w0; [| reflexivity]. cbn [negb].
    apply bind_lift_ext. intros news Hnews w1.
    apply bind_ext; [| reflexivity]. intros w2. apply H.
    apply (ranks_omap to_dict_list Hne); [| exact Hnews].
    intros obj d _. apply rank_to_dict_list.
  - apply bind_ext; [reflexivity |]. intros [|] w0; [| reflexivity]. cbn [negb].
    apply bind_lift_ext. intros news Hnews w1.
    apply bind_ext; [| reflexivity]. intros w2. apply H.
    apply (ranks_omap to_dict Hne); [| exact Hnews].
    intros obj d _. apply rank_to_dict.
Qed.

Lemma vectorize_multi_param_upto_stable (n m : nat) :
  forall objects params w, ranks objects < n -> ranks objects < m ->
    vectorize_multi_param_upto fun_name fn DataFrame Series n objects params w
    = vectorize_multi_param_upto fun_name fn DataFrame Series m objects params w.
Proof.
  revert m. induction n as [| n IH]; intros [| m] objects params w Hn Hm; try lia.
  cbn [vectorize_multi_param_upto]. apply logger_catch_ext.
  apply vectorize_multi_param_body_ext.
  intros xs p w0 Hx. apply IH; lia.
Qed.

Lemma vectorize_multi_param_unfold (objects : list value) (params : kwargs) (w : W) :
  vectorize_multi_param fun_name fn DataFrame Series objects params w
  = logger_catch (vectorize_multi_param_body fun_name fn DataFrame Series
                    (vectorize_multi_param fun_name fn DataFrame Series) objects params) w.
Proof.
  unfold vectorize_multi_param at 1. cbn [vectorize_multi_param_upto].
  apply logger_catch_ext. apply vectorize_multi_param_body_ext.
  intros xs p w0 Hx. unfold vectorize_multi_param.
  apply vectorize_multi_param_upto_stable; lia.
Qed.

End Unfolding.

(** ** Mapping lists gives a list or [None] *)

Lemma returns_only_ret {W A} (P : A -> Prop) (a : A) : P a -> returns_only P (@ret W A a).
Proof. intros HP w w' a' [= _ <-]. exact HP. Qed.

Lemma returns_only_raise {W A} (P : A -> Prop) (e : exn) : returns_only P (@raise W A e).
Proof. intros w w' a H. discriminate. Qed.

Lemma returns_only_bind {W A B} (P : B -> Prop) (m : M W A) (k : A -> M W B) :
  (forall a, returns_only P (k a)) -> returns_only P (bind m k).
Proof.
  intros Hk w w' b. unfold bind. destruct (m w) as [w0 [a | e]]; [| discriminate].
  exact (Hk a w0 w' b).
Qed.

Lemma returns_only_logger_catch {W} (P : value -> Prop) (m : M W value) :
  P VNone -> returns_only P m -> returns_only P (logger_catch m).
Proof.
  intros HN Hm w w' a. unfold logger_catch.
  destruct (m w) as [w0 [a0 | e]] eqn:Hmw.
  - intros [= _ <-]. eapply Hm. exact Hmw.
  - destruct (exn_is_Exception e); [intros [= _ <-]; exact HN | discriminate].
Qed.

Ltac returns_list :=
  repeat first
    [ apply returns_only_raise
    | apply returns_only_ret; right; eexists; reflexivity
    | apply returns_only_bind; intros ?
    | match goal with
      | |- returns_only _ (if ?b then _ else _) => destruct b
      end ].

Section ListResults.

Variable W : Type.
Variable fun_name : string.
Variable fn : list value -> kwargs -> M W value.
Variable DataFrame : value -> outcome value.
Variable Series : value -> outcome value.

Lemma vectorize_list_result (l : list value) :
  returns_only list_or_None (vectorize fn DataFrame (VList l)).
Proof.
  intros w w' a. rewrite vectorize_unfold. revert w w' a.
  apply returns_only_logger_catch; [now left |].
  unfold vectorize_body.
  change (isinstance (VList l) TYPES) with false.
  change (isinstance (VList l) CONTAINER_TYPES) with true.
  cbn [negb]. returns_list.
Qed.

Lemma vectorize_param_list_result (l : list value) (params : kwargs) :
  returns_only list_or_None (vectorize_param fn DataFrame (VList l) params).
Proof.
  intros w w' a. rewrite vectorize_param_unfold. revert w w' a.
  apply returns_only_logger_catch; [now left |].
  unfold vectorize_param_body.
  change (isinstance (VList l) TYPES) with false.
  change (isinstance (VList l) CONTAINER_TYPES) with true.
  cbn [negb]. returns_list.
Qed.

Lemma lists_not_leaves (objects : list value) (l : list value) :
  py_index objects 0 = Return (VList l) -> all_types_same objects TYPES = false.
Proof.
  intros Hfirst. destruct (all_types_same objects TYPES) eqn:Hall; [| reflexivity].
  unfold all_types_same in Hall. rewrite forallb_forall in Hall.
  now specialize (Hall _ (rank_py_index _ _ Hfirst)).
Qed.

Lemma vectorize_multi_list_result (objects : list value) (l : list value) :
  py_index objects 0 = Return (VList l) ->
  returns_only list_or_None (vectorize_multi fun_name fn DataFrame Series objects).
Proof.
  intros Hfirst w w' a. rewrite vectorize_multi_unfold. revert w w' a.
  apply returns_only_logger_catch; [now left |].
  unfold vectorize_multi_body. rewrite (lists_not_leaves _ Hfirst).
  destruct (negb (argument_consistency objects CONTAINER_TYPES));
    [apply returns_only_raise |].
  intros w w' a. unfold bind at 1. unfold lift at 1. rewrite Hfirst.
  revert w w' a. returns_list.
Qed.

Lemma vectorize_multi_param_list_result (objects : list value) (l : list value)
    (params : kwargs) :
  py_index objects 0 = Return (VList l) ->
  returns_only list_or_None
               (vectorize_multi_param fun_name fn DataFrame Series objects params).
Proof.
  intros Hfirst w w' a. rewrite vectorize_multi_param_unfold. revert w w' a.
  apply returns_only_logger_catch; [now left |].
  unfold vectorize_multi_param_body.
  destruct (negb (forallb (fun param => isinstance param TYPES) (map snd params)));
    [apply returns_only_raise |].
  change (forallb (fun obj => isinstance obj TYPES) objects)
    with (all_types_same objects TYPES).
  rewrite (lists_not_leaves _ Hfirst).
  destruct (negb (existsb (fun typ => forallb (fun obj => isinstance1 obj typ) objects)
                          CONTAINER_TYPES));
    [apply returns_only_raise |].
  intros w w' a. unfold bind at 1. unfold lift at 1. rewrite Hfirst.
  revert w w' a. returns_list.
Qed.

(** [list(obj)] is a list, so the recursive call on converted tuples and
    sets is a call on lists. *)
Lemma py_list_is_list (objects news : list value) (first : value) :
  py_index objects 0 = Return first ->
  omap py_list objects = Return news ->
  exists l, py_index news 0 = Return (VList l).
Proof.
  unfold py_index. destruct objects as [| obj t]; cbn [nth_error omap]; [discriminate |].
  intros _. unfold py_list at 1.
  destruct (py_iter obj) as [l | e]; cbn [obind]; [| discriminate].
  destruct (omap py_list t) as [bs | e]; cbn [obind]; [| discriminate].
  intros [= <-]. now exists l.
Qed.

End ListResults.

(** ** The built-in operations raise ordinary exceptions *)

Lemma oraises_Return {A} (P : exn -> Prop) (a : A) : oraises P (Return a).
Proof. intros e H. discriminate. Qed.

Lemma oraises_Raise {A} (P : exn -> Prop) (e : exn) : P e -> oraises P (@Raise A e).
Proof. intros HP e' [= <-]. exact HP. Qed.

Lemma oraises_obind {A B} (P : exn -> Prop) (o : outcome A) (k : A -> outcome B) :
  oraises P o -> (forall a, oraises P (k a)) -> oraises P (obind o k).
Proof.
  intros Ho Hk e. destruct o as [a | e0]; cbn [obind].
  - exact (Hk a e).
  - intros [= <-]. now apply Ho.
Qed.

Lemma oraises_omap {A B} (P : exn -> Prop) (f : A -> outcome B) (l : list A) :
  (forall a, oraises P (f a)) -> oraises P (omap f l).
Proof.
  intros Hf. induction l as [| a t IH]; cbn [omap].
  - apply oraises_Return.
  - apply oraises_obind; [apply Hf | intros b].
    apply oraises_obind; [apply IH | intros bs]. apply oraises_Return.
Qed.

Ltac ordinary_outcome :=
  repeat first
    [ apply oraises_Return
    | apply oraises_Raise; reflexivity
    | apply oraises_obind; [| intros ?]
    | apply oraises_omap; intros ?
    | match goal with
      | |- oraises _ (if ?b then _ else _) => destruct b
      | |- oraises _ (match ?x with _ => _ end) => destruct x
      end ].

Lemma py_index_ordinary l i : oraises ordinary (py_index l i).
Proof. unfold py_index. ordinary_outcome. Qed.

Lemma py_iter_ordinary v : oraises ordinary (py_iter v).
Proof. unfold py_iter. ordinary_outcome. Qed.

Lemma py_len_ordinary v : oraises ordinary (py_len v).
Proof. unfold py_len. ordinary_outcome. Qed.

Lemma py_keys_ordinary v : oraises ordinary (py_keys v).
Proof. unfold py_keys. ordinary_outcome. Qed.

Lemma py_values_ordinary v : oraises ordinary (py_values v).
Proof. unfold py_values. ordinary_outcome. Qed.

Lemma py_shape_ordinary v : oraises ordinary (py_shape v).
Proof. unfold py_shape. ordinary_outcome. Qed.

Lemma np_shape_ordinary v : oraises ordinary (np_shape v).
Proof. unfold np_shape. ordinary_outcome. Qed.

Lemma py_getitem_ordinary v i : oraises ordinary (py_getitem v i).
Proof. unfold py_getitem. destruct v; try (apply oraises_Raise; reflexivity); apply py_index_ordinary. Qed.

Lemma py_list_ordinary v : oraises ordinary (py_list v).
Proof. unfold py_list. apply oraises_obind; [apply py_iter_ordinary | intros]. ordinary_outcome. Qed.

Lemma py_tuple_ordinary v : oraises ordinary (py_tuple v).
Proof. unfold py_tuple. apply oraises_obind; [apply py_iter_ordinary | intros]. ordinary_outcome. Qed.

Lemma py_set_ordinary v : oraises ordinary (py_set v).
Proof. unfold py_set. apply oraises_obind; [apply py_iter_ordinary | intros]. ordinary_outcome. Qed.

Lemma to_dict_list_ordinary v : oraises ordinary (to_dict_list v).
Proof. unfold to_dict_list. ordinary_outcome. Qed.

Lemma to_dict_ordinary v : oraises ordinary (to_dict v).
Proof. unfold to_dict. ordinary_outcome. Qed.

Lemma unpack2_ordinary v : oraises ordinary (unpack2 v).
Proof. unfold unpack2. apply oraises_obind; [apply py_iter_ordinary | intros]. ordinary_outcome. Qed.

Lemma all_same_ordinary {A} (eqb : A -> A -> bool) (shape : value -> outcome A) objects :
  (forall v, oraises ordinary (shape v)) ->
  oraises ordinary (all_same eqb shape objects).
Proof.
  intros Hs. unfold all_same.
  apply oraises_obind; [| intros; apply oraises_Return].
  apply oraises_omap. intros obj.
  apply oraises_obind; [apply Hs | intros a].
  apply oraises_obind; [apply py_index_ordinary | intros first].
  apply oraises_obind; [apply Hs | intros b]. apply oraises_Return.
Qed.

Lemma len_consistency_ordinary objects ctype :
  oraises ordinary (len_consistency objects ctype).
Proof.
  unfold len_consistency.
  repeat match goal with
         | |- oraises _ (if ?b then _ else _) => destruct b
         end;
    try apply oraises_Return;
    (apply oraises_obind; [| intros; apply oraises_Return]);
    apply oraises_omap; intros obj.
  - apply oraises_obind; [apply py_len_ordinary | intros a].
    apply oraises_obind; [apply py_index_ordinary | intros first].
    apply oraises_obind; [apply py_len_ordinary | intros b]. apply oraises_Return.
  - apply oraises_obind; [apply py_keys_ordinary | intros a].
    apply oraises_obind; [apply py_index_ordinary | intros first].
    apply oraises_obind; [apply py_keys_ordinary | intros b]. apply oraises_Return.
  - apply oraises_obind; [apply py_shape_ordinary | intros a].
    apply oraises_obind; [apply py_index_ordinary | intros first].
    apply oraises_obind; [apply py_shape_ordinary | intros b]. apply oraises_Return.
  - apply oraises_obind; [apply np_shape_ordinary | intros a].
    apply oraises_obind; [apply py_index_ordinary | intros first].
    apply oraises_obind; [apply np_shape_ordinary | intros b]. apply oraises_Return.
Qed.

Lemma keys_at_ordinary objects i : oraises ordinary (keys_at objects i).
Proof.
  unfold keys_at. apply oraises_omap. intros obj.
  apply oraises_obind; [apply py_keys_ordinary | intros; apply py_index_ordinary].
Qed.

Lemma values_at_ordinary objects i : oraises ordinary (values_at objects i).
Proof.
  unfold values_at. apply oraises_omap. intros obj.
  apply oraises_obind; [apply py_values_ordinary | intros; apply py_index_ordinary].
Qed.

Lemma get_section_ordinary objects i ctype :
  oraises ordinary (get_section objects i ctype).
Proof.
  unfold get_section.
  destruct (String.eqb ctype "list").
  - apply oraises_obind; [| intros; apply oraises_Return].
    apply oraises_omap. intros obj. apply py_getitem_ordinary.
  - destruct (String.eqb ctype "dict"); [| apply oraises_Return].
    apply oraises_obind; [apply keys_at_ordinary | intros].
    apply oraises_obind; [apply values_at_ordinary | intros]. apply oraises_Return.
Qed.

Create HintDb ordinary.

#[local] Hint Resolve py_index_ordinary py_iter_ordinary py_len_ordinary py_keys_ordinary
  py_values_ordinary py_shape_ordinary np_shape_ordinary py_getitem_ordinary
  py_list_ordinary py_tuple_ordinary py_set_ordinary to_dict_list_ordinary
  to_dict_ordinary unpack2_ordinary len_consistency_ordinary get_section_ordinary
  keys_at_ordinary values_at_ordinary : ordinary.

Lemma raises_only_weaken {W A} (P Q : exn -> Prop) (m : M W A) :
  (forall e, P e -> Q e) -> raises_only P m -> raises_only Q m.
Proof. intros HPQ Hm w w' e H. apply HPQ. eapply Hm. exact H. Qed.

Lemma raises_only_ret {W A} (P : exn -> Prop) (a : A) : raises_only P (@ret W A a).
Proof. intros w w' e H. discriminate. Qed.

Lemma raises_only_raise {W A} (P : exn -> Prop) (e : exn) :
  P e -> raises_only P (@raise W A e).
Proof. intros HP w w' e' [= _ <-]. exact HP. Qed.

Lemma raises_only_lift {W A} (P : exn -> Prop) (o : outcome A) :
  oraises P o -> raises_only P (@lift W A o).
Proof. intros Ho w w' e [= _ ->]. now apply Ho. Qed.

Lemma raises_only_bind {W A B} (P : exn -> Prop) (m : M W A) (k : A -> M W B) :
  raises_only P m -> (forall a, raises_only P (k a)) -> raises_only P (bind m k).
Proof.
  intros Hm Hk w w' e. unfold bind.
  destruct (m w) as [w0 [a | e0]] eqn:Hmw.
  - exact (Hk a w0 w' e).
  - intros [= _ <-]. eapply Hm. exact Hmw.
Qed.

Lemma raises_only_list_comp {W A B} (P : exn -> Prop) (f : A -> M W B) (l : list A) :
  (forall a, raises_only P (f a)) -> raises_only P (list_comp f l).
Proof.
  intros Hf. induction l as [| a t IH]; cbn [list_comp].
  - apply raises_only_ret.
  - apply raises_only_bind; [apply Hf | intros b].
    apply raises_only_bind; [apply IH | intros bs]. apply raises_only_ret.
Qed.

Lemma raises_only_for_each {W A B} (P : exn -> Prop) (f : B -> A -> M W B) (l : list A) :
  (forall acc a, raises_only P (f acc a)) -> forall acc, raises_only P (for_each f l acc).
Proof.
  intros Hf. induction l as [| a t IH]; intros acc; cbn [for_each].
  - apply raises_only_ret.
  - apply raises_only_bind; [apply Hf | intros acc']. apply IH.
Qed.

Lemma raises_only_logger_catch {W} (P : exn -> Prop) (m : M W value) :
  raises_only P m ->
  raises_only (fun e => exn_is_Exception e = false /\ P e) (logger_catch m).
Proof.
  intros Hm w w' e. unfold logger_catch.
  destruct (m w) as [w0 [a | e0]] eqn:Hmw; [discriminate |].
  destruct (exn_is_Exception e0) eqn:He0; [discriminate |].
  intros [= _ <-]. split; [exact He0 | eapply Hm; exact Hmw].
Qed.

(** ** The exceptions the decorated functions let through *)

Section Propagation.

Variable W : Type.
Variable fun_name : string.
Variable fn : list value -> kwargs -> M W value.
Variable DataFrame : value -> outcome value.
Variable Series : value -> outcome value.

Hypothesis DataFrame_ordinary : forall data, oraises ordinary (DataFrame data).
Hypothesis Series_ordinary : forall data, oraises ordinary (Series data).

Local Abbreviation body_exn := (body_exn fn).
Local Abbreviation escaping := (escaping fn).

Lemma fn_raises (args : list value) (params : kwargs) :
  raises_only body_exn (fn args params).
Proof. intros w w' e H. right. now exists args, params, w, w'. Qed.

Lemma escaping_body_exn (A : Type) (m : M W A) :
  raises_only escaping m -> raises_only body_exn m.
Proof. apply raises_only_weaken. intros e [_ H]. now right. Qed.

Lemma lift_raises (A : Type) (o : outcome A) :
  oraises ordinary o -> raises_only body_exn (lift (W := W) o).
Proof.
  intros H. apply raises_only_lift. intros e He. left. now apply H.
Qed.

Lemma catch_escaping (m : M W value) :
  raises_only body_exn m -> raises_only escaping (logger_catch m).
Proof.
  intros H. eapply raises_only_weaken; [| apply raises_only_logger_catch; exact H].
  intros e [He [Ho | Hf]]; [unfold ordinary in Ho; congruence | now split].
Qed.

Ltac raises :=
  repeat first
    [ apply raises_only_ret
    | apply raises_only_raise; left; reflexivity
    | apply fn_raises
    | apply escaping_body_exn; solve [auto]
    | apply lift_raises; solve [auto with ordinary]
    | apply raises_only_bind; [| intros ?]
    | apply raises_only_list_comp; intros ?
    | apply raises_only_for_each; intros ? ?
    | match goal with
      | |- raises_only _ (if ?b then _ else _) => destruct b
      | |- raises_only _ (match ?x with _ => _ end) => destruct x
      end ].

Lemma vectorize_body_raises (self : value -> M W value) (obj : value) :
  (forall x, raises_only escaping (self x)) ->
  raises_only body_exn (vectorize_body fn DataFrame self obj).
Proof. intros Hself. unfold vectorize_body, dict_comp. raises. Qed.

Lemma vectorize_raises (obj : value) : raises_only escaping (vectorize fn DataFrame obj).
Proof.
  unfold vectorize. generalize (S (rank obj)) as n. intros n. revert obj.
  induction n as [| n IH]; intros obj; cbn [vectorize_upto].
  - apply raises_only_ret.
  - apply catch_escaping. now apply vectorize_body_raises.
Qed.

(** Under a recursion limit the innermost call raises [RecursionError],
    an exception the body lets through and the catcher absorbs. *)
Lemma vectorize_body_lets_through (self : value -> M W value) (obj : value) :
  (forall x, raises_only body_exn (self x)) ->
  raises_only body_exn (vectorize_body fn DataFrame self obj).
Proof.
  intros Hself. unfold vectorize_body, dict_comp.
  repeat first
    [ solve [auto]
    | apply raises_only_ret
    | apply raises_only_raise; left; reflexivity
    | apply fn_raises
    | apply lift_raises; solve [auto with ordinary]
    | apply raises_only_bind; [| intros ?]
    | apply raises_only_list_comp; intros ?
    | apply raises_only_for_each; intros ? ?
    | match goal with
      | |- raises_only _ (if ?b then _ else _) => destruct b
      | |- raises_only _ (match ?x with _ => _ end) => destruct x
      end ].
Qed.

Lemma vectorize_within_lets_through (frames : nat) (obj : value) :
  raises_only body_exn (vectorize_within fn DataFrame frames obj).
Proof.
  revert obj. induction frames as [| k IH]; intros obj; cbn [vectorize_within].
  - apply raises_only_raise. left. reflexivity.
  - apply escaping_body_exn, catch_escaping. now apply vectorize_body_lets_through.
Qed.

Lemma vectorize_within_raises (frames : nat) (obj : value) :
  0 < frames -> raises_only escaping (vectorize_within fn DataFrame frames obj).
Proof.
  destruct frames as [| k]; [lia |]. intros _. cbn [vectorize_within].
  apply catch_escaping, vectorize_body_lets_through. intros x.
  apply vectorize_within_lets_through.
Qed.

Lemma vectorize_param_body_raises (self : value -> kwargs -> M W value)
    (obj : value) (params : kwargs) :
  (forall x p, raises_only escaping (self x p)) ->
  raises_only body_exn (vectorize_param_body fn DataFrame self obj params).
Proof. intros Hself. unfold vectorize_param_body, dict_comp. raises. Qed.

Lemma vectorize_param_raises (obj : value) (params : kwargs) :
  raises_only escaping (vectorize_param fn DataFrame obj params).
Proof.
  unfold vectorize_param. generalize (S (rank obj)) as n. intros n. revert obj params.
  induction n as [| n IH]; intros obj params; cbn [vectorize_param_upto].
  - apply raises_only_ret.
  - apply catch_escaping. now apply vectorize_param_body_raises.
Qed.

Lemma all_same_lift_raises (A : Type) (eqb : A -> A -> bool)
    (shape : value -> outcome A) (objects : list value) :
  (forall v, oraises ordinary (shape v)) ->
  raises_only body_exn (lift (W := W) (all_same eqb shape objects)).
Proof. intros H. apply lift_raises. now apply all_same_ordinary. Qed.

Lemma vectorize_multi_body_raises (self : list value -> M W value)
    (objects : list value) :
  (forall xs, raises_only escaping (self xs)) ->
  raises_only body_exn (vectorize_multi_body fun_name fn DataFrame Series self objects).
Proof.
  intros Hself. unfold vectorize_multi_body.
  raises;
    try (apply all_same_lift_raises; intros v;
         first [ solve [auto with ordinary]
               | apply oraises_obind;
                 [apply py_keys_ordinary | intros; apply oraises_Return] ]);
    try (apply lift_raises; apply oraises_omap; intros obj';
         first [ solve [auto with ordinary]
               | apply oraises_obind; auto with ordinary ]).
Qed.

Lemma vectorize_multi_raises (objects : list value) :
  raises_only escaping (vectorize_multi fun_name fn DataFrame Series objects).
Proof.
  unfold vectorize_multi. generalize (S (ranks objects)) as n. intros n. revert objects.
  induction n as [| n IH]; intros objects; cbn [vectorize_multi_upto].
  - apply raises_only_ret.
  - apply catch_escaping. now apply vectorize_multi_body_raises.
Qed.

Lemma vectorize_multi_param_body_raises (self : list value -> kwargs -> M W value)
    (objects : list value) (params : kwargs) :
  (forall xs p, raises_only escaping (self xs p)) ->
  raises_only body_exn
    (vectorize_multi_param_body fun_name fn DataFrame Series self objects params).
Proof.
  intros Hself. unfold vectorize_multi_param_body.
  raises;
    try (apply lift_raises; apply oraises_omap; intros obj';
         solve [auto with ordinary]).
Qed.

Lemma vectorize_multi_param_raises (objects : list value) (params : kwargs) :
  raises_only escaping (vectorize_multi_param fun_name fn DataFrame Series objects params).
Proof.
  unfold vectorize_multi_param. generalize (S (ranks objects)) as n. intros n.
  revert objects params.
  induction n as [| n IH]; intros objects params; cbn [vectorize_multi_param_upto].
  - apply raises_only_ret.
  - apply catch_escaping. now apply vectorize_multi_param_body_raises.
Qed.

End Propagation.

(** ** The exceptions that do reach the caller *)

Lemma last_raised_snoc (l : list exn) (e : exn) : last_raised (l ++ [e]) = Some e.
Proof. unfold last_raised. rewrite map_app. cbn [map]. apply last_last. Qed.

Lemma quiet_snoc (l : list exn) (e : exn) :
  quiet (l ++ [e]) = quiet l && exn_is_Exception e.
Proof. unfold quiet. rewrite forallb_app. cbn [forallb]. now rewrite andb_true_r. Qed.

Lemma quiet_last_raised (log : list exn) (e : exn) :
  quiet log = true -> last_raised log = Some e -> exn_is_Exception e = true.
Proof.
  destruct log as [| x t] using rev_ind; [discriminate |].
  rewrite quiet_snoc, last_raised_snoc. intros Hq [= <-].
  now apply andb_prop in Hq.
Qed.

Lemma settled_reaches {A} (log : list exn) (o : outcome A) :
  settled log o ->
  (forall e, o = Raise e -> exn_is_Exception e = false) ->
  reaches log o.
Proof.
  intros Hs Hesc. destruct o as [a | e0]; cbn [settled] in Hs.
  - split.
    + intros e. split; [discriminate |].
      intros [Hlast He]. rewrite (quiet_last_raised _ Hs Hlast) in He. discriminate.
    + split; [intros _; exact Hs | intros _; now exists a].
  - rewrite (Hesc e0 eq_refl) in Hs. destruct Hs as [l [-> Hl]]. split.
    + intros e. rewrite last_raised_snoc. split.
      * intros [= <-]. split; [reflexivity | now apply Hesc].
      * intros [[= <-] _]. reflexivity.
    + split; [intros [x Hx]; discriminate |].
      rewrite quiet_snoc, (Hesc e0 eq_refl), andb_false_r. discriminate.
Qed.

Lemma faithful_ret {W A} (a : A) : faithful (@ret (list exn * W) A a).
Proof. intros log w log' w' o Hq [= <- <- <-]. exact Hq. Qed.

Lemma faithful_raise {W A} (e : exn) :
  exn_is_Exception e = true -> faithful (@raise (list exn * W) A e).
Proof. intros He log w log' w' o Hq [= <- <- <-]. cbn [settled]. now rewrite He. Qed.

Lemma faithful_lift {W A} (o : outcome A) :
  oraises ordinary o -> faithful (@lift (list exn * W) A o).
Proof.
  intros Ho log w log' w' o' Hq [= <- <- <-]. destruct o as [a | e]; cbn [settled];
    [exact Hq |].
  now rewrite (Ho e eq_refl).
Qed.

Lemma faithful_bind {W A B} (m : M (list exn * W) A) (k : A -> M (list exn * W) B) :
  faithful m -> (forall a, faithful (k a)) -> faithful (bind m k).
Proof.
  intros Hm Hk log w log' w' o Hq. unfold bind.
  destruct (m (log, w)) as [[log1 w1] [a | e]] eqn:Hmw.
  - apply (Hk a). exact (Hm _ _ _ _ _ Hq Hmw).
  - intros [= <- <- <-]. exact (Hm _ _ _ _ _ Hq Hmw).
Qed.

Lemma faithful_list_comp {W A B} (f : A -> M (list exn * W) B) (l : list A) :
  (forall a, faithful (f a)) -> faithful (list_comp f l).
Proof.
  intros Hf. induction l as [| a t IH]; cbn [list_comp].
  - apply faithful_ret.
  - apply faithful_bind; [apply Hf | intros b].
    apply faithful_bind; [apply IH | intros bs]. apply faithful_ret.
Qed.

Lemma faithful_for_each {W A B} (f : B -> A -> M (list exn * W) B) (l : list A) :
  (forall acc a, faithful (f acc a)) -> forall acc, faithful (for_each f l acc).
Proof.
  intros Hf. induction l as [| a t IH]; intros acc; cbn [for_each].
  - apply faithful_ret.
  - apply faithful_bind; [apply Hf | intros acc']. apply IH.
Qed.

Lemma faithful_logger_catch {W} (m : M (list exn * W) value) :
  faithful m -> faithful (logger_catch m).
Proof.
  intros Hm log w log' w' o Hq. unfold logger_catch.
  destruct (m (log, w)) as [[log1 w1] [a | e]] eqn:Hmw.
  - intros [= <- <- <-]. exact (Hm _ _ _ _ _ Hq Hmw).
  - pose proof (Hm _ _ _ _ _ Hq Hmw) as Hs. cbn [settled] in Hs.
    destruct (exn_is_Exception e) eqn:He; intros [= <- <- <-]; cbn [settled].
    + exact Hs.
    + now rewrite He.
Qed.

Lemma faithful_watched {W} (fn : list value -> kwargs -> M W value)
    (args : list value) (params : kwargs) :
  faithful (watched fn args params).
Proof.
  intros log w log' w' o Hq. unfold watched.
  destruct (fn args params w) as [w1 [x | e]]; intros [= <- <- <-]; cbn [settled];
    [exact Hq |].
  destruct (exn_is_Exception e) eqn:He.
  - now rewrite quiet_snoc, Hq, He.
  - now exists log.
Qed.

Section Reaching.

Variable W : Type.
Variable fun_name : string.
Variable fn : list value -> kwargs -> M W value.
Variable DataFrame : value -> outcome value.
Variable Series : value -> outcome value.

Hypothesis DataFrame_ordinary : forall data, oraises ordinary (DataFrame data).
Hypothesis Series_ordinary : forall data, oraises ordinary (Series data).

Ltac settle :=
  repeat first
    [ solve [auto]
    | apply faithful_ret
    | apply faithful_raise; reflexivity
    | apply faithful_watched
    | apply faithful_lift; solve [auto with ordinary]
    | apply faithful_bind; [| intros ?]
    | apply faithful_list_comp; intros ?
    | apply faithful_for_each; intros ? ?
    | match goal with
      | |- faithful (if ?b then _ else _) => destruct b
      | |- faithful (match ?x with _ => _ end) => destruct x
      end ].

Ltac settle_lifts :=
  try (apply faithful_lift; apply all_same_ordinary; intros v;
       first [ solve [auto with ordinary]
             | apply oraises_obind;
               [apply py_keys_ordinary | intros; apply oraises_Return] ]);
  try (apply faithful_lift; apply oraises_omap; intros obj';
       first [ solve [auto with ordinary]
             | apply oraises_obind; auto with ordinary ]).

Lemma vectorize_faithful (obj : value) : faithful (vectorize (watched fn) DataFrame obj).
Proof.
  unfold vectorize. generalize (S (rank obj)) as n. intros n. revert obj.
  induction n as [| n IH]; intros obj; cbn [vectorize_upto].
  - apply faithful_ret.
  - apply faithful_logger_catch. unfold vectorize_body, dict_comp. settle.
Qed.

Lemma vectorize_param_faithful (obj : value) (params : kwargs) :
  faithful (vectorize_param (watched fn) DataFrame obj params).
Proof.
  unfold vectorize_param. generalize (S (rank obj)) as n. intros n. revert obj params.
  induction n as [| n IH]; intros obj params; cbn [vectorize_param_upto].
  - apply faithful_ret.
  - apply faithful_logger_catch. unfold vectorize_param_body, dict_comp. settle.
Qed.

Lemma vectorize_multi_faithful (objects : list value) :
  faithful (vectorize_multi fun_name (watched fn) DataFrame Series objects).
Proof.
  unfold vectorize_multi. generalize (S (ranks objects)) as n. intros n. revert objects.
  induction n as [| n IH]; intros objects; cbn [vectorize_multi_upto].
  - apply faithful_ret.
  - apply faithful_logger_catch. unfold vectorize_multi_body. settle; settle_lifts.
Qed.

Lemma vectorize_multi_param_faithful (objects : list value) (params : kwargs) :
  faithful (vectorize_multi_param fun_name (watched fn) DataFrame Series objects params).
Proof.
  unfold vectorize_multi_param. generalize (S (ranks objects)) as n. intros n.
  revert objects params.
  induction n as [| n IH]; intros objects params; cbn [vectorize_multi_param_upto].
  - apply faithful_ret.
  - apply faithful_logger_catch. unfold vectorize_multi_param_body. settle; settle_lifts.
Qed.

End Reaching.

(** ** The constructors and leaf functions of the examples *)

Lemma frame_of_ordinary (data : value) : oraises ordinary (frame_of data).
Proof.
  unfold frame_of. destruct data;
    try (apply oraises_Raise; reflexivity); try apply oraises_Return.
  apply oraises_obind; [| intros; apply oraises_Return].
  apply oraises_omap. intros kv.
  apply oraises_obind; [apply py_iter_ordinary | intros; apply oraises_Return].
Qed.

Lemma series_of_ordinary (data : value) : oraises ordinary (series_of data).
Proof. unfold series_of. ordinary_outcome. Qed.

(** * The claims *)

(** ** Leaves and unmatched containers *)

Lemma vectorize_leaf {W} (fn : list value -> kwargs -> M W value)
    (DataFrame : value -> outcome value) (obj : value) (w : W) :
  isinstance obj TYPES = true ->
  vectorize fn DataFrame obj w = logger_catch (fn [obj] []) w.
Proof.
  intros Hleaf. rewrite vectorize_unfold. unfold vectorize_body. now rewrite Hleaf.
Qed.

Lemma logger_catch_traced {W} (fn : list value -> kwargs -> M W value)
    (args : list value) (params : kwargs) (log : list call) (w : W) :
  fst (fst (logger_catch (traced fn args params) (log, w))) = (log ++ [(args, params)])%list.
Proof.
  unfold logger_catch, traced. destruct (fn args params w) as [w' [a | e]]; cbn;
    [reflexivity |]. now destruct (exn_is_Exception e).
Qed.

(** C9. A [pd.Series] passes the container test of the single-input map
    ([pd.Series] is in [CONTAINER_TYPES]), matches no traversal branch, and
    the call returns [None]: the undecorated body returns [None] without
    raising and without calling the leaf function. *)
Theorem series_map_returns_None :
  forall (W : Type) (fn : list value -> kwargs -> M W value)
         (DataFrame : value -> outcome value)
         (items : list (value * value)) (w : W),
    isinstance (VSeries items) TYPES = false /\
    isinstance (VSeries items) CONTAINER_TYPES = true /\
    (forall self, vectorize_body fn DataFrame self (VSeries items) w = (w, Return VNone)) /\
    vectorize fn DataFrame (VSeries items) w = (w, Return VNone).
Proof.
  intros W fn DataFrame items w.
  split; [reflexivity |]. split; [reflexivity |]. split; [reflexivity |].
  now rewrite vectorize_unfold.
Qed.

(** C10. A [str], [bytes], [bytearray] or [memoryview] value is a leaf:
    [map(f, s)] is the single call [f(s)] under the catcher, so the calls
    [f] receives are exactly one, with the whole value, and its characters
    are never visited. *)
Theorem string_is_one_leaf_call :
  forall (W : Type) (fn : list value -> kwargs -> M W value)
         (DataFrame : value -> outcome value) (s : value),
    In (type_of s) [t_str; t_bytes; t_scalar t_bytearray; t_scalar t_memoryview] ->
    isinstance s TYPES = true /\
    (forall w, vectorize fn DataFrame s w = logger_catch (fn [s] []) w) /\
    (forall log w,
        fst (fst (vectorize (traced fn) DataFrame s (log, w))) = (log ++ [([s], [])])%list).
Proof.
  intros W fn DataFrame s Hty.
  assert (Hleaf : isinstance s TYPES = true).
  { unfold isinstance, isinstance1.
    cbn in Hty. destruct Hty as [<- | [<- | [<- | [<- | []]]]]; reflexivity. }
  split; [exact Hleaf |]. split.
  - intros w. now apply vectorize_leaf.
  - intros log w. rewrite vectorize_leaf by exact Hleaf. apply logger_catch_traced.
Qed.

Lemma string_is_one_leaf_call_witness :
  In (type_of (VStr "hello")) [t_str; t_bytes; t_scalar t_bytearray; t_scalar t_memoryview] /\
  fst (fst (vectorize (traced identity) frame_of (VStr "hello") ([], tt)))
  = [([VStr "hello"], [])].
Proof.
  split; [now left |].
  apply (proj2 (proj2 (string_is_one_leaf_call identity frame_of (VStr "hello")
                         (or_introl eq_refl))) [] tt).
Defined.

(** ** Exceptions of the leaf function *)

Lemma logger_catch_raise {W} (m : M W value) (w w' : W) (e : exn) :
  m w = (w', Raise e) ->
  logger_catch m w = (w', if exn_is_Exception e then Return VNone else Raise e).
Proof. intros H. unfold logger_catch. rewrite H. now destruct (exn_is_Exception e). Qed.

Lemma escaping_outside_Exception {W A} (fn : list value -> kwargs -> M W value)
    (m : M W A) (w w' : W) (o : outcome A) :
  raises_only (escaping fn) m -> m w = (w', o) ->
  forall e, o = Raise e -> exn_is_Exception e = false.
Proof. intros Hm Hrun e ->. exact (proj1 (Hm _ _ _ Hrun)). Qed.

(** C1, as the code has it.  Every decorated function is wrapped in
    [logger.catch].  An exception that leaves [map], [map_with_params],
    [zip] or [zip_with_params] does not derive from [Exception] and is one
    a call of the leaf function raised.  Conversely, whatever the input,
    the caller sees an exception exactly when the last exception the leaf
    function raised during the call does not derive from [Exception], and
    then that very exception; it sees a returned value exactly when every
    exception the leaf function raised derives from [Exception].  An
    exception that leaves the undecorated body ends the decorated call at
    once, in the world the raise left: with [None] if it derives from
    [Exception], with the exception itself otherwise. *)
Theorem fn_exception_reaches_caller_only_outside_Exception :
  forall (W : Type) (fun_name : string) (fn : list value -> kwargs -> M W value)
         (DataFrame Series : value -> outcome value),
    (forall data, oraises ordinary (DataFrame data)) ->
    (forall data, oraises ordinary (Series data)) ->
    ((forall obj, raises_only (escaping fn) (vectorize fn DataFrame obj)) /\
     (forall obj params, raises_only (escaping fn) (vectorize_param fn DataFrame obj params)) /\
     (forall objects,
         raises_only (escaping fn) (vectorize_multi fun_name fn DataFrame Series objects)) /\
     (forall objects params,
         raises_only (escaping fn)
                     (vectorize_multi_param fun_name fn DataFrame Series objects params))) /\
    ((forall obj w log w' o,
         vectorize (watched fn) DataFrame obj ([], w) = ((log, w'), o) -> reaches log o) /\
     (forall obj params w log w' o,
         vectorize_param (watched fn) DataFrame obj params ([], w) = ((log, w'), o) ->
         reaches log o) /\
     (forall objects w log w' o,
         vectorize_multi fun_name (watched fn) DataFrame Series objects ([], w)
         = ((log, w'), o) ->
         reaches log o) /\
     (forall objects params w log w' o,
         vectorize_multi_param fun_name (watched fn) DataFrame Series objects params ([], w)
         = ((log, w'), o) ->
         reaches log o)) /\
    ((forall obj w w' e,
         vectorize_body fn DataFrame (vectorize fn DataFrame) obj w = (w', Raise e) ->
         vectorize fn DataFrame obj w
         = (w', if exn_is_Exception e then Return VNone else Raise e)) /\
     (forall obj params w w' e,
         vectorize_param_body fn DataFrame (vectorize_param fn DataFrame) obj params w
         = (w', Raise e) ->
         vectorize_param fn DataFrame obj params w
         = (w', if exn_is_Exception e then Return VNone else Raise e)) /\
     (forall objects w w' e,
         vectorize_multi_body fun_name fn DataFrame Series
                              (vectorize_multi fun_name fn DataFrame Series) objects w
         = (w', Raise e) ->
         vectorize_multi fun_name fn DataFrame Series objects w
         = (w', if exn_is_Exception e then Return VNone else Raise e)) /\
     (forall objects params w w' e,
         vectorize_multi_param_body fun_name fn DataFrame Series
                                    (vectorize_multi_param fun_name fn DataFrame Series)
                                    objects params w
         = (w', Raise e) ->
         vectorize_multi_param fun_name fn DataFrame Series objects params w
         = (w', if exn_is_Exception e then Return VNone else Raise e))) /\
    (forall obj w w' e,
        isinstance obj TYPES = true ->
        fn [obj] [] w = (w', Raise e) ->
        vectorize fn DataFrame obj w
        = (w', if exn_is_Exception e then Return VNone else Raise e)).
Proof.
  intros W fun_name fn DataFrame Series HD HS.
  split; [| split; [| split]].
  - split; [intros; now apply vectorize_raises |].
    split; [intros; now apply vectorize_param_raises |].
    split; [intros; now apply vectorize_multi_raises |].
    intros; now apply vectorize_multi_param_raises.
  - split; [| split; [| split]].
    + intros obj w log w' o Hrun. apply settled_reaches.
      * exact (@vectorize_faithful W fn DataFrame HD obj [] w log w' o eq_refl Hrun).
      * eapply escaping_outside_Exception; [| exact Hrun].
        now apply vectorize_raises.
    + intros obj params w log w' o Hrun. apply settled_reaches.
      * exact (@vectorize_param_faithful W fn DataFrame HD obj params [] w log w' o
                 eq_refl Hrun).
      * eapply escaping_outside_Exception; [| exact Hrun].
        now apply vectorize_param_raises.
    + intros objects w log w' o Hrun. apply settled_reaches.
      * exact (@vectorize_multi_faithful W fun_name fn DataFrame Series HD HS objects
                 [] w log w' o eq_refl Hrun).
      * eapply escaping_outside_Exception; [| exact Hrun].
        now apply vectorize_multi_raises.
    + intros objects params w log w' o Hrun. apply settled_reaches.
      * exact (@vectorize_multi_param_faithful W fun_name fn DataFrame Series HD HS objects
                 params [] w log w' o eq_refl Hrun).
      * eapply escaping_outside_Exception; [| exact Hrun].
        now apply vectorize_multi_param_raises.
  - split; [| split; [| split]].
    + intros obj w w' e Hbody. rewrite vectorize_unfold. now apply logger_catch_raise.
    + intros obj params w w' e Hbody. rewrite vectorize_param_unfold.
      now apply logger_catch_raise.
    + intros objects w w' e Hbody. rewrite vectorize_multi_unfold.
      now apply logger_catch_raise.
    + intros objects params w w' e Hbody. rewrite vectorize_multi_param_unfold.
      now apply logger_catch_raise.
  - intros obj w w' e Hleaf Hfn.
    rewrite vectorize_leaf by exact Hleaf. now apply logger_catch_raise.
Qed.

Lemma fn_exception_reaches_caller_only_outside_Exception_witness :
  vectorize_multi "f" (watched interrupted) frame_of series_of
                  [VList [VList [VInt 1]]; VList [VList [VInt 2]]] ([], tt)
  = (([interrupt], tt), Raise interrupt) /\
  reaches [interrupt] (@Raise value interrupt).
Proof.
  split; [reflexivity |].
  exact (proj1 (proj2 (proj2 (proj1 (proj2
           (@fn_exception_reaches_caller_only_outside_Exception
              unit "f" interrupted frame_of series_of
              frame_of_ordinary series_of_ordinary)))))
           [VList [VList [VInt 1]]; VList [VList [VInt 2]]] tt [interrupt] tt
           (Raise interrupt) eq_refl).
Defined.

(** C1 as stated fails: [ValueError] raised by the leaf function does not
    reach the caller of any of the four operations; each returns [None]. *)
Lemma ValueError_of_fn_is_absorbed :
  always_raises [VInt 1] [] tt = (tt, Raise boom) /\
  vectorize always_raises frame_of (VInt 1) tt = (tt, Return VNone) /\
  vectorize_param always_raises frame_of (VInt 1) [("scale", VInt 2)] tt
  = (tt, Return VNone) /\
  vectorize_multi "f" always_raises frame_of series_of [VInt 1; VInt 2] tt
  = (tt, Return VNone) /\
  vectorize_multi_param "f" always_raises frame_of series_of [VInt 1; VInt 2]
                        [("scale", VInt 2)] tt
  = (tt, Return VNone).
Proof. repeat split. Qed.

(** ** Parameter forwarding *)

(** C2 at the failing input: [map_with_params(times, [1, [2, 3]], scale=2)]
    calls [times(1, scale=2)], then [times(2)] and [times(3)] without the
    parameter, and returns [[2, [2, 3]]]. *)
Theorem map_with_params_drops_params_below_top_level :
  vectorize_param (traced times) frame_of
                  (VList [VInt 1; VList [VInt 2; VInt 3]]) [("scale", VInt 2)] ([], tt)
  = (([([VInt 1], [("scale", VInt 2)]); ([VInt 2], []); ([VInt 3], [])], tt),
     Return (VList [VInt 2; VList [VInt 2; VInt 3]])).
Proof. vm_compute. reflexivity. Qed.

(** The flat example of the spec does forward the parameter. *)
Lemma map_with_params_flat_list :
  vectorize_param (traced times) frame_of
                  (VList [VInt 1; VInt 2; VInt 3]) [("scale", VInt 2)] ([], tt)
  = (([([VInt 1], [("scale", VInt 2)]); ([VInt 2], [("scale", VInt 2)]);
       ([VInt 3], [("scale", VInt 2)])], tt),
     Return (VList [VInt 2; VInt 4; VInt 6])).
Proof. vm_compute. reflexivity. Qed.

(** The sibling [zip_with_params] forwards the parameter at every level. *)
Lemma zip_with_params_nested_list :
  vectorize_multi_param "times" (traced times) frame_of series_of
                        [VList [VInt 1; VList [VInt 2; VInt 3]]] [("scale", VInt 2)] ([], tt)
  = (([([VInt 1], [("scale", VInt 2)]); ([VInt 2], [("scale", VInt 2)]);
       ([VInt 3], [("scale", VInt 2)])], tt),
     Return (VList [VInt 2; VList [VInt 4; VInt 6]])).
Proof. vm_compute. reflexivity. Qed.

(** ** Depth *)

Lemma rank_nest (n : nat) (x : value) : rank x = 0 -> rank (nest n x) = S n.
Proof.
  intros Hx. induction n as [| n IH]; cbn [nest rank map list_max fold_right].
  - rewrite Hx. reflexivity.
  - rewrite IH. cbn. reflexivity.
Qed.

Lemma isinstance_nest (n : nat) (x : value) : isinstance (nest n x) TYPES = false.
Proof. destruct n; reflexivity. Qed.

Lemma rank_leaf (x : value) : isinstance x TYPES = true -> rank x = 0.
Proof. destruct x; try reflexivity; discriminate. Qed.

Lemma nest_wrap (n : nat) (x : value) : nest n x = wrap (S n) x.
Proof. induction n as [| n IH]; cbn [nest wrap]; [reflexivity | now rewrite IH]. Qed.

(** The body on a one-element list whose element is not a leaf. *)
Lemma vectorize_body_singleton {W} (fn : list value -> kwargs -> M W value)
    (DataFrame : value -> outcome value) (self : value -> M W value) (x : value) (w : W) :
  isinstance x TYPES = false ->
  vectorize_body fn DataFrame self (VList [x]) w = (r <- self x ;; ret (VList [r])) w.
Proof.
  intros Hx. unfold vectorize_body.
  change (isinstance (VList [x]) TYPES) with false.
  change (isinstance (VList [x]) CONTAINER_TYPES) with true.
  cbn [negb all_types_same forallb list_comp]. rewrite Hx. cbn [andb].
  unfold bind, ret. destruct (self x w) as [w1 [r | e]]; reflexivity.
Qed.

Lemma vectorize_within_upto {W} (fn : list value -> kwargs -> M W value)
    (DataFrame : value -> outcome value) (n : nat) :
  forall obj w, rank obj < n ->
                vectorize_within fn DataFrame n obj w = vectorize_upto fn DataFrame n obj w.
Proof.
  induction n as [| n IH]; intros obj w Hn; [lia |].
  cbn [vectorize_within vectorize_upto]. apply logger_catch_ext. apply vectorize_body_ext.
  intros x w0 Hx. apply IH. lia.
Qed.

(** With room for more calls than the input is deep, the limit is not
    felt. *)
Lemma vectorize_within_enough {W} (fn : list value -> kwargs -> M W value)
    (DataFrame : value -> outcome value) (frames : nat) (obj : value) (w : W) :
  rank obj < frames ->
  vectorize_within fn DataFrame frames obj w = vectorize fn DataFrame obj w.
Proof.
  intros H. rewrite vectorize_within_upto by exact H.
  unfold vectorize. apply vectorize_upto_stable; lia.
Qed.

Lemma vectorize_within_nest {W} (fn : list value -> kwargs -> M W value)
    (DataFrame : value -> outcome value) (leaf r : value) (w w' : W) :
  isinstance leaf TYPES = true ->
  fn [leaf] [] w = (w', Return r) ->
  forall n frames, n < frames ->
    vectorize_within fn DataFrame frames (nest n leaf) w = (w', Return (nest n r)).
Proof.
  intros Hleaf Hfn. induction n as [| n IH]; intros [| k] Hk; try lia;
    cbn [vectorize_within nest].
  - unfold vectorize_body, logger_catch, bind, ret.
    change (isinstance (VList [leaf]) TYPES) with false.
    change (isinstance (VList [leaf]) CONTAINER_TYPES) with true.
    cbn [negb all_types_same forallb list_comp]. rewrite Hleaf. cbn [andb].
    unfold bind, ret. rewrite Hfn. reflexivity.
  - unfold logger_catch. rewrite vectorize_body_singleton by apply isinstance_nest.
    unfold bind, ret. rewrite IH by lia. reflexivity.
Qed.

(** Past the limit: the call that finds no room raises [RecursionError],
    the call around it absorbs it and returns [None], and the calls further
    out wrap that [None] in their lists.  The leaf function is not
    reached. *)
Lemma vectorize_within_deep {W} (fn : list value -> kwargs -> M W value)
    (DataFrame : value -> outcome value) (leaf : value) (w : W) :
  forall k n, S k <= n ->
    vectorize_within fn DataFrame (S k) (nest n leaf) w = (w, Return (wrap k VNone)).
Proof.
  assert (Hstep : forall k obj w0,
             vectorize_within fn DataFrame (S k) obj w0
             = logger_catch (vectorize_body fn DataFrame (vectorize_within fn DataFrame k) obj)
                            w0) by reflexivity.
  induction k as [| k IH]; intros [| n] Hn; try lia;
    rewrite Hstep; cbn [nest wrap]; unfold logger_catch;
    rewrite vectorize_body_singleton by apply isinstance_nest.
  - reflexivity.
  - unfold bind, ret. rewrite (IH n) by lia. reflexivity.
Qed.




(** ** Mappings in the single-input map *)

Lemma distinct_app_later (l1 l2 : list value) (k a : value) :
  distinct (l1 ++ k :: l2) = true -> In a l1 -> py_eqb k a = false.
Proof.
  induction l1 as [| x t IH]; intros Hd Hin; [destruct Hin |].
  cbn [app distinct] in Hd. apply andb_prop in Hd. destruct Hd as [Hx Ht].
  destruct Hin as [<- | Hin]; [| now apply IH].
  apply negb_true_iff in Hx.
  destruct (py_eqb k x) eqn:Hk; [| reflexivity].
  assert (existsb (fun y => py_eqb y x) (t ++ k :: l2) = true); [| congruence].
  apply existsb_exists. exists k. split; [| exact Hk].
  apply in_or_app. right. now left.
Qed.

Lemma dict_set_fresh (d : list (value * value)) (k x : value) :
  (forall kv, In kv d -> py_eqb k (fst kv) = false) ->
  dict_set d k x = (d ++ [(k, x)])%list.
Proof.
  induction d as [| [k' x'] t IH]; intros H; cbn [dict_set app]; [reflexivity |].
  pose proof (H (k', x') (or_introl eq_refl)) as Hk. cbn [fst] in Hk. rewrite Hk.
  rewrite IH; [reflexivity |].
  intros kv Hin. apply H. now right.
Qed.

Lemma list_comp_length {W A B} (f : A -> M W B) (l : list A) (w w' : W) (rs : list B) :
  list_comp f l w = (w', Return rs) -> List.length rs = List.length l.
Proof.
  revert w rs. induction l as [| a t IH]; intros w rs; cbn [list_comp].
  - intros [= _ <-]. reflexivity.
  - unfold bind at 1. destruct (f a w) as [w1 [b | e]]; [| discriminate].
    unfold bind at 1. destruct (list_comp f t w1) as [w2 [bs | e]] eqn:Ht; [| discriminate].
    intros [= <- <-]. cbn [List.length]. f_equal. eapply IH. exact Ht.
Qed.

Lemma dict_comp_distinct {W} (f : value -> M W value)
    (items acc : list (value * value)) (w w' : W) (rs : list value) :
  distinct (map fst acc ++ map fst items) = true ->
  list_comp (fun kv => f (snd kv)) items w = (w', Return rs) ->
  for_each (fun d kv => let '(key, val) := kv in
                        r <- f val ;; ret (dict_set d key r)) items acc w
  = (w', Return (acc ++ combine (map fst items) rs)%list).
Proof.
  revert acc w rs. induction items as [| [k v] t IH]; intros acc w rs Hd; cbn [list_comp for_each].
  - intros [= <- <-]. cbn. now rewrite app_nil_r.
  - cbn [snd]. unfold bind at 1 3 4. destruct (f v w) as [w1 [r | e]]; [| discriminate].
    unfold bind at 1. destruct (list_comp (fun kv => f (snd kv)) t w1) as [w2 [bs | e]] eqn:Ht;
      [| discriminate].
    intros [= <- <-]. unfold ret at 1. cbn [map fst] in Hd.
    rewrite dict_set_fresh.
    + rewrite (IH _ _ bs); [| | exact Ht].
      * cbn [map fst combine]. now rewrite <- app_assoc.
      * rewrite map_app. cbn [map fst]. now rewrite <- app_assoc.
    + intros kv Hin. eapply distinct_app_later; [exact Hd |]. now apply in_map.
Qed.

(** C4. For a mapping (with distinct keys) the single-input map calls the
    leaf function once on each value, whole and in order, never recursing,
    and returns the mapping of the same keys to the results. *)
Theorem map_of_mapping_keeps_keys :
  forall (W : Type) (fn : list value -> kwargs -> M W value)
         (DataFrame : value -> outcome value)
         (items : list (value * value)) (w w' : W) (rs : list value),
    distinct_keys items = true ->
    list_comp (fun kv => fn [snd kv] []) items w = (w', Return rs) ->
    vectorize fn DataFrame (VDict items) w
    = (w', Return (VDict (combine (map fst items) rs))) /\
    map fst (combine (map fst items) rs) = map fst items.
Proof.
  intros W fn DataFrame items w w' rs Hd Hrs. split.
  - rewrite vectorize_unfold. unfold vectorize_body.
    change (isinstance (VDict items) TYPES) with false.
    change (isinstance (VDict items) CONTAINER_TYPES) with true.
    cbn [negb]. unfold logger_catch, bind at 1, dict_comp.
    change (fun d kv => let '(key, val) := kv in
                        r <- (if isinstance (VDict items) [t_dict] then fn [val] []
                              else vectorize fn DataFrame val) ;;
                        ret (dict_set d key r))
      with (fun d kv => let '(key, val) := kv in
                        r <- fn [val] [] ;; ret (dict_set d key r)).
    rewrite (@dict_comp_distinct W (fun val => fn [val] []) items [] w w' rs Hd Hrs).
    reflexivity.
  - apply list_comp_length in Hrs.
    rewrite <- (length_map fst items) in Hrs.
    revert rs Hrs. generalize (map fst items) as ks.
    induction ks as [| k t IH]; intros [| r rs] Hlen; try discriminate; [reflexivity |].
    cbn [combine map fst]. f_equal. apply IH. now injection Hlen.
Qed.

Lemma map_of_mapping_keeps_keys_witness :
  distinct_keys [(VStr "a", VInt 1); (VStr "b", VList [VInt 2])] = true /\
  vectorize zero frame_of (VDict [(VStr "a", VInt 1); (VStr "b", VList [VInt 2])]) tt
  = (tt, Return (VDict [(VStr "a", VInt 0); (VStr "b", VInt 0)])).
Proof.
  split; [reflexivity |].
  exact (proj1 (@map_of_mapping_keeps_keys unit zero frame_of
                  [(VStr "a", VInt 1); (VStr "b", VList [VInt 2])] tt tt
                  [VInt 0; VInt 0] eq_refl eq_refl)).
Defined.

(** ** Sets *)

Lemma list_eqb_refl (l : list value) :
  (forall x, In x l -> py_eqb x x = true) -> list_eqb py_eqb l l = true.
Proof.
  induction l as [| a t IH]; intros H; cbn; [reflexivity |].
  rewrite (H a) by now left. cbn. apply IH. intros x Hx. apply H. now right.
Qed.

(** A hashable value equals itself. *)
Lemma py_eqb_refl : forall v, hashable v = true -> py_eqb v v = true.
Proof.
  fix IH 1. intros v. destruct v; cbn [hashable py_eqb]; intros H; try discriminate;
    try reflexivity.
  - apply Z.eqb_refl.
  - apply Bool.eqb_reflx.
  - apply String.eqb_refl.
  - apply String.eqb_refl.
  - rewrite String.eqb_refl. destruct (scalar_type_eq_dec t t); [reflexivity | congruence].
  - now rewrite !String.eqb_refl.
  - induction l as [| a t IHl]; cbn in *; [reflexivity |].
    apply andb_prop in H. destruct H as [Ha Ht].
    rewrite (IH a Ha). cbn. now apply IHl.
Qed.

Lemma existsb_app_l (f : value -> bool) (l1 l2 : list value) :
  existsb f l1 = true -> existsb f (l1 ++ l2) = true.
Proof. intros H. rewrite existsb_app, H. reflexivity. Qed.

Lemma distinct_snoc (s : list value) (x : value) :
  distinct s = true -> existsb (py_eqb x) s = false -> distinct (s ++ [x]) = true.
Proof.
  induction s as [| a t IH]; intros Hd Hx; cbn [app distinct]; [reflexivity |].
  cbn [distinct] in Hd. apply andb_prop in Hd. destruct Hd as [Ha Ht].
  cbn [existsb] in Hx. apply orb_false_iff in Hx. destruct Hx as [Hxa Hxt].
  rewrite IH by assumption. rewrite andb_true_r.
  rewrite existsb_app. cbn [existsb]. rewrite Hxa.
  apply negb_true_iff in Ha. rewrite Ha. reflexivity.
Qed.

Lemma set_add_distinct (s : list value) (x : value) :
  distinct s = true -> distinct (set_add s x) = true.
Proof.
  intros Hd. unfold set_add. destruct (existsb (py_eqb x) s) eqn:Hx; [exact Hd |].
  now apply distinct_snoc.
Qed.

Lemma set_add_keeps (s : list value) (x y : value) :
  existsb (py_eqb y) s = true -> existsb (py_eqb y) (set_add s x) = true.
Proof.
  intros H. unfold set_add. destruct (existsb (py_eqb x) s); [exact H |].
  now apply existsb_app_l.
Qed.

Lemma set_add_has (s : list value) (x : value) :
  hashable x = true -> existsb (py_eqb x) (set_add s x) = true.
Proof.
  intros Hx. unfold set_add. destruct (existsb (py_eqb x) s) eqn:He; [exact He |].
  rewrite existsb_app. cbn [existsb]. rewrite (py_eqb_refl _ Hx).
  now rewrite orb_true_r.
Qed.

Lemma set_add_In (s : list value) (x z : value) :
  In z (set_add s x) -> In z s \/ z = x.
Proof.
  unfold set_add. destruct (existsb (py_eqb x) s); [now left |].
  intros H. apply in_app_or in H. destruct H as [H | [<- | []]]; [now left | now right].
Qed.

Lemma fold_set_add (l s : list value) :
  distinct s = true ->
  forallb hashable l = true ->
  distinct (fold_left set_add l s) = true /\
  (forall y, In y l \/ existsb (py_eqb y) s = true ->
             existsb (py_eqb y) (fold_left set_add l s) = true) /\
  (forall z, In z (fold_left set_add l s) -> In z s \/ In z l).
Proof.
  revert s. induction l as [| x t IH]; intros s Hd Hh; cbn [fold_left].
  - split; [exact Hd |]. split.
    + intros y [[] | H]. exact H.
    + intros z Hz. now left.
  - cbn [forallb] in Hh. apply andb_prop in Hh. destruct Hh as [Hx Ht].
    destruct (IH (set_add s x) (set_add_distinct _ x Hd) Ht) as [H1 [H2 H3]].
    split; [exact H1 |]. split.
    + intros y Hy. apply H2.
      destruct Hy as [[<- | Hy] | Hy].
      * right. now apply set_add_has.
      * now left.
      * right. now apply set_add_keeps.
    + intros z Hz. destruct (H3 z Hz) as [H | H].
      * apply set_add_In in H. destruct H as [H | ->]; [now left | right; now left].
      * right. now right.
Qed.

Lemma set_of_list_spec (l : list value) :
  forallb hashable l = true ->
  distinct (set_of_list l) = true /\
  (forall y, In y l -> existsb (py_eqb y) (set_of_list l) = true) /\
  (forall z, In z (set_of_list l) -> In z l).
Proof.
  intros Hh. destruct (fold_set_add l [] eq_refl Hh) as [H1 [H2 H3]].
  split; [exact H1 |]. split.
  - intros y Hy. apply H2. now left.
  - intros z Hz. destruct (H3 z Hz) as [[] | H]. exact H.
Qed.

Lemma exact_eq_hashable : forall v, exact_eq v = true -> hashable v = true.
Proof.
  fix IH 1. intros v. destruct v; cbn [exact_eq hashable]; intros H;
    try discriminate; try reflexivity.
  induction l as [| a t IHl]; cbn in *; [reflexivity |].
  apply andb_prop in H. destruct H as [Ha Ht].
  rewrite (IH a Ha). cbn. now apply IHl.
Qed.

Lemma all_exact_hashable (l : list value) :
  forallb exact_eq l = true -> forallb hashable l = true.
Proof.
  rewrite !forallb_forall. intros H x Hx. now apply exact_eq_hashable, H.
Qed.

(** C8. For a set input, map converts the set to a list, maps the list,
    and rebuilds a set from the results.  When the results are values whose
    equality the model has exactly ([None], integers, booleans, strings,
    bytes, tuples of these), they collapse under that equality: no element
    of the rebuilt set equals another, every result equals one of its
    elements, and every element is a result. *)
Theorem map_of_set_collapses_duplicates :
  forall (W : Type) (fn : list value -> kwargs -> M W value)
         (DataFrame : value -> outcome value) (xs ys : list value) (w w' : W),
    vectorize fn DataFrame (VList xs) w = (w', Return (VList ys)) ->
    forallb exact_eq ys = true ->
    vectorize fn DataFrame (VSet xs) w = (w', Return (VSet (set_of_list ys))) /\
    distinct (set_of_list ys) = true /\
    (forall y, In y ys -> existsb (py_eqb y) (set_of_list ys) = true) /\
    (forall z, In z (set_of_list ys) -> In z ys).
Proof.
  intros W fn DataFrame xs ys w w' Hlist Hex.
  pose proof (all_exact_hashable _ Hex) as Hh.
  split; [| now apply set_of_list_spec].
  rewrite vectorize_unfold. unfold vectorize_body.
  change (isinstance (VSet xs) TYPES) with false.
  change (isinstance (VSet xs) CONTAINER_TYPES) with true.
  cbn [negb py_list py_iter obind].
  unfold logger_catch, bind, lift. rewrite Hlist.
  unfold py_set. cbn [py_iter obind]. rewrite Hh. reflexivity.
Qed.

Lemma map_of_set_collapses_duplicates_witness :
  vectorize zero frame_of (VList [VInt 1; VInt 2; VInt 3]) tt
  = (tt, Return (VList [VInt 0; VInt 0; VInt 0])) /\
  forallb exact_eq [VInt 0; VInt 0; VInt 0] = true /\
  vectorize zero frame_of (VSet [VInt 1; VInt 2; VInt 3]) tt = (tt, Return (VSet [VInt 0])) /\
  List.length (set_of_list [VInt 0; VInt 0; VInt 0]) = 1.
Proof.
  split; [reflexivity |]. split; [reflexivity |]. split; [| reflexivity].
  exact (proj1 (@map_of_set_collapses_duplicates unit zero frame_of
                  [VInt 1; VInt 2; VInt 3] [VInt 0; VInt 0; VInt 0] tt tt
                  eq_refl eq_refl)).
Defined.

(** ** Shape checks of the zip engine *)

Lemma omap_check (f : value -> outcome bool) (g : value -> bool) (objects : list value) :
  (forall obj, In obj objects -> f obj = Return (g obj)) ->
  (bs <~ omap f objects ;; Return (forallb id bs)) = Return (forallb g objects).
Proof.
  induction objects as [| a t IH]; intros H; [reflexivity |].
  cbn [omap forallb]. rewrite (H a) by now left. cbn [obind].
  assert (Ht : forall obj, In obj t -> f obj = Return (g obj))
    by (intros obj Hin; apply H; now right).
  specialize (IH Ht). destruct (omap f t) as [bs | e]; cbn [obind] in *; [| discriminate].
  injection IH as <-. reflexivity.
Qed.

Lemma list_eqb_nat_eq (a b : list nat) : list_eqb Nat.eqb a b = true -> a = b.
Proof.
  revert b. induction a as [| x a IH]; intros [| y b]; cbn; try discriminate; [reflexivity |].
  intros H. apply andb_prop in H. destruct H as [Hxy Hab].
  apply Nat.eqb_eq in Hxy. subst y. f_equal. now apply IH.
Qed.

Lemma shapes_disagree (objects : list value) (first : value) :
  (exists obj, In obj objects /\ shape_of obj <> shape_of first) ->
  forallb (shapes_agree first) objects = false.
Proof.
  intros [obj [Hin Hne]].
  destruct (forallb (shapes_agree first) objects) eqn:Hall; [| reflexivity].
  rewrite forallb_forall in Hall. specialize (Hall obj Hin).
  apply list_eqb_nat_eq in Hall. contradiction.
Qed.

Ltac check_kind Hfirst Hkind :=
  apply omap_check; intros obj Hin;
  let Hk := fresh "Hk" in
  pose proof (Hkind obj Hin) as Hk;
  destruct obj; try discriminate Hk;
  cbn [py_len py_keys py_shape np_shape obind]; rewrite Hfirst;
  cbn [py_len py_keys py_shape np_shape obind shapes_agree shape_of shape_eqb list_eqb];
  rewrite ?length_map, ?andb_true_r; reflexivity.

Lemma len_consistency_list (objects : list value) (first : value) :
  py_index objects 0 = Return first ->
  same_kind objects first ->
  In (type_of first) [t_list; t_tuple; t_set] ->
  len_consistency objects "list" = Return (forallb (shapes_agree first) objects).
Proof.
  intros Hfirst Hkind Hty. change (len_consistency objects "list") with (all_same Nat.eqb py_len objects).
  unfold all_same.
  destruct first; cbn in Hty; try (exfalso; intuition discriminate);
    check_kind Hfirst Hkind.
Qed.

Lemma len_consistency_tuple (objects : list value) (first : value) :
  py_index objects 0 = Return first ->
  same_kind objects first ->
  type_of first = t_tuple ->
  len_consistency objects "tuple" = Return (forallb (shapes_agree first) objects).
Proof.
  intros Hfirst Hkind Hty. change (len_consistency objects "tuple") with (all_same Nat.eqb py_len objects).
  unfold all_same. destruct first; try discriminate Hty. check_kind Hfirst Hkind.
Qed.

Lemma len_consistency_dict (objects : list value) (first : value) :
  py_index objects 0 = Return first ->
  same_kind objects first ->
  type_of first = t_dict ->
  len_consistency objects "dict" = Return (forallb (shapes_agree first) objects).
Proof.
  intros Hfirst Hkind Hty.
  change (len_consistency objects "dict")
    with (bs <~ omap (fun obj => a <~ py_keys obj ;; first <~ py_index objects 0 ;;
                                 b <~ py_keys first ;;
                                 Return (Nat.eqb (List.length a) (List.length b))) objects ;;
          Return (forallb id bs)).
  destruct first; try discriminate Hty. check_kind Hfirst Hkind.
Qed.

Lemma keys_count_dict (objects : list value) (first : value) :
  py_index objects 0 = Return first ->
  same_kind objects first ->
  type_of first = t_dict ->
  all_same Nat.eqb (fun obj => ks <~ py_keys obj ;; Return (List.length ks)) objects
  = Return (forallb (shapes_agree first) objects).
Proof.
  intros Hfirst Hkind Hty. unfold all_same. destruct first; try discriminate Hty.
  check_kind Hfirst Hkind.
Qed.

Lemma len_consistency_ndarray (objects : list value) (first : value) :
  py_index objects 0 = Return first ->
  same_kind objects first ->
  type_of first = np_ndarray ->
  len_consistency objects "np.ndarray" = Return (forallb (shapes_agree first) objects).
Proof.
  intros Hfirst Hkind Hty.
  change (len_consistency objects "np.ndarray") with (all_same shape_eqb np_shape objects).
  unfold all_same. destruct first; try discriminate Hty. check_kind Hfirst Hkind.
Qed.

Lemma np_shape_ndarray (objects : list value) (first : value) :
  py_index objects 0 = Return first ->
  same_kind objects first ->
  type_of first = np_ndarray ->
  all_same shape_eqb np_shape objects = Return (forallb (shapes_agree first) objects).
Proof.
  intros Hfirst Hkind Hty. unfold all_same. destruct first; try discriminate Hty.
  check_kind Hfirst Hkind.
Qed.

Lemma shape_pandas (objects : list value) (first : value) :
  py_index objects 0 = Return first ->
  same_kind objects first ->
  In (type_of first) [pd_DataFrame; pd_Series] ->
  all_same shape_eqb py_shape objects = Return (forallb (shapes_agree first) objects).
Proof.
  intros Hfirst Hkind Hty. unfold all_same.
  destruct first; cbn in Hty; try (exfalso; intuition discriminate);
    check_kind Hfirst Hkind.
Qed.

Lemma len_consistency_DataFrame (objects : list value) (first : value) :
  py_index objects 0 = Return first ->
  same_kind objects first ->
  type_of first = pd_DataFrame ->
  len_consistency objects "pd.DataFrame" = Return (forallb (shapes_agree first) objects).
Proof.
  intros Hfirst Hkind Hty.
  change (len_consistency objects "pd.DataFrame") with (all_same shape_eqb py_shape objects).
  apply shape_pandas; [exact Hfirst | exact Hkind |]. rewrite Hty. now left.
Qed.

Lemma len_consistency_Series (objects : list value) (first : value) :
  py_index objects 0 = Return first ->
  same_kind objects first ->
  type_of first = pd_Series ->
  len_consistency objects "pd.Series" = Return (forallb (shapes_agree first) objects).
Proof.
  intros Hfirst Hkind Hty.
  change (len_consistency objects "pd.Series") with (all_same shape_eqb py_shape objects).
  apply shape_pandas; [exact Hfirst | exact Hkind |]. rewrite Hty. right. now left.
Qed.

(** Containers of one kind are not all leaves and pass the kind test. *)
Lemma containers_not_leaves (objects : list value) (first : value) :
  py_index objects 0 = Return first ->
  same_kind objects first ->
  isinstance first CONTAINER_TYPES = true -> all_types_same objects TYPES = false.
Proof.
  intros Hfirst Hkind Hc. destruct (all_types_same objects TYPES) eqn:Hall; [| reflexivity].
  unfold all_types_same in Hall. rewrite forallb_forall in Hall.
  specialize (Hall first (rank_py_index _ _ Hfirst)).
  destruct first; try discriminate Hall; try discriminate Hc.
  destruct t; discriminate Hc.
Qed.

Lemma containers_consistent (objects : list value) (first : value) :
  py_index objects 0 = Return first ->
  same_kind objects first ->
  isinstance first CONTAINER_TYPES = true ->
  argument_consistency objects CONTAINER_TYPES = true.
Proof.
  intros Hfirst Hkind Hc. unfold argument_consistency. apply existsb_exists.
  exists (type_of first). split.
  - destruct first; try discriminate Hc; try (cbn; tauto).
    destruct t; discriminate Hc.
  - apply forallb_forall. intros obj Hin. unfold isinstance1.
    rewrite (Hkind obj Hin). unfold issubclass, pytype_eqb.
    destruct (pytype_eq_dec (type_of first) (type_of first)); [reflexivity | congruence].
Qed.


Lemma isinstance_container_type (first : value) :
  isinstance first CONTAINER_TYPES = true ->
  In (type_of first) [t_list; t_set; t_tuple; t_dict; np_ndarray; pd_DataFrame; pd_Series].
Proof.
  intros Hc. destruct first; try discriminate Hc; try (cbn; tauto).
  destruct t; discriminate Hc.
Qed.

Section ShapeMismatch.

Variable W : Type.
Variable fun_name : string.
Variable fn : list value -> kwargs -> M W value.
Variable DataFrame : value -> outcome value.
Variable Series : value -> outcome value.

Lemma vectorize_multi_body_mismatch (self : list value -> M W value)
    (objects : list value) (first : value) (w : W) :
  py_index objects 0 = Return first ->
  isinstance first CONTAINER_TYPES = true ->
  same_kind objects first ->
  forallb (shapes_agree first) objects = false ->
  vectorize_multi_body fun_name fn DataFrame Series self objects w
  = (w, Raise (TypeError ALL_ARGUMENTS)).
Proof.
  intros Hfirst Hc Hkind Hshape. unfold vectorize_multi_body.
  rewrite (containers_not_leaves Hfirst Hkind Hc).
  rewrite (containers_consistent Hfirst Hkind Hc). cbn [negb].
  unfold bind at 1. unfold lift at 1. rewrite Hfirst.
  pose proof (isinstance_container_type _ Hc) as Hty.
  destruct first; cbn in Hty; try (exfalso; intuition discriminate); unfold bind, lift.
  - rewrite (len_consistency_list Hfirst Hkind) by (cbn; tauto). now rewrite Hshape.
  - rewrite (len_consistency_list Hfirst Hkind) by (cbn; tauto). now rewrite Hshape.
  - rewrite (len_consistency_list Hfirst Hkind) by (cbn; tauto). now rewrite Hshape.
  - rewrite (keys_count_dict Hfirst Hkind) by reflexivity. now rewrite Hshape.
  - rewrite (np_shape_ndarray Hfirst Hkind) by reflexivity. now rewrite Hshape.
  - rewrite (shape_pandas Hfirst Hkind) by (cbn; tauto). now rewrite Hshape.
  - rewrite (shape_pandas Hfirst Hkind) by (cbn; tauto). now rewrite Hshape.
Qed.

Lemma vectorize_multi_param_body_mismatch (self : list value -> kwargs -> M W value)
    (objects : list value) (params : kwargs) (first : value) (w : W) :
  forallb (fun param => isinstance param TYPES) (map snd params) = true ->
  py_index objects 0 = Return first ->
  isinstance first CONTAINER_TYPES = true ->
  same_kind objects first ->
  forallb (shapes_agree first) objects = false ->
  vectorize_multi_param_body fun_name fn DataFrame Series self objects params w
  = (w, Raise (TypeError ALL_ARGUMENTS)).
Proof.
  intros Hparams Hfirst Hc Hkind Hshape. unfold vectorize_multi_param_body.
  rewrite Hparams. cbn [negb].
  change (forallb (fun obj => isinstance obj TYPES) objects)
    with (all_types_same objects TYPES).
  change (existsb (fun typ => forallb (fun obj => isinstance1 obj typ) objects)
                  CONTAINER_TYPES)
    with (argument_consistency objects CONTAINER_TYPES).
  rewrite (containers_not_leaves Hfirst Hkind Hc).
  rewrite (containers_consistent Hfirst Hkind Hc). cbn [negb].
  unfold bind at 1. unfold lift at 1. rewrite Hfirst.
  pose proof (isinstance_container_type _ Hc) as Hty.
  destruct first; cbn in Hty; try (exfalso; intuition discriminate); unfold bind, lift.
  - rewrite (len_consistency_list Hfirst Hkind) by (cbn; tauto). now rewrite Hshape.
  - rewrite (len_consistency_tuple Hfirst Hkind) by reflexivity. now rewrite Hshape.
  - reflexivity.
  - rewrite (len_consistency_dict Hfirst Hkind) by reflexivity. now rewrite Hshape.
  - rewrite (len_consistency_ndarray Hfirst Hkind) by reflexivity. now rewrite Hshape.
  - rewrite (len_consistency_DataFrame Hfirst Hkind) by reflexivity. now rewrite Hshape.
  - rewrite (len_consistency_Series Hfirst Hkind) by reflexivity. now rewrite Hshape.
Qed.

End ShapeMismatch.

(** C5, as the code has it.  When the inputs of the zip engine share a
    container kind and one of them differs in shape from the first, the
    undecorated function raises [TypeError("All arguments should have the
    same shape.")] before any call of the leaf function, and the catcher
    turns it into a [None] result of that call: nothing is raised to the
    caller. *)
Theorem zip_shape_mismatch_returns_None :
  forall (W : Type) (fun_name : string) (fn : list value -> kwargs -> M W value)
         (DataFrame Series : value -> outcome value)
         (objects : list value) (first : value) (w : W),
    py_index objects 0 = Return first ->
    isinstance first CONTAINER_TYPES = true ->
    same_kind objects first ->
    (exists obj, In obj objects /\ shape_of obj <> shape_of first) ->
    (forall self,
        vectorize_multi_body fun_name fn DataFrame Series self objects w
        = (w, Raise (TypeError ALL_ARGUMENTS))) /\
    vectorize_multi fun_name fn DataFrame Series objects w = (w, Return VNone) /\
    (forall params,
        forallb (fun param => isinstance param TYPES) (map snd params) = true ->
        (forall self,
            vectorize_multi_param_body fun_name fn DataFrame Series self objects params w
            = (w, Raise (TypeError ALL_ARGUMENTS))) /\
        vectorize_multi_param fun_name fn DataFrame Series objects params w
        = (w, Return VNone)).
Proof.
  intros W fun_name fn DataFrame Series objects first w Hfirst Hc Hkind Hne.
  apply shapes_disagree in Hne.
  split; [intros self; now apply vectorize_multi_body_mismatch with (first := first) |].
  split.
  - rewrite vectorize_multi_unfold. unfold logger_catch.
    now rewrite (@vectorize_multi_body_mismatch W fun_name fn DataFrame Series _
                   objects first w Hfirst Hc Hkind Hne).
  - intros params Hparams.
    split; [intros self; now apply vectorize_multi_param_body_mismatch with (first := first) |].
    rewrite vectorize_multi_param_unfold. unfold logger_catch.
    now rewrite (@vectorize_multi_param_body_mismatch W fun_name fn DataFrame Series _
                   objects params first w Hparams Hfirst Hc Hkind Hne).
Qed.

Lemma zip_shape_mismatch_returns_None_witness :
  py_index [VList [VInt 1; VInt 2; VInt 3]; VList [VInt 1; VInt 2]] 0
  = Return (VList [VInt 1; VInt 2; VInt 3]) /\
  shape_of (VList [VInt 1; VInt 2]) <> shape_of (VList [VInt 1; VInt 2; VInt 3]) /\
  vectorize_multi "add" add frame_of series_of
                  [VList [VInt 1; VInt 2; VInt 3]; VList [VInt 1; VInt 2]] tt
  = (tt, Return VNone).
Proof.
  split; [reflexivity |]. split; [discriminate |].
  refine (proj1 (proj2 (@zip_shape_mismatch_returns_None unit "add" add frame_of series_of
            [VList [VInt 1; VInt 2; VInt 3]; VList [VInt 1; VInt 2]]
            (VList [VInt 1; VInt 2; VInt 3]) tt eq_refl eq_refl _ _))).
  - intros obj [<- | [<- | []]]; reflexivity.
  - exists (VList [VInt 1; VInt 2]). split; [right; now left | discriminate].
Defined.

(** C5 as stated fails: [zip(add, [1, 2, 3], [1, 2])] raises nothing to
    its caller; it returns [None], with or without parameters. *)
Lemma zip_of_unequal_lists_returns_None :
  vectorize_multi "add" add frame_of series_of
                  [VList [VInt 1; VInt 2; VInt 3]; VList [VInt 1; VInt 2]] tt
  = (tt, Return VNone) /\
  vectorize_multi_param "add" add frame_of series_of
                        [VList [VInt 1; VInt 2; VInt 3]; VList [VInt 1; VInt 2]] [] tt
  = (tt, Return VNone) /\
  (forall e, vectorize_multi "add" add frame_of series_of
                             [VList [VInt 1; VInt 2; VInt 3]; VList [VInt 1; VInt 2]] tt
             <> (tt, Raise e)).
Proof. repeat split. intros e. discriminate. Qed.

(** ** Mappings in the zip engine *)

Lemma shapes_all_agree (objects : list value) (first : value) (n : nat) :
  py_index objects 0 = Return first ->
  (forall obj, In obj objects -> shape_of obj = [n]) ->
  forallb (shapes_agree first) objects = true.
Proof.
  intros Hfirst Hn. apply forallb_forall. intros obj Hin. unfold shapes_agree.
  rewrite (Hn obj Hin), (Hn first (rank_py_index _ _ Hfirst)).
  cbn. now rewrite Nat.eqb_refl.
Qed.

Lemma dict_set_keys (d : list (value * value)) (k x k' : value) :
  In k' (map fst (dict_set d k x)) -> In k' (map fst d) \/ k' = k.
Proof.
  induction d as [| [k0 x0] t IH]; cbn [dict_set map fst].
  - intros [<- | []]. now right.
  - destruct (py_eqb k k0); cbn [map fst]; [now left |].
    intros [<- | H]; [left; now left |].
    destruct (IH H) as [H' | ->]; [left; now right | now right].
Qed.

Lemma dict_set_keeps (d : list (value * value)) (k x k' : value) :
  In k' (map fst d) -> In k' (map fst (dict_set d k x)).
Proof.
  induction d as [| [k0 x0] t IH]; cbn [dict_set map fst]; [intros [] |].
  destruct (py_eqb k k0); cbn [map fst]; [tauto |].
  intros [<- | H]; [now left | right; now apply IH].
Qed.

Lemma dict_set_str (d : list (value * value)) (s : string) (x : value) :
  In (VStr s) (map fst (dict_set d (VStr s) x)).
Proof.
  induction d as [| [k0 x0] t IH]; cbn [dict_set map fst]; [now left |].
  destruct (py_eqb (VStr s) k0) eqn:Hk; cbn [map fst]; [| now right].
  left. destruct k0; cbn [py_eqb] in Hk; try discriminate.
  apply String.eqb_eq in Hk. now subst.
Qed.

Section ZipMappings.

Variable W : Type.
Variable fun_name : string.
Variable fn : list value -> kwargs -> M W value.
Variable DataFrame : value -> outcome value.
Variable Series : value -> outcome value.

Local Abbreviation zip := (vectorize_multi fun_name fn DataFrame Series).
Local Abbreviation zip_with_params := (vectorize_multi_param fun_name fn DataFrame Series).

Lemma zip_of_mappings (objects : list value) (first : value) (n : nat) (w : W) :
  py_index objects 0 = Return first ->
  type_of first = t_dict ->
  same_kind objects first ->
  (forall obj, In obj objects -> shape_of obj = [n]) ->
  zip objects w
  = logger_catch (r <- for_each (zip_entry fun_name fn zip [] objects) (seq 0 n) [] ;;
                  ret (VDict r)) w.
Proof.
  intros Hfirst Hty Hkind Hn.
  assert (Hc : isinstance first CONTAINER_TYPES = true)
    by (destruct first; try discriminate Hty; reflexivity).
  rewrite vectorize_multi_unfold. apply logger_catch_ext. clear w. intros w.
  unfold vectorize_multi_body.
  rewrite (containers_not_leaves Hfirst Hkind Hc).
  rewrite (containers_consistent Hfirst Hkind Hc). cbn [negb].
  unfold bind at 1. unfold lift at 1. rewrite Hfirst.
  pose proof (Hn first (rank_py_index _ _ Hfirst)) as Hn0.
  destruct first; try discriminate Hty.
  unfold bind at 1. unfold lift at 1.
  rewrite (keys_count_dict Hfirst Hkind) by reflexivity.
  rewrite (shapes_all_agree _ Hfirst Hn). cbn [negb].
  unfold bind at 1. unfold lift at 1. cbn [py_keys].
  rewrite length_map. cbn [shape_of] in Hn0. injection Hn0 as ->.
  reflexivity.
Qed.

Lemma zip_with_params_entry (self : list value -> kwargs -> M W value) (params : kwargs)
    (objects : list value) (r : list (value * value)) (i : nat) (w : W) :
  (section <- lift (get_section objects i "dict") ;;
   kv <- lift (unpack2 section) ;;
   let '(key_el, val_el) := kv in
   vals <- lift (py_iter val_el) ;;
   x <- (if dtype_consistency_in_container vals TYPES then fn vals params
         else self vals params) ;;
   ret (dict_set r (VStr (fun_name ++ py_str key_el)) x)) w
  = zip_entry fun_name fn (fun xs => self xs params) params objects r i w.
Proof.
  unfold zip_entry, bind, lift.
  change (get_section objects i "dict")
    with (key_el <~ keys_at objects i ;; val_el <~ values_at objects i ;;
          Return (VTuple [VList key_el; VTuple val_el])).
  destruct (keys_at objects i) as [key_el | e]; cbn [obind]; [| reflexivity].
  destruct (values_at objects i) as [val_el | e]; cbn [obind]; reflexivity.
Qed.

Lemma zip_with_params_of_mappings (objects : list value) (params : kwargs)
    (first : value) (n : nat) (w : W) :
  forallb (fun param => isinstance param TYPES) (map snd params) = true ->
  py_index objects 0 = Return first ->
  type_of first = t_dict ->
  same_kind objects first ->
  (forall obj, In obj objects -> shape_of obj = [n]) ->
  zip_with_params objects params w
  = logger_catch
      (r <- for_each (zip_entry fun_name fn (fun xs => zip_with_params xs params) params objects)
                     (seq 0 n) [] ;;
       ret (VDict r)) w.
Proof.
  intros Hparams Hfirst Hty Hkind Hn.
  assert (Hc : isinstance first CONTAINER_TYPES = true)
    by (destruct first; try discriminate Hty; reflexivity).
  rewrite vectorize_multi_param_unfold. apply logger_catch_ext. clear w. intros w.
  unfold vectorize_multi_param_body. rewrite Hparams. cbn [negb].
  change (forallb (fun obj => isinstance obj TYPES) objects)
    with (all_types_same objects TYPES).
  change (existsb (fun typ => forallb (fun obj => isinstance1 obj typ) objects)
                  CONTAINER_TYPES)
    with (argument_consistency objects CONTAINER_TYPES).
  rewrite (containers_not_leaves Hfirst Hkind Hc).
  rewrite (containers_consistent Hfirst Hkind Hc). cbn [negb].
  unfold bind at 1. unfold lift at 1. rewrite Hfirst.
  pose proof (Hn first (rank_py_index _ _ Hfirst)) as Hn0.
  destruct first; try discriminate Hty.
  unfold bind at 1. unfold lift at 1.
  rewrite (len_consistency_dict Hfirst Hkind) by reflexivity.
  rewrite (shapes_all_agree _ Hfirst Hn). cbn [negb].
  unfold bind at 1. unfold lift at 1. cbn [py_keys].
  rewrite length_map. cbn [shape_of] in Hn0. injection Hn0 as ->.
  revert w. apply bind_ext; [| reflexivity].
  apply for_each_ext. intros r i w _. apply zip_with_params_entry.
Qed.

Lemma zip_entry_inv (self : list value -> M W value) (params : kwargs)
    (objects : list value) (r r' : list (value * value)) (i : nat) (w w' : W) :
  zip_entry fun_name fn self params objects r i w = (w', Return r') ->
  exists key_el x, keys_at objects i = Return key_el /\
                   r' = dict_set r (synthesized_key fun_name key_el) x.
Proof.
  unfold zip_entry, bind, lift, ret.
  destruct (keys_at objects i) as [key_el | e]; [| discriminate].
  destruct (values_at objects i) as [val_el | e]; [| discriminate].
  destruct (if all_types_same val_el TYPES then fn val_el params else self val_el)
    as [w1 [x | e]]; [| discriminate].
  intros [= _ <-]. now exists key_el, x.
Qed.

(** The keys the loop leaves in the mapping. *)
Lemma zip_entries_keys (self : list value -> M W value) (params : kwargs)
    (objects : list value) (l : list nat) :
  forall (acc r : list (value * value)) (w w' : W),
    for_each (zip_entry fun_name fn self params objects) l acc w = (w', Return r) ->
    forall k, In k (map fst r) <->
              (In k (map fst acc) \/
               exists i key_el, In i l /\ keys_at objects i = Return key_el /\
                                k = synthesized_key fun_name key_el).
Proof.
  induction l as [| i t IH]; intros acc r w w'; cbn [for_each].
  - intros [= _ <-] k. split; [now left |].
    intros [H | [i [key_el [[] _]]]]. exact H.
  - unfold bind at 1.
    destruct (zip_entry fun_name fn self params objects acc i w) as [w1 [acc1 | e]] eqn:Hentry;
      [| discriminate].
    intros Hrest k. apply zip_entry_inv in Hentry.
    destruct Hentry as [key_el [x [Hkeys ->]]].
    rewrite (IH _ _ _ _ Hrest k). split.
    + intros [H | [j [ks [Hj [Hks ->]]]]].
      * apply dict_set_keys in H. destruct H as [H | ->]; [now left |].
        right. exists i, key_el. split; [now left | now split].
      * right. exists j, ks. split; [now right | now split].
    + intros [H | [j [ks [[<- | Hj] [Hks ->]]]]].
      * left. now apply dict_set_keeps.
      * left. rewrite Hkeys in Hks. injection Hks as <-. apply dict_set_str.
      * right. exists j, ks. split; [exact Hj | now split].
Qed.

End ZipMappings.

(** ** The mapping the zip engine builds, position by position *)

Lemma dicts_same_kind (dicts : list (list (value * value))) (d0 : list (value * value)) :
  same_kind (map VDict dicts) (VDict d0).
Proof.
  intros obj Hin. apply in_map_iff in Hin. destruct Hin as [d [<- _]]. reflexivity.
Qed.

Lemma dicts_shape (dicts : list (list (value * value))) (n : nat) :
  (forall d, In d dicts -> List.length d = n) ->
  forall obj, In obj (map VDict dicts) -> shape_of obj = [n].
Proof.
  intros Hn obj Hin. apply in_map_iff in Hin. destruct Hin as [d [<- Hd]].
  cbn [shape_of]. now rewrite (Hn d Hd).
Qed.

Lemma keys_at_dicts (dicts : list (list (value * value))) (i : nat) :
  (forall d, In d dicts -> i < List.length d) ->
  keys_at (map VDict dicts) i = Return (keys_of dicts i).
Proof.
  intros H. unfold keys_at, keys_of, item_at.
  rewrite <- (omap_item_dicts dicts (map fst) fst (fun d => eq_refl) H).
  clear H. induction dicts as [| d t IH]; [reflexivity |].
  cbn [map omap py_keys obind]. now rewrite IH.
Qed.

Lemma values_at_dicts (dicts : list (list (value * value))) (i : nat) :
  (forall d, In d dicts -> i < List.length d) ->
  values_at (map VDict dicts) i = Return (values_of dicts i).
Proof.
  intros H. unfold values_at, values_of, item_at.
  rewrite <- (omap_item_dicts dicts (map snd) snd (fun d => eq_refl) H).
  clear H. induction dicts as [| d t IH]; [reflexivity |].
  cbn [map omap py_values obind]. now rewrite IH.
Qed.

(** A loop that stores one value per turn builds [dict(zip(keys, values))]
    on top of what it started with. *)
Lemma for_each_dict_set {W} (g : nat -> M W value) (key : nat -> value) (l : list nat) :
  forall (acc : list (value * value)) (w : W),
    for_each (fun r i => x <- g i ;; ret (dict_set r (key i) x)) l acc w
    = (xs <- list_comp g l ;;
       ret (fold_left (fun d kv => dict_set d (fst kv) (snd kv)) (combine (map key l) xs) acc)) w.
Proof.
  induction l as [| i t IH]; intros acc w; cbn [for_each list_comp].
  - reflexivity.
  - rewrite !bind_assoc. apply bind_ext; [reflexivity |]. intros x w1.
    rewrite bind_ret_l, IH, bind_assoc. apply bind_ext; [reflexivity |]. intros xs w2.
    reflexivity.
Qed.

Lemma list_comp_nth {W A B} (f : A -> M W B) (l : list A) :
  forall (w w' : W) (bs : list B),
    list_comp f l w = (w', Return bs) ->
    forall i a, nth_error l i = Some a ->
                exists w1 w2 b, f a w1 = (w2, Return b) /\ nth_error bs i = Some b.
Proof.
  induction l as [| a0 t IH]; intros w w' bs Hrun i a Hi; [destruct i; discriminate |].
  cbn [list_comp] in Hrun. unfold bind at 1 in Hrun.
  destruct (f a0 w) as [w1 [b0 | e]] eqn:Hf; [| discriminate].
  unfold bind at 1 in Hrun.
  destruct (list_comp f t w1) as [w2 [bs0 | e]] eqn:Ht; [| discriminate].
  injection Hrun as <- <-.
  destruct i as [| i]; cbn [nth_error] in *.
  - injection Hi as <-. now exists w, w1, b0.
  - exact (IH _ _ _ Ht i a Hi).
Qed.

Section ZipPositions.

Variable W : Type.
Variable fun_name : string.
Variable fn : list value -> kwargs -> M W value.
Variable DataFrame : value -> outcome value.
Variable Series : value -> outcome value.

Local Abbreviation zip := (vectorize_multi fun_name fn DataFrame Series).
Local Abbreviation zip_with_params := (vectorize_multi_param fun_name fn DataFrame Series).

Lemma zip_entry_at (self : list value -> M W value) (params : kwargs)
    (dicts : list (list (value * value))) (n : nat) (r : list (value * value))
    (i : nat) (w : W) :
  (forall d, In d dicts -> List.length d = n) ->
  In i (seq 0 n) ->
  zip_entry fun_name fn self params (map VDict dicts) r i w
  = (x <- zip_value fn self params dicts i ;;
     ret (dict_set r (synthesized_key fun_name (keys_of dicts i)) x)) w.
Proof.
  intros Hn Hi. apply in_seq in Hi.
  assert (Hlen : forall d, In d dicts -> i < List.length d)
    by (intros d Hd; rewrite (Hn d Hd); lia).
  unfold zip_entry, zip_value.
  unfold bind at 1. unfold lift at 1. rewrite (keys_at_dicts _ Hlen).
  unfold bind at 1. unfold lift at 1. rewrite (values_at_dicts _ Hlen).
  reflexivity.
Qed.

Lemma zip_loop (self : list value -> M W value) (params : kwargs)
    (dicts : list (list (value * value))) (n : nat) (w : W) :
  (forall d, In d dicts -> List.length d = n) ->
  (r <- for_each (zip_entry fun_name fn self params (map VDict dicts)) (seq 0 n) [] ;;
   ret (VDict r)) w
  = (xs <- list_comp (zip_value fn self params dicts) (seq 0 n) ;;
     ret (zipped fun_name dicts n xs)) w.
Proof.
  intros Hn.
  assert (Hloop : forall w0,
             for_each (zip_entry fun_name fn self params (map VDict dicts)) (seq 0 n) [] w0
             = (xs <- list_comp (zip_value fn self params dicts) (seq 0 n) ;;
                ret (dict_of_items
                       (combine (map (fun i => synthesized_key fun_name (keys_of dicts i))
                                     (seq 0 n)) xs))) w0).
  { intros w0.
    rewrite (for_each_ext _ (fun r i =>
               x <- zip_value fn self params dicts i ;;
               ret (dict_set r (synthesized_key fun_name (keys_of dicts i)) x)))
      by (intros acc i w1 Hi; now apply zip_entry_at with (n := n)).
    apply for_each_dict_set. }
  etransitivity; [apply bind_ext; [exact Hloop | reflexivity] |].
  rewrite bind_assoc. apply bind_ext; [reflexivity |]. intros xs w1. reflexivity.
Qed.

Lemma zip_of_dicts (d0 : list (value * value)) (rest : list (list (value * value)))
    (n : nat) (w : W) :
  (forall d, In d (d0 :: rest) -> List.length d = n) ->
  zip (map VDict (d0 :: rest)) w
  = logger_catch (xs <- list_comp (zip_value fn zip [] (d0 :: rest)) (seq 0 n) ;;
                  ret (zipped fun_name (d0 :: rest) n xs)) w.
Proof.
  intros Hn.
  rewrite (@zip_of_mappings W fun_name fn DataFrame Series (map VDict (d0 :: rest))
             (VDict d0) n w eq_refl eq_refl (dicts_same_kind _ _) (dicts_shape _ Hn)).
  apply logger_catch_ext. intros w0. now apply zip_loop.
Qed.

Lemma zip_with_params_of_dicts (d0 : list (value * value))
    (rest : list (list (value * value))) (params : kwargs) (n : nat) (w : W) :
  forallb (fun param => isinstance param TYPES) (map snd params) = true ->
  (forall d, In d (d0 :: rest) -> List.length d = n) ->
  zip_with_params (map VDict (d0 :: rest)) params w
  = logger_catch
      (xs <- list_comp (zip_value fn (fun vals => zip_with_params vals params) params
                                  (d0 :: rest)) (seq 0 n) ;;
       ret (zipped fun_name (d0 :: rest) n xs)) w.
Proof.
  intros Hp Hn.
  rewrite (@zip_with_params_of_mappings W fun_name fn DataFrame Series
             (map VDict (d0 :: rest)) params (VDict d0) n w Hp eq_refl eq_refl
             (dicts_same_kind _ _) (dicts_shape _ Hn)).
  apply logger_catch_ext. intros w0. now apply zip_loop.
Qed.

Hypothesis DataFrame_ordinary : forall data, oraises ordinary (DataFrame data).
Hypothesis Series_ordinary : forall data, oraises ordinary (Series data).
Hypothesis fn_returns : forall args params w, exists w' x, fn args params w = (w', Return x).

Lemma zip_returns (objects : list value) (w : W) :
  exists w' x, zip objects w = (w', Return x).
Proof.
  destruct (zip objects w) as [w' [x | e]] eqn:Hrun; [now exists w', x |].
  destruct (@vectorize_multi_raises W fun_name fn DataFrame Series DataFrame_ordinary
              Series_ordinary objects w w' e Hrun) as [_ [args [params [w0 [w1 Hraise]]]]].
  destruct (fn_returns args params w0) as [w2 [x Hx]]. congruence.
Qed.

Lemma zip_with_params_returns (objects : list value) (params : kwargs) (w : W) :
  exists w' x, zip_with_params objects params w = (w', Return x).
Proof.
  destruct (zip_with_params objects params w) as [w' [x | e]] eqn:Hrun; [now exists w', x |].
  destruct (@vectorize_multi_param_raises W fun_name fn DataFrame Series DataFrame_ordinary
              Series_ordinary objects params w w' e Hrun)
    as [_ [args [params' [w0 [w1 Hraise]]]]].
  destruct (fn_returns args params' w0) as [w2 [x Hx]]. congruence.
Qed.

Lemma zip_value_returns (self : list value -> M W value) (params : kwargs)
    (dicts : list (list (value * value))) (i : nat) (w : W) :
  (forall vals w0, exists w' x, self vals w0 = (w', Return x)) ->
  exists w' x, zip_value fn self params dicts i w = (w', Return x).
Proof.
  intros Hself. unfold zip_value.
  destruct (all_types_same (values_of dicts i) TYPES); [apply fn_returns | apply Hself].
Qed.

Lemma zip_of_dicts_is_dict (inner : list (list (value * value))) (m : nat)
    (w w' : W) (x : value) :
  inner <> [] ->
  (forall d, In d inner -> List.length d = m) ->
  zip (map VDict inner) w = (w', Return x) ->
  is_dict x = true.
Proof.
  intros Hne Hm. destruct inner as [| d0 rest]; [congruence |].
  rewrite (@zip_of_dicts d0 rest m w Hm). unfold logger_catch, bind.
  destruct (@list_comp_returns W nat value (zip_value fn zip [] (d0 :: rest)) (seq 0 m)
              (fun i _ w0 => @zip_value_returns zip [] (d0 :: rest) i w0 zip_returns) w)
    as [w1 [xs [Hxs _]]].
  rewrite Hxs. intros [= _ <-]. reflexivity.
Qed.

Lemma zip_with_params_of_dicts_is_dict (inner : list (list (value * value)))
    (params : kwargs) (m : nat) (w w' : W) (x : value) :
  forallb (fun param => isinstance param TYPES) (map snd params) = true ->
  inner <> [] ->
  (forall d, In d inner -> List.length d = m) ->
  zip_with_params (map VDict inner) params w = (w', Return x) ->
  is_dict x = true.
Proof.
  intros Hp Hne Hm. destruct inner as [| d0 rest]; [congruence |].
  rewrite (@zip_with_params_of_dicts d0 rest params m w Hp Hm). unfold logger_catch, bind.
  destruct (@list_comp_returns W nat value
              (zip_value fn (fun vals => zip_with_params vals params) params (d0 :: rest))
              (seq 0 m)
              (fun i _ w0 => @zip_value_returns (fun vals => zip_with_params vals params)
                               params (d0 :: rest) i w0
                               (fun vals => zip_with_params_returns vals params)) w)
    as [w1 [xs [Hxs _]]].
  rewrite Hxs. intros [= _ <-]. reflexivity.
Qed.

(** With a leaf function that always returns, the values stored for the
    positions are all computed, and a position whose values are mappings
    of equal sizes gets a mapping. *)
Lemma nested_positions (self : list value -> M W value) (params : kwargs)
    (dicts : list (list (value * value))) (n : nat) (w : W) :
  dicts <> [] ->
  (forall vals w0, exists w' x, self vals w0 = (w', Return x)) ->
  (forall inner m w0 w' x,
      inner <> [] -> (forall d, In d inner -> List.length d = m) ->
      self (map VDict inner) w0 = (w', Return x) -> is_dict x = true) ->
  exists w' xs,
    list_comp (zip_value fn self params dicts) (seq 0 n) w = (w', Return xs) /\
    List.length xs = n /\
    forall i inner m,
      i < n ->
      values_of dicts i = map VDict inner ->
      (forall d, In d inner -> List.length d = m) ->
      is_dict (nth i xs VNone) = true.
Proof.
  intros Hne Hself Hdict.
  destruct (@list_comp_returns W nat value (zip_value fn self params dicts) (seq 0 n)
              (fun i _ w0 => @zip_value_returns self params dicts i w0 Hself) w)
    as [w' [xs [Hxs _]]].
  exists w', xs. split; [exact Hxs |]. split.
  - apply list_comp_length in Hxs. now rewrite length_seq in Hxs.
  - intros i inner m Hi Hvals Hm.
    assert (Hnth : nth_error (seq 0 n) i = Some i).
    { rewrite (nth_error_nth' (seq 0 n) 0) by (rewrite length_seq; exact Hi).
      now rewrite seq_nth. }
    destruct (list_comp_nth _ _ _ Hxs i Hnth) as [w1 [w2 [b [Hb Hbi]]]].
    rewrite (nth_error_nth _ _ VNone Hbi).
    assert (Hinner : inner <> []).
    { intros ->. destruct dicts; [congruence | discriminate Hvals]. }
    unfold zip_value in Hb. rewrite Hvals in Hb.
    assert (Hleaf : all_types_same (map VDict inner) TYPES = false)
      by (destruct inner; [congruence | reflexivity]).
    rewrite Hleaf in Hb. exact (Hdict inner m w1 w2 b Hinner Hm Hb).
Qed.

End ZipPositions.

(** C3, as the code has it.  For mappings with [n] items each, both zip
    engines return [dict(zip(keys, values))]: the key of a position is the
    synthesized one, its value is the leaf function's result where the
    inputs' values at the position are all leaves and, where they are not,
    the result of zipping those values, stored as it is.  So the output is
    flat only where the inputs are: with a leaf function that always
    returns, a position whose values are mappings of equal sizes holds a
    mapping. *)
Theorem zip_of_mappings_stores_recursive_results :
  forall (W : Type) (fun_name : string) (fn : list value -> kwargs -> M W value)
         (DataFrame Series : value -> outcome value)
         (d0 : list (value * value)) (rest : list (list (value * value))) (n : nat),
    (forall d, In d (d0 :: rest) -> List.length d = n) ->
    (forall w w' xs,
        list_comp (zip_value fn (vectorize_multi fun_name fn DataFrame Series) [] (d0 :: rest))
                  (seq 0 n) w = (w', Return xs) ->
        vectorize_multi fun_name fn DataFrame Series (map VDict (d0 :: rest)) w
        = (w', Return (zipped fun_name (d0 :: rest) n xs))) /\
    (forall params w w' xs,
        forallb (fun param => isinstance param TYPES) (map snd params) = true ->
        list_comp (zip_value fn
                     (fun vals => vectorize_multi_param fun_name fn DataFrame Series vals params)
                     params (d0 :: rest))
                  (seq 0 n) w = (w', Return xs) ->
        vectorize_multi_param fun_name fn DataFrame Series (map VDict (d0 :: rest)) params w
        = (w', Return (zipped fun_name (d0 :: rest) n xs))) /\
    ((forall data, oraises ordinary (DataFrame data)) ->
     (forall data, oraises ordinary (Series data)) ->
     (forall args params w, exists w' x, fn args params w = (w', Return x)) ->
     (forall w, exists w' xs,
         list_comp (zip_value fn (vectorize_multi fun_name fn DataFrame Series) []
                              (d0 :: rest))
                   (seq 0 n) w = (w', Return xs) /\
         List.length xs = n /\
         forall i inner m,
           i < n ->
           values_of (d0 :: rest) i = map VDict inner ->
           (forall d, In d inner -> List.length d = m) ->
           is_dict (nth i xs VNone) = true) /\
     (forall params w,
         forallb (fun param => isinstance param TYPES) (map snd params) = true ->
         exists w' xs,
           list_comp (zip_value fn
                        (fun vals => vectorize_multi_param fun_name fn DataFrame Series
                                                           vals params)
                        params (d0 :: rest))
                     (seq 0 n) w = (w', Return xs) /\
           List.length xs = n /\
           forall i inner m,
             i < n ->
             values_of (d0 :: rest) i = map VDict inner ->
             (forall d, In d inner -> List.length d = m) ->
             is_dict (nth i xs VNone) = true)).
Proof.
  intros W fun_name fn DataFrame Series d0 rest n Hn.
  split; [| split].
  - intros w w' xs Hxs.
    rewrite (@zip_of_dicts W fun_name fn DataFrame Series d0 rest n w Hn).
    apply logger_catch_return. unfold bind. now rewrite Hxs.
  - intros params w w' xs Hp Hxs.
    rewrite (@zip_with_params_of_dicts W fun_name fn DataFrame Series d0 rest params n w Hp Hn).
    apply logger_catch_return. unfold bind. now rewrite Hxs.
  - intros HD HS Hfn. split.
    + intros w. apply nested_positions; [exact Hfn | discriminate | |].
      * intros vals w0. now apply zip_returns.
      * intros inner m w0 w' x Hne Hm. now apply zip_of_dicts_is_dict with (m := m).
    + intros params w Hp. apply nested_positions; [exact Hfn | discriminate | |].
      * intros vals w0. now apply zip_with_params_returns.
      * intros inner m w0 w' x Hne Hm.
        now apply zip_with_params_of_dicts_is_dict with (m := m).
Qed.

Lemma zip_of_mappings_stores_recursive_results_witness :
  vectorize_multi "add" add frame_of series_of
                  [VDict [(VStr "a", VDict [(VStr "x", VInt 1)]); (VStr "b", VInt 2)];
                   VDict [(VStr "a", VDict [(VStr "x", VInt 10)]); (VStr "b", VInt 20)]] tt
  = (tt, Return (VDict [(VStr "add['a', 'a']", VDict [(VStr "add['x', 'x']", VInt 11)]);
                        (VStr "add['b', 'b']", VInt 22)])).
Proof.
  refine (proj1 (@zip_of_mappings_stores_recursive_results
                   unit "add" add frame_of series_of
                   [(VStr "a", VDict [(VStr "x", VInt 1)]); (VStr "b", VInt 2)]
                   [[(VStr "a", VDict [(VStr "x", VInt 10)]); (VStr "b", VInt 20)]] 2 _)
                tt tt [VDict [(VStr "add['x', 'x']", VInt 11)]; VInt 22] eq_refl).
  intros d [<- | [<- | []]]; reflexivity.
Defined.

(** C3 as stated fails: zipping two mappings whose values are mappings
    returns a mapping whose value is a mapping, in both zip engines. *)
Lemma zip_of_nested_mappings_is_nested :
  vectorize_multi "add" add frame_of series_of
                  [VDict [(VStr "a", VDict [(VStr "x", VInt 1)])];
                   VDict [(VStr "a", VDict [(VStr "x", VInt 10)])]] tt
  = (tt, Return (VDict [(VStr "add['a', 'a']", VDict [(VStr "add['x', 'x']", VInt 11)])])) /\
  vectorize_multi_param "add" add frame_of series_of
                        [VDict [(VStr "a", VDict [(VStr "x", VInt 1)])];
                         VDict [(VStr "a", VDict [(VStr "x", VInt 10)])]] [] tt
  = (tt, Return (VDict [(VStr "add['a', 'a']", VDict [(VStr "add['x', 'x']", VInt 11)])])) /\
  flat_mapping (VDict [(VStr "add['a', 'a']", VDict [(VStr "add['x', 'x']", VInt 11)])])
  = false.
Proof. repeat split. Qed.

(** C7, as the code has it.  [zip(add, {a: 1, b: 2}, {a: 10, b: 20})]
    returns the two entries ["add['a', 'a']": 11] and ["add['b', 'b']": 22]:
    the printed key list holds one key per input.  In general, when the zip
    of mappings with [n] keys each returns a mapping, its keys are exactly
    the strings [fun.__name__ + str(key_el)], [key_el] being the list of
    the inputs' keys at a position below [n]. *)
Theorem zip_of_mappings_synthesizes_keys :
  vectorize_multi "add" add frame_of series_of
                  [VDict [(VStr "a", VInt 1); (VStr "b", VInt 2)];
                   VDict [(VStr "a", VInt 10); (VStr "b", VInt 20)]] tt
  = (tt, Return (VDict [(VStr "add['a', 'a']", VInt 11);
                        (VStr "add['b', 'b']", VInt 22)])) /\
  (forall (W : Type) (fun_name : string) (fn : list value -> kwargs -> M W value)
          (DataFrame Series : value -> outcome value)
          (objects : list value) (first : value) (n : nat) (w w' : W)
          (r : list (value * value)),
      py_index objects 0 = Return first ->
      type_of first = t_dict ->
      same_kind objects first ->
      (forall obj, In obj objects -> shape_of obj = [n]) ->
      vectorize_multi fun_name fn DataFrame Series objects w = (w', Return (VDict r)) ->
      forall k, In k (map fst r) <->
                exists i key_el, i < n /\ keys_at objects i = Return key_el /\
                                 k = VStr (fun_name ++ py_str (VList key_el))).
Proof.
  split; [reflexivity |].
  intros W fun_name fn DataFrame Series objects first n w w' r Hfirst Hty Hkind Hn Hzip k.
  rewrite (@zip_of_mappings W fun_name fn DataFrame Series objects first n w
             Hfirst Hty Hkind Hn) in Hzip.
  unfold logger_catch, bind at 1 in Hzip.
  destruct (for_each _ (seq 0 n) [] w) as [w1 [r1 | e]] eqn:Hloop.
  - unfold ret in Hzip. injection Hzip as <- <-.
    pose proof (@zip_entries_keys _ _ _ _ _ _ _ _ _ _ _ Hloop k) as Hkeys.
    rewrite Hkeys. split.
    + intros [[] | [i [key_el [Hi H]]]]. exists i, key_el.
      apply in_seq in Hi. split; [lia | exact H].
    + intros [i [key_el [Hi H]]]. right. exists i, key_el.
      split; [apply in_seq; lia | exact H].
  - destruct (exn_is_Exception e); discriminate.
Qed.

Lemma zip_of_mappings_synthesizes_keys_witness :
  exists i key_el,
    i < 2 /\
    keys_at [VDict [(VStr "a", VInt 1); (VStr "b", VInt 2)];
             VDict [(VStr "a", VInt 10); (VStr "b", VInt 20)]] i = Return key_el /\
    VStr "add['b', 'b']" = VStr ("add" ++ py_str (VList key_el)).
Proof.
  refine (proj1 (proj2 zip_of_mappings_synthesizes_keys
                   unit "add" add frame_of series_of
                   [VDict [(VStr "a", VInt 1); (VStr "b", VInt 2)];
                    VDict [(VStr "a", VInt 10); (VStr "b", VInt 20)]]
                   (VDict [(VStr "a", VInt 1); (VStr "b", VInt 2)]) 2 tt tt
                   [(VStr "add['a', 'a']", VInt 11); (VStr "add['b', 'b']", VInt 22)]
                   eq_refl eq_refl _ _ eq_refl (VStr "add['b', 'b']")) _).
  - intros obj [<- | [<- | []]]; reflexivity.
  - intros obj [<- | [<- | []]]; reflexivity.
  - right. now left.
Defined.

(** C7 as stated fails: the keys are not ["add['a']"] and ["add['b']"]. *)
Lemma zip_keys_list_every_input :
  snd (vectorize_multi "add" add frame_of series_of
                       [VDict [(VStr "a", VInt 1); (VStr "b", VInt 2)];
                        VDict [(VStr "a", VInt 10); (VStr "b", VInt 20)]] tt)
  <> Return (VDict [(VStr "add['a']", VInt 11); (VStr "add['b']", VInt 22)]).
Proof. vm_compute. discriminate. Qed.

(** * Further properties of the engine *)

(** ** Flat lists in the single-input map *)

Lemma vectorize_list_of_leaves {W} (fn : list value -> kwargs -> M W value)
    (DataFrame : value -> outcome value) (l : list value) (w : W) :
  all_types_same l TYPES = true ->
  vectorize fn DataFrame (VList l) w
  = logger_catch (r <- list_comp (fun el => fn [el] []) l ;; ret (VList r)) w.
Proof.
  intros Hl. rewrite vectorize_unfold. unfold vectorize_body.
  change (isinstance (VList l) TYPES) with false.
  change (isinstance (VList l) CONTAINER_TYPES) with true.
  cbn [negb]. now rewrite Hl.
Qed.

(** X1. For a list of leaves, map calls the leaf function on the elements
    in order: when every call returns, the result is the list of the
    results, of the same length; when a call raises an exception deriving
    from [Exception], the calls made so far stay made and the whole result
    is [None] (no partial list). *)
Theorem map_of_flat_list :
  forall (W : Type) (fn : list value -> kwargs -> M W value)
         (DataFrame : value -> outcome value) (l : list value) (w w' : W),
    all_types_same l TYPES = true ->
    (forall rs,
        list_comp (fun el => fn [el] []) l w = (w', Return rs) ->
        vectorize fn DataFrame (VList l) w = (w', Return (VList rs)) /\
        List.length rs = List.length l) /\
    (forall e,
        list_comp (fun el => fn [el] []) l w = (w', Raise e) ->
        exn_is_Exception e = true ->
        vectorize fn DataFrame (VList l) w = (w', Return VNone)).
Proof.
  intros W fn DataFrame l w w' Hl. split.
  - intros rs Hrs. split; [| eapply list_comp_length; exact Hrs].
    rewrite vectorize_list_of_leaves by exact Hl.
    apply logger_catch_return. unfold bind. now rewrite Hrs.
  - intros e Hrs He. rewrite vectorize_list_of_leaves by exact Hl.
    unfold logger_catch, bind. now rewrite Hrs, He.
Qed.

Lemma map_of_flat_list_witness :
  all_types_same [VInt 1; VInt 2; VInt 3] TYPES = true /\
  vectorize zero frame_of (VList [VInt 1; VInt 2; VInt 3]) tt
  = (tt, Return (VList [VInt 0; VInt 0; VInt 0])).
Proof.
  split; [reflexivity |].
  exact (proj1 (proj1 (@map_of_flat_list unit zero frame_of [VInt 1; VInt 2; VInt 3] tt tt
                         eq_refl) [VInt 0; VInt 0; VInt 0] eq_refl)).
Defined.

(** ** Values that are neither leaves nor containers *)

(** X2. For a value that is neither a leaf nor a container ([None], an
    instance of a user class), the undecorated map raises
    [TypeError("... is not a data container.")] without calling the leaf
    function, and the decorated [map] and [map_with_params] return [None]. *)
Theorem map_of_non_container_returns_None :
  forall (W : Type) (fn : list value -> kwargs -> M W value)
         (DataFrame : value -> outcome value) (obj : value) (params : kwargs) (w : W),
    isinstance obj TYPES = false ->
    isinstance obj CONTAINER_TYPES = false ->
    (forall self,
        vectorize_body fn DataFrame self obj w
        = (w, Raise (TypeError (py_str obj ++ " is not a data container.")))) /\
    vectorize fn DataFrame obj w = (w, Return VNone) /\
    vectorize_param fn DataFrame obj params w = (w, Return VNone).
Proof.
  intros W fn DataFrame obj params w Hl Hc.
  split; [| split].
  - intros self. unfold vectorize_body. now rewrite Hl, Hc.
  - rewrite vectorize_unfold. unfold vectorize_body, logger_catch. now rewrite Hl, Hc.
  - rewrite vectorize_param_unfold. unfold vectorize_param_body, logger_catch.
    now rewrite Hl, Hc.
Qed.

Lemma map_of_non_container_returns_None_witness :
  isinstance (VObject "Point" "<Point object>") TYPES = false /\
  isinstance (VObject "Point" "<Point object>") CONTAINER_TYPES = false /\
  vectorize identity frame_of (VObject "Point" "<Point object>") tt = (tt, Return VNone).
Proof.
  split; [reflexivity |]. split; [reflexivity |].
  exact (proj1 (proj2 (@map_of_non_container_returns_None unit identity frame_of
                         (VObject "Point" "<Point object>") [] tt eq_refl eq_refl))).
Defined.

(** ** Kinds of the zip inputs *)

Lemma isinstance1_refl (v : value) : isinstance1 v (type_of v) = true.
Proof.
  unfold isinstance1, issubclass, pytype_eqb.
  destruct (pytype_eq_dec (type_of v) (type_of v)); [reflexivity | congruence].
Qed.

Lemma argument_consistency_spec (objects : list value) :
  argument_consistency objects CONTAINER_TYPES = true <->
  exists typ, In typ CONTAINER_TYPES /\ forall obj, In obj objects -> type_of obj = typ.
Proof.
  unfold argument_consistency. rewrite existsb_exists. split.
  - intros [typ [Htyp Hall]]. exists typ. split; [exact Htyp |].
    rewrite forallb_forall in Hall. intros obj Hin.
    now apply isinstance1_container, Hall.
  - intros [typ [Htyp Hall]]. exists typ. split; [exact Htyp |].
    apply forallb_forall. intros obj Hin. rewrite <- (Hall obj Hin).
    apply isinstance1_refl.
Qed.

(** X3. For objects whose classes are the classes of the model
    themselves (no instance of a class a user derived),
    [argument_consistency(objects, CONTAINER_TYPES)] holds exactly when
    one container type is the type of every object (in particular for no
    objects at all). *)
Theorem argument_consistency_iff_one_container_type :
  forall objects : list value,
    forallb builtin objects = true ->
    (argument_consistency objects CONTAINER_TYPES = true <->
     exists typ, In typ CONTAINER_TYPES /\ forall obj, In obj objects -> type_of obj = typ).
Proof. intros objects _. apply argument_consistency_spec. Qed.

Lemma argument_consistency_iff_one_container_type_witness :
  argument_consistency [VList [VInt 1]; VDict []] CONTAINER_TYPES = true <->
  exists typ, In typ CONTAINER_TYPES /\
              forall obj, In obj [VList [VInt 1]; VDict []] -> type_of obj = typ.
Proof.
  exact (@argument_consistency_iff_one_container_type [VList [VInt 1]; VDict []] eq_refl).
Defined.

(** X4. When the inputs of the zip engine are not all leaves and no
    container type has every input as an instance (the code's own
    [isinstance] test), the undecorated function raises the [TypeError]
    "Input objects should have the same type ..." without calling the leaf
    function, and [zip] and [zip_with_params] (with leaf parameters) return
    [None]. *)
Theorem zip_of_mixed_kinds_returns_None :
  forall (W : Type) (fun_name : string) (fn : list value -> kwargs -> M W value)
         (DataFrame Series : value -> outcome value)
         (objects : list value) (params : kwargs) (w : W),
    all_types_same objects TYPES = false ->
    argument_consistency objects CONTAINER_TYPES = false ->
    forallb (fun param => isinstance param TYPES) (map snd params) = true ->
    (forall self,
        vectorize_multi_body fun_name fn DataFrame Series self objects w
        = (w, Raise (TypeError ("Input objects should have the same type. Allowed types are "
                                ++ CONTAINER_TYPES_str ++ ".")))) /\
    vectorize_multi fun_name fn DataFrame Series objects w = (w, Return VNone) /\
    vectorize_multi_param fun_name fn DataFrame Series objects params w = (w, Return VNone).
Proof.
  intros W fun_name fn DataFrame Series objects params w Hl Hc Hp.
  split; [| split].
  - intros self. unfold vectorize_multi_body. now rewrite Hl, Hc.
  - rewrite vectorize_multi_unfold. unfold vectorize_multi_body, logger_catch.
    now rewrite Hl, Hc.
  - rewrite vectorize_multi_param_unfold. unfold vectorize_multi_param_body, logger_catch.
    rewrite Hp. cbn [negb].
    change (forallb (fun obj => isinstance obj TYPES) objects)
      with (all_types_same objects TYPES).
    change (existsb (fun typ => forallb (fun obj => isinstance1 obj typ) objects)
                    CONTAINER_TYPES)
      with (argument_consistency objects CONTAINER_TYPES).
    now rewrite Hl, Hc.
Qed.

Lemma zip_of_mixed_kinds_returns_None_witness :
  argument_consistency [VList [VInt 1; VInt 2]; VDict [(VStr "a", VInt 1); (VStr "b", VInt 2)]]
                       CONTAINER_TYPES = false /\
  vectorize_multi "add" add frame_of series_of
                  [VList [VInt 1; VInt 2]; VDict [(VStr "a", VInt 1); (VStr "b", VInt 2)]] tt
  = (tt, Return VNone).
Proof.
  split; [reflexivity |].
  exact (proj1 (proj2 (@zip_of_mixed_kinds_returns_None unit "add" add frame_of series_of
            [VList [VInt 1; VInt 2]; VDict [(VStr "a", VInt 1); (VStr "b", VInt 2)]]
            [] tt eq_refl eq_refl eq_refl))).
Defined.

(** ** [map_with_params] without parameters *)

Lemma vectorize_param_body_nil {W} (fn : list value -> kwargs -> M W value)
    (DataFrame : value -> outcome value)
    (f : value -> kwargs -> M W value) (g : value -> M W value) (obj : value) :
  (forall x w, f x [] w = g x w) ->
  forall w, vectorize_param_body fn DataFrame f obj [] w = vectorize_body fn DataFrame g obj w.
Proof.
  intros H w. unfold vectorize_param_body, vectorize_body.
  destruct (isinstance obj TYPES); [reflexivity |].
  destruct (negb (isinstance obj CONTAINER_TYPES)); [reflexivity |].
  destruct obj; try reflexivity.
  - destruct (all_types_same l TYPES); [reflexivity |].
    apply bind_ext; [| reflexivity].
    apply list_comp_ext. intros el w0 _.
    destruct (isinstance el TYPES); [reflexivity | apply H].
  - apply bind_ext; [reflexivity |]. intros lst w0.
    apply bind_ext; [apply H | reflexivity].
  - apply bind_ext; [reflexivity |]. intros lst w0.
    apply bind_ext; [apply H | reflexivity].
  - apply bind_ext; [reflexivity |]. intros d w0.
    apply bind_ext; [apply H | reflexivity].
Qed.

Lemma vectorize_param_nil {W} (fn : list value -> kwargs -> M W value)
    (DataFrame : value -> outcome value) (obj : value) (w : W) :
  vectorize_param fn DataFrame obj [] w = vectorize fn DataFrame obj w.
Proof.
  unfold vectorize_param, vectorize.
  generalize (S (rank obj)) as n. intros n. revert obj w.
  induction n as [| n IH]; intros obj w; [reflexivity |].
  cbn [vectorize_param_upto vectorize_upto]. apply logger_catch_ext.
  apply vectorize_param_body_nil. exact IH.
Qed.

(** X5. [map_with_params] called with no parameters is [map]: on every
    value and in every world the two decorated functions make the same
    calls and give the same result. *)
Theorem map_with_no_params_is_map :
  forall (W : Type) (fn : list value -> kwargs -> M W value)
         (DataFrame : value -> outcome value) (obj : value) (w : W),
    vectorize_param fn DataFrame obj [] w = vectorize fn DataFrame obj w.
Proof. intros. apply vectorize_param_nil. Qed.

(** X6. For a tuple, a set or a frame, [map_with_params] never passes
    the parameters on: it converts the input and recurses without them, so
    the call is the same as [map] of that input, whatever the parameters. *)
Theorem map_with_params_ignores_params_of_converted_inputs :
  forall (W : Type) (fn : list value -> kwargs -> M W value)
         (DataFrame : value -> outcome value) (obj : value) (params : kwargs) (w : W),
    In (type_of obj) [t_tuple; t_set; pd_DataFrame] ->
    vectorize_param fn DataFrame obj params w = vectorize fn DataFrame obj w.
Proof.
  intros W fn DataFrame obj params w Hty.
  rewrite vectorize_param_unfold, vectorize_unfold. apply logger_catch_ext. clear w.
  intros w. unfold vectorize_param_body, vectorize_body.
  destruct obj; cbn in Hty; try (exfalso; intuition discriminate).
  - change (isinstance (VTuple l) TYPES) with false.
    change (isinstance (VTuple l) CONTAINER_TYPES) with true. cbn [negb].
    apply bind_ext; [reflexivity |]. intros lst w0.
    apply bind_ext; [apply vectorize_param_nil | reflexivity].
  - change (isinstance (VSet l) TYPES) with false.
    change (isinstance (VSet l) CONTAINER_TYPES) with true. cbn [negb].
    apply bind_ext; [reflexivity |]. intros lst w0.
    apply bind_ext; [apply vectorize_param_nil | reflexivity].
  - change (isinstance (VFrame index columns) TYPES) with false.
    change (isinstance (VFrame index columns) CONTAINER_TYPES) with true. cbn [negb].
    apply bind_ext; [reflexivity |]. intros d w0.
    apply bind_ext; [apply vectorize_param_nil | reflexivity].
Qed.

Lemma map_with_params_ignores_params_of_converted_inputs_witness :
  In (type_of (VTuple [VInt 1; VInt 2])) [t_tuple; t_set; pd_DataFrame] /\
  vectorize_param times frame_of (VTuple [VInt 1; VInt 2]) [("scale", VInt 2)] tt
  = (tt, Return (VTuple [VInt 1; VInt 2])).
Proof.
  split; [now left |].
  exact (eq_trans
           (@map_with_params_ignores_params_of_converted_inputs
              unit times frame_of (VTuple [VInt 1; VInt 2]) [("scale", VInt 2)] tt
              (or_introl eq_refl))
           eq_refl).
Defined.

(** ** Sets in [zip_with_params] *)

(** X7. [zip_with_params] rejects every family of sets, of equal sizes or
    not: it asks [len_consistency] for the ctype ["set"], which
    [len_consistency] does not know and answers [False] to, so the
    undecorated function raises [TypeError(ALL_ARGUMENTS)] before any call
    of the leaf function and the decorated one returns [None]. *)
Theorem zip_with_params_rejects_sets :
  forall (W : Type) (fun_name : string) (fn : list value -> kwargs -> M W value)
         (DataFrame Series : value -> outcome value)
         (objects : list value) (first : value) (params : kwargs) (w : W),
    py_index objects 0 = Return first ->
    type_of first = t_set ->
    same_kind objects first ->
    forallb (fun param => isinstance param TYPES) (map snd params) = true ->
    len_consistency objects "set" = Return false /\
    (forall self,
        vectorize_multi_param_body fun_name fn DataFrame Series self objects params w
        = (w, Raise (TypeError ALL_ARGUMENTS))) /\
    vectorize_multi_param fun_name fn DataFrame Series objects params w = (w, Return VNone).
Proof.
  intros W fun_name fn DataFrame Series objects first params w Hfirst Hty Hkind Hp.
  assert (Hc : isinstance first CONTAINER_TYPES = true)
    by (destruct first; try discriminate Hty; reflexivity).
  assert (Hbody : forall self,
             vectorize_multi_param_body fun_name fn DataFrame Series self objects params w
             = (w, Raise (TypeError ALL_ARGUMENTS))).
  { intros self. unfold vectorize_multi_param_body. rewrite Hp. cbn [negb].
    change (forallb (fun obj => isinstance obj TYPES) objects)
      with (all_types_same objects TYPES).
    change (existsb (fun typ => forallb (fun obj => isinstance1 obj typ) objects)
                    CONTAINER_TYPES)
      with (argument_consistency objects CONTAINER_TYPES).
    rewrite (containers_not_leaves Hfirst Hkind Hc).
    rewrite (containers_consistent Hfirst Hkind Hc). cbn [negb].
    unfold bind at 1. unfold lift at 1. rewrite Hfirst.
    destruct first; try discriminate Hty. reflexivity. }
  split; [reflexivity |]. split; [exact Hbody |].
  rewrite vectorize_multi_param_unfold. unfold logger_catch. now rewrite Hbody.
Qed.

Lemma zip_with_params_rejects_sets_witness :
  vectorize_multi_param "add" add frame_of series_of
                        [VSet [VInt 1; VInt 2]; VSet [VInt 10; VInt 20]] [] tt
  = (tt, Return VNone) /\
  vectorize_multi "add" add frame_of series_of
                  [VSet [VInt 1; VInt 2]; VSet [VInt 10; VInt 20]] tt
  = (tt, Return (VSet [VInt 11; VInt 22])).
Proof.
  split; [| reflexivity].
  refine (proj2 (proj2 (@zip_with_params_rejects_sets unit "add" add frame_of series_of
            [VSet [VInt 1; VInt 2]; VSet [VInt 10; VInt 20]] (VSet [VInt 1; VInt 2]) [] tt
            eq_refl eq_refl _ eq_refl))).
  intros obj [<- | [<- | []]]; reflexivity.
Defined.

(** ** Flat lists in the zip engine *)

Lemma for_each_append {W} (g : nat -> M W value) (l : list nat) :
  forall (acc : list value) (w : W),
    for_each (fun r i => x <- g i ;; ret (r ++ [x])%list) l acc w
    = (rs <- list_comp g l ;; ret (acc ++ rs)%list) w.
Proof.
  induction l as [| i t IH]; intros acc w; cbn [for_each list_comp].
  - rewrite bind_ret_l. unfold ret. now rewrite app_nil_r.
  - rewrite !bind_assoc. apply bind_ext; [reflexivity |]. intros x w1.
    rewrite bind_ret_l, IH, bind_assoc. apply bind_ext; [reflexivity |]. intros rs w2.
    rewrite bind_ret_l. unfold ret. now rewrite <- app_assoc.
Qed.

Lemma omap_getitem_lists (lists : list (list value)) (i : nat) :
  (forall l, In l lists -> i < List.length l) ->
  omap (fun obj => py_getitem obj i) (map VList lists) = Return (section_of lists i).
Proof.
  induction lists as [| l t IH]; intros H; [reflexivity |].
  cbn [map omap py_getitem]. unfold py_index.
  rewrite (nth_error_nth' l VNone) by (apply H; now left). cbn [obind].
  rewrite IH by (intros l' Hl'; apply H; now right). reflexivity.
Qed.

Lemma section_of_leaves (lists : list (list value)) (i : nat) :
  (forall l, In l lists -> i < List.length l) ->
  all_leaves lists = true ->
  all_types_same (section_of lists i) TYPES = true.
Proof.
  intros Hlen Hleaves. unfold all_types_same, section_of.
  apply forallb_forall. intros x Hx. apply in_map_iff in Hx.
  destruct Hx as [l [<- Hl]].
  unfold all_leaves in Hleaves. rewrite forallb_forall in Hleaves.
  specialize (Hleaves l Hl). unfold all_types_same in Hleaves.
  rewrite forallb_forall in Hleaves. apply Hleaves. apply nth_In. now apply Hlen.
Qed.

Lemma lists_same_kind (lists : list (list value)) (l0 : list value) :
  same_kind (map VList lists) (VList l0).
Proof.
  intros obj Hin. apply in_map_iff in Hin. destruct Hin as [l [<- _]]. reflexivity.
Qed.

Lemma lists_shapes_agree (lists : list (list value)) (l0 : list value) (n : nat) :
  List.length l0 = n ->
  (forall l, In l lists -> List.length l = n) ->
  forallb (shapes_agree (VList l0)) (map VList lists) = true.
Proof.
  intros H0 Hn. apply forallb_forall. intros obj Hin. apply in_map_iff in Hin.
  destruct Hin as [l [<- Hl]]. unfold shapes_agree. cbn [shape_of].
  rewrite (Hn l Hl), H0. cbn. now rewrite Nat.eqb_refl.
Qed.

Section ZipLists.

Variable W : Type.
Variable fun_name : string.
Variable fn : list value -> kwargs -> M W value.
Variable DataFrame : value -> outcome value.
Variable Series : value -> outcome value.

Lemma zip_list_turn (self : list value -> M W value) (params : kwargs)
    (lists : list (list value)) (n i : nat) (r : list value) (w : W) :
  (forall l, In l lists -> List.length l = n) ->
  all_leaves lists = true ->
  In i (seq 0 n) ->
  (el <- lift (get_section (map VList lists) i "list") ;;
   args <- lift (py_iter el) ;;
   x <- (if all_types_same args TYPES then fn args params else self args) ;;
   ret (r ++ [x])%list) w
  = (x <- fn (section_of lists i) params ;; ret (r ++ [x])%list) w.
Proof.
  intros Hn Hleaves Hi. apply in_seq in Hi.
  assert (Hlen : forall l, In l lists -> i < List.length l)
    by (intros l Hl; rewrite (Hn l Hl); lia).
  unfold get_section. cbn [String.eqb Ascii.eqb Bool.eqb].
  rewrite (omap_getitem_lists _ Hlen). cbn [obind].
  unfold bind at 1. unfold lift at 1. unfold bind at 1. unfold lift at 1. cbn [py_iter].
  now rewrite (section_of_leaves _ Hlen Hleaves).
Qed.

Lemma zip_of_flat_lists (l0 : list value) (lists : list (list value)) (n : nat) (w : W) :
  (forall l, In l (l0 :: lists) -> List.length l = n) ->
  all_leaves (l0 :: lists) = true ->
  vectorize_multi fun_name fn DataFrame Series (map VList (l0 :: lists)) w
  = logger_catch (rs <- list_comp (fun i => fn (section_of (l0 :: lists) i) []) (seq 0 n) ;;
                  ret (VList rs)) w.
Proof.
  intros Hn Hleaves.
  assert (Hfirst : py_index (map VList (l0 :: lists)) 0 = Return (VList l0)) by reflexivity.
  pose proof (lists_same_kind (l0 :: lists) l0) as Hkind.
  rewrite vectorize_multi_unfold. apply logger_catch_ext. clear w. intros w.
  unfold vectorize_multi_body.
  rewrite (containers_not_leaves Hfirst Hkind eq_refl).
  rewrite (containers_consistent Hfirst Hkind eq_refl). cbn [negb].
  unfold bind at 1. unfold lift at 1. rewrite Hfirst.
  unfold bind at 1. unfold lift at 1.
  rewrite (len_consistency_list Hfirst Hkind) by (now left).
  rewrite (@lists_shapes_agree (l0 :: lists) l0 n (Hn l0 (or_introl eq_refl)) Hn).
  cbn [negb].
  unfold bind at 1. unfold lift at 1. cbn [py_len].
  rewrite (Hn l0 (or_introl eq_refl)).
  revert w. apply bind_ext; [| reflexivity]. intros w.
  rewrite (for_each_ext _ (fun r i => x <- fn (section_of (l0 :: lists) i) [] ;;
                                      ret (r ++ [x])%list))
    by (intros acc i w0 Hi; apply zip_list_turn with (n := n); assumption).
  rewrite for_each_append. cbn [app]. apply bind_ret_r.
Qed.

Lemma zip_with_params_of_flat_lists (l0 : list value) (lists : list (list value))
    (params : kwargs) (n : nat) (w : W) :
  forallb (fun param => isinstance param TYPES) (map snd params) = true ->
  (forall l, In l (l0 :: lists) -> List.length l = n) ->
  all_leaves (l0 :: lists) = true ->
  vectorize_multi_param fun_name fn DataFrame Series (map VList (l0 :: lists)) params w
  = logger_catch (rs <- list_comp (fun i => fn (section_of (l0 :: lists) i) params)
                                  (seq 0 n) ;;
                  ret (VList rs)) w.
Proof.
  intros Hp Hn Hleaves.
  assert (Hfirst : py_index (map VList (l0 :: lists)) 0 = Return (VList l0)) by reflexivity.
  pose proof (lists_same_kind (l0 :: lists) l0) as Hkind.
  rewrite vectorize_multi_param_unfold. apply logger_catch_ext. clear w. intros w.
  unfold vectorize_multi_param_body. rewrite Hp. cbn [negb].
  change (forallb (fun obj => isinstance obj TYPES) (map VList (l0 :: lists)))
    with (all_types_same (map VList (l0 :: lists)) TYPES).
  change (existsb (fun typ => forallb (fun obj => isinstance1 obj typ)
                                      (map VList (l0 :: lists))) CONTAINER_TYPES)
    with (argument_consistency (map VList (l0 :: lists)) CONTAINER_TYPES).
  rewrite (containers_not_leaves Hfirst Hkind eq_refl).
  rewrite (containers_consistent Hfirst Hkind eq_refl). cbn [negb].
  unfold bind at 1. unfold lift at 1. rewrite Hfirst.
  unfold bind at 1. unfold lift at 1.
  rewrite (len_consistency_list Hfirst Hkind) by (now left).
  rewrite (@lists_shapes_agree (l0 :: lists) l0 n (Hn l0 (or_introl eq_refl)) Hn).
  cbn [negb].
  unfold bind at 1. unfold lift at 1. cbn [py_len].
  rewrite (Hn l0 (or_introl eq_refl)).
  revert w. apply bind_ext; [| reflexivity]. intros w.
  rewrite (for_each_ext _ (fun r i => x <- fn (section_of (l0 :: lists) i) params ;;
                                      ret (r ++ [x])%list))
    by (intros acc i w0 Hi;
        apply (@zip_list_turn (fun xs => vectorize_multi_param fun_name fn DataFrame Series
                                                               xs params))
          with (n := n); assumption).
  rewrite for_each_append. cbn [app]. apply bind_ret_r.
Qed.

End ZipLists.

(** X8. For lists of leaves that all have [n] elements, [zip] and
    [zip_with_params] (with leaf parameters) call the leaf function once
    per index, in index order, on the elements the inputs hold at that
    index; when every call returns, the result is the list of the [n]
    results. *)
Theorem zip_of_flat_lists_is_elementwise :
  forall (W : Type) (fun_name : string) (fn : list value -> kwargs -> M W value)
         (DataFrame Series : value -> outcome value)
         (l0 : list value) (lists : list (list value)) (params : kwargs)
         (n : nat) (w w' : W) (rs : list value),
    (forall l, In l (l0 :: lists) -> List.length l = n) ->
    all_leaves (l0 :: lists) = true ->
    forallb (fun param => isinstance param TYPES) (map snd params) = true ->
    (list_comp (fun i => fn (section_of (l0 :: lists) i) []) (seq 0 n) w = (w', Return rs) ->
     vectorize_multi fun_name fn DataFrame Series (map VList (l0 :: lists)) w
     = (w', Return (VList rs)) /\ List.length rs = n) /\
    (list_comp (fun i => fn (section_of (l0 :: lists) i) params) (seq 0 n) w
     = (w', Return rs) ->
     vectorize_multi_param fun_name fn DataFrame Series (map VList (l0 :: lists)) params w
     = (w', Return (VList rs)) /\ List.length rs = n).
Proof.
  intros W fun_name fn DataFrame Series l0 lists params n w w' rs Hn Hleaves Hp.
  split; intros Hrs.
  - split.
    + rewrite (@zip_of_flat_lists W fun_name fn DataFrame Series l0 lists n w Hn Hleaves).
      apply logger_catch_return. unfold bind. now rewrite Hrs.
    + apply list_comp_length in Hrs. now rewrite length_seq in Hrs.
  - split.
    + rewrite (@zip_with_params_of_flat_lists W fun_name fn DataFrame Series l0 lists params
                 n w Hp Hn Hleaves).
      apply logger_catch_return. unfold bind. now rewrite Hrs.
    + apply list_comp_length in Hrs. now rewrite length_seq in Hrs.
Qed.

Lemma zip_of_flat_lists_is_elementwise_witness :
  all_leaves [[VInt 1; VInt 2]; [VInt 10; VInt 20]] = true /\
  vectorize_multi "add" add frame_of series_of
                  [VList [VInt 1; VInt 2]; VList [VInt 10; VInt 20]] tt
  = (tt, Return (VList [VInt 11; VInt 22])).
Proof.
  split; [reflexivity |].
  refine (proj1 (proj1 (@zip_of_flat_lists_is_elementwise unit "add" add frame_of series_of
            [VInt 1; VInt 2] [[VInt 10; VInt 20]] [] 2 tt tt [VInt 11; VInt 22]
            _ eq_refl eq_refl) eq_refl)).
  intros l [<- | [<- | []]]; reflexivity.
Defined.

(** ** Arrays *)

Lemma shape_eqb_refl (s : list nat) : shape_eqb s s = true.
Proof.
  induction s as [| x t IH]; cbn; [reflexivity |]. now rewrite Nat.eqb_refl.
Qed.

Lemma same_shapes_agree (objects : list value) (first : value) :
  (forall obj, In obj objects -> shape_of obj = shape_of first) ->
  forallb (shapes_agree first) objects = true.
Proof.
  intros H. apply forallb_forall. intros obj Hin. unfold shapes_agree.
  rewrite (H obj Hin). apply shape_eqb_refl.
Qed.

(** X9. Arrays are never descended into.  [map] of an array is one call of
    the leaf function on the whole array; [zip] and [zip_with_params] of
    arrays that all have the shape of the first are one call on all the
    arrays, in the order given. *)
Theorem arrays_are_passed_whole :
  forall (W : Type) (fun_name : string) (fn : list value -> kwargs -> M W value)
         (DataFrame Series : value -> outcome value)
         (objects : list value) (first : value) (params : kwargs) (w : W),
    py_index objects 0 = Return first ->
    type_of first = np_ndarray ->
    same_kind objects first ->
    (forall obj, In obj objects -> shape_of obj = shape_of first) ->
    forallb (fun param => isinstance param TYPES) (map snd params) = true ->
    vectorize fn DataFrame first w = logger_catch (fn [first] []) w /\
    vectorize_multi fun_name fn DataFrame Series objects w = logger_catch (fn objects []) w /\
    vectorize_multi_param fun_name fn DataFrame Series objects params w
    = logger_catch (fn objects params) w.
Proof.
  intros W fun_name fn DataFrame Series objects first params w Hfirst Hty Hkind Hsh Hp.
  assert (Hc : isinstance first CONTAINER_TYPES = true)
    by (destruct first; try discriminate Hty; reflexivity).
  pose proof (same_shapes_agree _ _ Hsh) as Hagree.
  split; [| split].
  - rewrite vectorize_unfold. destruct first; try discriminate Hty. reflexivity.
  - rewrite vectorize_multi_unfold. apply logger_catch_ext. clear w. intros w.
    unfold vectorize_multi_body.
    rewrite (containers_not_leaves Hfirst Hkind Hc).
    rewrite (containers_consistent Hfirst Hkind Hc). cbn [negb].
    unfold bind at 1. unfold lift at 1. rewrite Hfirst.
    destruct first; try discriminate Hty.
    unfold bind, lift. rewrite (np_shape_ndarray Hfirst Hkind) by reflexivity.
    now rewrite Hagree.
  - rewrite vectorize_multi_param_unfold. apply logger_catch_ext. clear w. intros w.
    unfold vectorize_multi_param_body. rewrite Hp. cbn [negb].
    change (forallb (fun obj => isinstance obj TYPES) objects)
      with (all_types_same objects TYPES).
    change (existsb (fun typ => forallb (fun obj => isinstance1 obj typ) objects)
                    CONTAINER_TYPES)
      with (argument_consistency objects CONTAINER_TYPES).
    rewrite (containers_not_leaves Hfirst Hkind Hc).
    rewrite (containers_consistent Hfirst Hkind Hc). cbn [negb].
    unfold bind at 1. unfold lift at 1. rewrite Hfirst.
    destruct first; try discriminate Hty.
    unfold bind, lift. rewrite (len_consistency_ndarray Hfirst Hkind) by reflexivity.
    now rewrite Hagree.
Qed.

Lemma arrays_are_passed_whole_witness :
  fst (fst (vectorize_multi "f" (traced zero) frame_of series_of
              [VArray [2; 2] "a"; VArray [2; 2] "b"] ([], tt)))
  = [([VArray [2; 2] "a"; VArray [2; 2] "b"], [])].
Proof.
  refine (eq_trans (f_equal (fun x => fst (fst x))
            (proj1 (proj2 (@arrays_are_passed_whole (list call * unit) "f" (traced zero)
               frame_of series_of [VArray [2; 2] "a"; VArray [2; 2] "b"]
               (VArray [2; 2] "a") [] ([], tt) eq_refl eq_refl _ _ eq_refl)))) eq_refl).
  - intros obj [<- | [<- | []]]; reflexivity.
  - intros obj [<- | [<- | []]]; reflexivity.
Defined.

(** ** The identity function *)

Lemma list_comp_id {W} (f : value -> M W value) (l : list value) :
  (forall el, In el l -> forall w, f el w = (w, Return el)) ->
  forall w, list_comp f l w = (w, Return l).
Proof.
  induction l as [| a t IH]; intros H w; [reflexivity |].
  cbn [list_comp]. unfold bind. rewrite (H a (or_introl eq_refl)).
  rewrite IH by (intros el Hel; apply H; now right). reflexivity.
Qed.

Lemma fold_set_add_distinct (l s : list value) :
  distinct (s ++ l) = true -> fold_left set_add l s = (s ++ l)%list.
Proof.
  revert s. induction l as [| x t IH]; intros s Hd; cbn [fold_left].
  - now rewrite app_nil_r.
  - unfold set_add at 2.
    assert (Hx : existsb (py_eqb x) s = false).
    { destruct (existsb (py_eqb x) s) eqn:He; [| reflexivity].
      apply existsb_exists in He. destruct He as [a [Ha Hxa]].
      now rewrite (distinct_app_later _ _ _ _ Hd Ha) in Hxa. }
    rewrite Hx. rewrite IH; rewrite <- app_assoc; [reflexivity | exact Hd].
Qed.

Lemma set_of_list_distinct (l : list value) : distinct l = true -> set_of_list l = l.
Proof. intros Hd. unfold set_of_list. now rewrite fold_set_add_distinct. Qed.

Lemma combine_fst_snd (items : list (value * value)) :
  combine (map fst items) (map snd items) = items.
Proof.
  induction items as [| [k x] t IH]; [reflexivity |]. cbn. now rewrite IH.
Qed.

Lemma vectorize_of_dict {W} (fn : list value -> kwargs -> M W value)
    (DataFrame : value -> outcome value)
    (items : list (value * value)) (w w' : W) (rs : list value) :
  distinct_keys items = true ->
  list_comp (fun kv => fn [snd kv] []) items w = (w', Return rs) ->
  vectorize fn DataFrame (VDict items) w = (w', Return (VDict (combine (map fst items) rs))).
Proof.
  intros Hd Hrs. rewrite vectorize_unfold. unfold vectorize_body.
  change (isinstance (VDict items) TYPES) with false.
  change (isinstance (VDict items) CONTAINER_TYPES) with true.
  cbn [negb]. unfold logger_catch, bind at 1, dict_comp.
  change (fun d kv => let '(key, val) := kv in
                      r <- (if isinstance (VDict items) [t_dict] then fn [val] []
                            else vectorize fn DataFrame val) ;;
                      ret (dict_set d key r))
    with (fun d kv => let '(key, val) := kv in
                      r <- fn [val] [] ;; ret (dict_set d key r)).
  rewrite (@dict_comp_distinct W (fun val => fn [val] []) items [] w w' rs Hd Hrs).
  reflexivity.
Qed.

Lemma plain_leaf_or_container (v : value) :
  plain v = true ->
  isinstance v TYPES = true \/
  (isinstance v TYPES = false /\ isinstance v CONTAINER_TYPES = true).
Proof.
  destruct v; cbn [plain]; intros H; try discriminate H;
    try (left; reflexivity); try (right; split; reflexivity).
  left. destruct t; reflexivity.
Qed.

Lemma vectorize_identity_upto {W} (fn : list value -> kwargs -> M W value)
    (DataFrame : value -> outcome value) :
  (forall x w, fn [x] [] w = (w, Return x)) ->
  forall n v, rank v < n -> plain v = true ->
              forall w, vectorize fn DataFrame v w = (w, Return v).
Proof.
  intros Hid. induction n as [| n IH]; intros v Hrank Hplain w; [lia |].
  destruct (plain_leaf_or_container v Hplain) as [Hleaf | [Hl Hc]].
  { rewrite vectorize_leaf by exact Hleaf. apply logger_catch_return. apply Hid. }
  destruct v; try discriminate Hplain; try discriminate Hl;
    try (destruct t; discriminate Hl).
  - (* list *)
    rewrite vectorize_unfold. apply logger_catch_return. unfold vectorize_body.
    rewrite Hl, Hc. cbn [negb plain] in *.
    rewrite forallb_forall in Hplain.
    destruct (all_types_same l TYPES).
    + unfold bind. rewrite list_comp_id; [reflexivity |]. intros el _ w0. apply Hid.
    + unfold bind. rewrite list_comp_id; [reflexivity |]. intros el Hel w0.
      destruct (isinstance el TYPES); [apply Hid |].
      apply IH; [| now apply Hplain].
      apply rank_element in Hel. cbn [rank] in Hrank. lia.
  - (* tuple *)
    rewrite vectorize_unfold. apply logger_catch_return. unfold vectorize_body.
    rewrite Hl, Hc. cbn [negb py_list py_iter obind]. unfold bind, lift.
    rewrite (IH (VList l)); [reflexivity | cbn [rank] in *; lia | exact Hplain].
  - (* set *)
    rewrite vectorize_unfold. apply logger_catch_return. unfold vectorize_body.
    rewrite Hl, Hc. cbn [negb py_list py_iter obind plain] in *. unfold bind, lift.
    apply andb_prop in Hplain. destruct Hplain as [Hplain Hdist].
    apply andb_prop in Hplain. destruct Hplain as [Hplain Hhash].
    rewrite (IH (VList l)); [| cbn [rank] in *; lia | exact Hplain].
    unfold py_set. cbn [py_iter obind]. rewrite Hhash.
    now rewrite (set_of_list_distinct _ Hdist).
  - (* dict *)
    cbn [plain] in Hplain.
    rewrite (@vectorize_of_dict W fn DataFrame items w w (map snd items) Hplain).
    + now rewrite combine_fst_snd.
    + clear - Hid. revert w. induction items as [| kv t IHt]; intros w; [reflexivity |].
      cbn [list_comp map]. unfold bind. rewrite Hid, IHt. reflexivity.
  - (* array *)
    rewrite vectorize_unfold. apply logger_catch_return. unfold vectorize_body.
    rewrite Hl, Hc. cbn [negb]. apply Hid.
Qed.

(** X10. With the identity as leaf function, [map] returns the value it
    was given, for every value made of leaves, lists, tuples, sets (of
    distinct hashable elements), dicts (with distinct keys) and arrays, and
    leaves the world as it was. *)
Theorem map_of_identity_is_identity :
  forall (W : Type) (fn : list value -> kwargs -> M W value)
         (DataFrame : value -> outcome value) (v : value) (w : W),
    (forall x w0, fn [x] [] w0 = (w0, Return x)) ->
    plain v = true ->
    vectorize fn DataFrame v w = (w, Return v).
Proof.
  intros W fn DataFrame v w Hid Hplain.
  apply (@vectorize_identity_upto W fn DataFrame Hid (S (rank v)) v); [lia | exact Hplain].
Qed.

Lemma map_of_identity_is_identity_witness :
  plain (VList [VInt 1; VTuple [VStr "a"; VSet [VInt 2; VInt 3]];
                VDict [(VStr "k", VList [VInt 4])]]) = true /\
  vectorize identity frame_of
            (VList [VInt 1; VTuple [VStr "a"; VSet [VInt 2; VInt 3]];
                    VDict [(VStr "k", VList [VInt 4])]]) tt
  = (tt, Return (VList [VInt 1; VTuple [VStr "a"; VSet [VInt 2; VInt 3]];
                        VDict [(VStr "k", VList [VInt 4])]])).
Proof.
  split; [reflexivity |].
  apply (@map_of_identity_is_identity unit identity frame_of); [| reflexivity].
  intros x []. reflexivity.
Defined.

(** ** Parameters of [zip_with_params] *)

(** X11. [zip_with_params] checks the parameters before anything else:
    when the value of some parameter is not a leaf, the undecorated
    function raises [TypeError("Parameters should be of type: ...")]
    whatever the inputs are (leaves included), the leaf function is not
    called, and the decorated function returns [None]. *)
Theorem zip_with_params_rejects_container_parameters :
  forall (W : Type) (fun_name : string) (fn : list value -> kwargs -> M W value)
         (DataFrame Series : value -> outcome value)
         (objects : list value) (params : kwargs) (name : string) (x : value) (w : W),
    In (name, x) params ->
    isinstance x TYPES = false ->
    (forall self,
        vectorize_multi_param_body fun_name fn DataFrame Series self objects params w
        = (w, Raise (TypeError ("Parameters should be of type: " ++ CONTAINER_TYPES_str)))) /\
    vectorize_multi_param fun_name fn DataFrame Series objects params w = (w, Return VNone).
Proof.
  intros W fun_name fn DataFrame Series objects params name x w Hin Hx.
  assert (Hp : forallb (fun param => isinstance param TYPES) (map snd params) = false).
  { destruct (forallb (fun param => isinstance param TYPES) (map snd params)) eqn:Hall;
      [| reflexivity].
    rewrite forallb_forall in Hall.
    rewrite (Hall x) in Hx; [discriminate |].
    apply in_map_iff. now exists (name, x). }
  split.
  - intros self. unfold vectorize_multi_param_body. now rewrite Hp.
  - rewrite vectorize_multi_param_unfold. unfold vectorize_multi_param_body, logger_catch.
    now rewrite Hp.
Qed.

Lemma zip_with_params_rejects_container_parameters_witness :
  isinstance (VList [VInt 2]) TYPES = false /\
  vectorize_multi_param "times" times frame_of series_of [VInt 3]
                        [("scale", VList [VInt 2])] tt
  = (tt, Return VNone).
Proof.
  split; [reflexivity |].
  exact (proj2 (@zip_with_params_rejects_container_parameters unit "times" times
                  frame_of series_of [VInt 3] [("scale", VList [VInt 2])]
                  "scale" (VList [VInt 2]) tt (or_introl eq_refl) eq_refl)).
Defined.

(** ** Tuples and sets follow lists *)

(** X12. [map] of a tuple or of a set is built from [map] of the list of
    its elements: a list result becomes the tuple of the results; for a
    set it becomes the set of the results (stated for results whose
    equality the model has exactly), or [None] when a result is unhashable;
    and a [None] result of the list (a call of the leaf function failed)
    stays [None]. *)
Theorem map_of_tuple_follows_list :
  forall (W : Type) (fn : list value -> kwargs -> M W value)
         (DataFrame : value -> outcome value) (l : list value) (w w' : W),
    (forall ys,
        vectorize fn DataFrame (VList l) w = (w', Return (VList ys)) ->
        vectorize fn DataFrame (VTuple l) w = (w', Return (VTuple ys)) /\
        (forallb exact_eq ys = true ->
         vectorize fn DataFrame (VSet l) w = (w', Return (VSet (set_of_list ys)))) /\
        (forallb hashable ys = false ->
         vectorize fn DataFrame (VSet l) w = (w', Return VNone))) /\
    (vectorize fn DataFrame (VList l) w = (w', Return VNone) ->
     vectorize fn DataFrame (VTuple l) w = (w', Return VNone) /\
     vectorize fn DataFrame (VSet l) w = (w', Return VNone)).
Proof.
  intros W fn DataFrame l w w'.
  assert (Htuple : vectorize fn DataFrame (VTuple l) w
                   = logger_catch (r <- vectorize fn DataFrame (VList l) ;;
                                   lift (py_tuple r)) w)
    by (now rewrite vectorize_unfold).
  assert (Hset : vectorize fn DataFrame (VSet l) w
                 = logger_catch (r <- vectorize fn DataFrame (VList l) ;;
                                 lift (py_set r)) w)
    by (now rewrite vectorize_unfold).
  rewrite Htuple, Hset. unfold logger_catch, bind, lift. split.
  - intros ys Hys. rewrite Hys. split; [reflexivity |]. split.
    + intros Hex. unfold py_set. cbn [py_iter obind].
      now rewrite (all_exact_hashable _ Hex).
    + intros Hh. unfold py_set. cbn [py_iter obind]. now rewrite Hh.
  - intros HN. rewrite HN. split; reflexivity.
Qed.

Lemma map_of_tuple_follows_list_witness :
  vectorize zero frame_of (VTuple [VInt 1; VInt 2]) tt
  = (tt, Return (VTuple [VInt 0; VInt 0])) /\
  vectorize zero frame_of (VSet [VInt 1; VInt 2]) tt = (tt, Return (VSet [VInt 0])) /\
  vectorize always_raises frame_of (VSet [VInt 1]) tt = (tt, Return VNone).
Proof.
  split; [| split].
  - exact (proj1 (proj1 (@map_of_tuple_follows_list unit zero frame_of [VInt 1; VInt 2] tt tt)
                        [VInt 0; VInt 0] eq_refl)).
  - exact (proj1 (proj2 (proj1 (@map_of_tuple_follows_list unit zero frame_of
                                  [VInt 1; VInt 2] tt tt)
                               [VInt 0; VInt 0] eq_refl))
                 eq_refl).
  - exact (proj2 (proj2 (@map_of_tuple_follows_list unit always_raises frame_of [VInt 1] tt tt)
                        eq_refl)).
Defined.

(** ** Failures stay at their level *)

Lemma vectorize_always_returns {W} (fn : list value -> kwargs -> M W value)
    (DataFrame : value -> outcome value) :
  (forall args params, raises_only ordinary (fn args params)) ->
  (forall data, oraises ordinary (DataFrame data)) ->
  forall obj w, exists w' r, vectorize fn DataFrame obj w = (w', Return r).
Proof.
  intros Hfn HD obj w.
  destruct (vectorize fn DataFrame obj w) as [w' [r | e]] eqn:Hv; [now exists w', r |].
  destruct (vectorize_raises fn DataFrame HD obj w Hv)
    as [He [args [params [w0 [w1 Hraise]]]]].
  apply Hfn in Hraise. unfold ordinary in Hraise. congruence.
Qed.

Lemma always_raises_ordinary (args : list value) (params : kwargs) :
  raises_only ordinary (always_raises args params).
Proof. intros w w' e [= _ <-]. reflexivity. Qed.

(** X13. When the leaf function raises only exceptions deriving from
    [Exception], [map] of a non-empty list none of whose elements is a leaf
    always returns a list: it maps the elements one after the other and
    puts at each position whatever [map] returns for that element, so a
    failure inside one element never fails the list.  For an element that
    is a list of leaves, what [map] returns is the list of the leaf
    function's results, or [None] (in the world the failing call left) when
    a call raised. *)
Theorem map_of_list_of_containers_returns_a_list :
  forall (W : Type) (fn : list value -> kwargs -> M W value)
         (DataFrame : value -> outcome value) (l : list value) (w : W),
    (forall args params, raises_only ordinary (fn args params)) ->
    (forall data, oraises ordinary (DataFrame data)) ->
    l <> [] ->
    forallb (fun el => negb (isinstance el TYPES)) l = true ->
    (exists w' ys,
        list_comp (vectorize fn DataFrame) l w = (w', Return ys) /\
        vectorize fn DataFrame (VList l) w = (w', Return (VList ys)) /\
        List.length ys = List.length l) /\
    (forall els w0,
        all_types_same els TYPES = true ->
        vectorize fn DataFrame (VList els) w0
        = match list_comp (fun el => fn [el] []) els w0 with
          | (w1, Return rs) => (w1, Return (VList rs))
          | (w1, Raise _) => (w1, Return VNone)
          end).
Proof.
  intros W fn DataFrame l w Hfn HD Hne Hcont.
  assert (Hall : all_types_same l TYPES = false).
  { destruct l as [| a t]; [congruence |]. cbn [forallb all_types_same] in *.
    apply andb_prop in Hcont. destruct Hcont as [Ha _].
    apply negb_true_iff in Ha. now rewrite Ha. }
  rewrite forallb_forall in Hcont. split.
  - destruct (@list_comp_returns W value value (vectorize fn DataFrame) l) with (w := w)
      as [w' [ys [Hys _]]].
    { intros el _ w0. now apply vectorize_always_returns. }
    exists w', ys. split; [exact Hys |]. split; [| now apply list_comp_length in Hys].
    rewrite vectorize_unfold. apply logger_catch_return. unfold vectorize_body.
    change (isinstance (VList l) TYPES) with false.
    change (isinstance (VList l) CONTAINER_TYPES) with true.
    cbn [negb]. rewrite Hall. unfold bind.
    rewrite (list_comp_ext _ (vectorize fn DataFrame)); [now rewrite Hys |].
    intros el w0 Hel. specialize (Hcont el Hel). apply negb_true_iff in Hcont.
    now rewrite Hcont.
  - intros els w0 Hels. rewrite vectorize_list_of_leaves by exact Hels.
    unfold logger_catch, bind, ret.
    destruct (list_comp (fun el => fn [el] []) els w0) as [w1 [rs | e]] eqn:Hrs;
      [reflexivity |].
    assert (He : ordinary e).
    { eapply (@raises_only_list_comp W value value ordinary (fun el => fn [el] []) els);
        [intros a; apply Hfn | exact Hrs]. }
    unfold ordinary in He. now rewrite He.
Qed.

Lemma map_of_list_of_containers_returns_a_list_witness :
  (exists w' ys,
      list_comp (vectorize always_raises frame_of) [VList [VInt 1]; VTuple [VInt 2]] tt
      = (w', Return ys) /\
      vectorize always_raises frame_of (VList [VList [VInt 1]; VTuple [VInt 2]]) tt
      = (w', Return (VList ys)) /\
      List.length ys = List.length [VList [VInt 1]; VTuple [VInt 2]]) /\
  (forall els w0,
      all_types_same els TYPES = true ->
      vectorize always_raises frame_of (VList els) w0
      = match list_comp (fun el => always_raises [el] []) els w0 with
        | (w1, Return rs) => (w1, Return (VList rs))
        | (w1, Raise _) => (w1, Return VNone)
        end).
Proof.
  apply (@map_of_list_of_containers_returns_a_list unit always_raises frame_of
           [VList [VInt 1]; VTuple [VInt 2]] tt always_raises_ordinary frame_of_ordinary).
  - discriminate.
  - reflexivity.
Defined.

(** ** Frames in the single-input map *)

Lemma fold_dict_set_distinct (items acc : list (value * value)) :
  distinct (map fst acc ++ map fst items) = true ->
  fold_left (fun d kv => dict_set d (fst kv) (snd kv)) items acc = (acc ++ items)%list.
Proof.
  revert acc. induction items as [| [k x] t IH]; intros acc Hd; cbn [fold_left].
  - now rewrite app_nil_r.
  - cbn [fst snd map] in *. rewrite dict_set_fresh.
    + rewrite IH; [now rewrite <- app_assoc |].
      rewrite map_app, <- app_assoc. exact Hd.
    + intros kv Hin. eapply distinct_app_later; [exact Hd |]. now apply in_map.
Qed.

Lemma dict_of_items_distinct (items : list (value * value)) :
  distinct_keys items = true -> dict_of_items items = items.
Proof. intros Hd. unfold dict_of_items. now rewrite fold_dict_set_distinct. Qed.

Lemma list_comp_map {W A B C} (f : B -> M W C) (g : A -> B) (l : list A) (w : W) :
  list_comp f (map g l) w = list_comp (fun a => f (g a)) l w.
Proof.
  revert w. induction l as [| a t IH]; intros w; [reflexivity |].
  cbn [map list_comp]. apply bind_ext; [reflexivity |]. intros b w0.
  apply bind_ext; [apply IH | reflexivity].
Qed.

(** X14. [map] of a frame whose column labels are distinct calls the leaf
    function once per column, on the whole column as a list (never on a
    cell), and hands the mapping from the labels to the results to
    [pd.DataFrame]. *)
Theorem map_of_frame_passes_whole_columns :
  forall (W : Type) (fn : list value -> kwargs -> M W value)
         (DataFrame : value -> outcome value)
         (index : list value) (columns : list (value * list value))
         (w w' : W) (rs : list value),
    distinct (map fst columns) = true ->
    list_comp (fun c => fn [VList (snd c)] []) columns w = (w', Return rs) ->
    vectorize fn DataFrame (VFrame index columns) w
    = logger_catch (lift (DataFrame (VDict (combine (map fst columns) rs)))) w'.
Proof.
  intros W fn DataFrame index columns w w' rs Hd Hrs.
  set (items := map (fun c : value * list value => (fst c, VList (snd c))) columns).
  assert (Hkeys : map fst items = map fst columns).
  { unfold items. rewrite map_map. reflexivity. }
  assert (Hdi : distinct_keys items = true) by (unfold distinct_keys; now rewrite Hkeys).
  assert (Hdict : vectorize fn DataFrame (VDict items) w
                  = (w', Return (VDict (combine (map fst columns) rs)))).
  { rewrite <- Hkeys. apply vectorize_of_dict; [exact Hdi |].
    unfold items. rewrite list_comp_map. exact Hrs. }
  rewrite vectorize_unfold. unfold vectorize_body.
  change (isinstance (VFrame index columns) TYPES) with false.
  change (isinstance (VFrame index columns) CONTAINER_TYPES) with true.
  cbn [negb to_dict_list]. fold items. rewrite (dict_of_items_distinct _ Hdi).
  unfold logger_catch, bind, lift. now rewrite Hdict.
Qed.

Lemma map_of_frame_passes_whole_columns_witness :
  fst (fst (vectorize (traced zero) frame_of
              (VFrame [VInt 0; VInt 1] [(VStr "a", [VInt 1; VInt 2]); (VStr "b", [VInt 3; VInt 4])])
              ([], tt)))
  = [([VList [VInt 1; VInt 2]], []); ([VList [VInt 3; VInt 4]], [])].
Proof.
  exact (eq_trans (f_equal (fun x => fst (fst x))
           (@map_of_frame_passes_whole_columns (list call * unit) (traced zero) frame_of
              [VInt 0; VInt 1] [(VStr "a", [VInt 1; VInt 2]); (VStr "b", [VInt 3; VInt 4])]
              ([], tt)
              ([([VList [VInt 1; VInt 2]], []); ([VList [VInt 3; VInt 4]], [])], tt)
              [VInt 0; VInt 0] eq_refl eq_refl)) eq_refl).
Defined.

(** ** Tuples and sets in the zip engine *)

Lemma omap_py_list_tuples (lists : list (list value)) :
  omap py_list (map VTuple lists) = Return (map VList lists).
Proof.
  induction lists as [| l t IH]; [reflexivity |].
  cbn [map omap]. unfold py_list at 1. cbn [py_iter obind]. now rewrite IH.
Qed.

Lemma omap_py_list_sets (lists : list (list value)) :
  omap py_list (map VSet lists) = Return (map VList lists).
Proof.
  induction lists as [| l t IH]; [reflexivity |].
  cbn [map omap]. unfold py_list at 1. cbn [py_iter obind]. now rewrite IH.
Qed.

Lemma tuples_same_kind (lists : list (list value)) (l0 : list value) :
  same_kind (map VTuple lists) (VTuple l0).
Proof.
  intros obj Hin. apply in_map_iff in Hin. destruct Hin as [l [<- _]]. reflexivity.
Qed.

Lemma sets_same_kind (lists : list (list value)) (l0 : list value) :
  same_kind (map VSet lists) (VSet l0).
Proof.
  intros obj Hin. apply in_map_iff in Hin. destruct Hin as [l [<- _]]. reflexivity.
Qed.

Lemma tuples_shapes_agree (lists : list (list value)) (l0 : list value) (n : nat) :
  List.length l0 = n ->
  (forall l, In l lists -> List.length l = n) ->
  forallb (shapes_agree (VTuple l0)) (map VTuple lists) = true.
Proof.
  intros H0 Hn. apply forallb_forall. intros obj Hin. apply in_map_iff in Hin.
  destruct Hin as [l [<- Hl]]. unfold shapes_agree. cbn [shape_of].
  rewrite (Hn l Hl), H0. cbn. now rewrite Nat.eqb_refl.
Qed.

Lemma sets_shapes_agree (lists : list (list value)) (l0 : list value) (n : nat) :
  List.length l0 = n ->
  (forall l, In l lists -> List.length l = n) ->
  forallb (shapes_agree (VSet l0)) (map VSet lists) = true.
Proof.
  intros H0 Hn. apply forallb_forall. intros obj Hin. apply in_map_iff in Hin.
  destruct Hin as [l [<- Hl]]. unfold shapes_agree. cbn [shape_of].
  rewrite (Hn l Hl), H0. cbn. now rewrite Nat.eqb_refl.
Qed.

Section ZipTuples.

Variable W : Type.
Variable fun_name : string.
Variable fn : list value -> kwargs -> M W value.
Variable DataFrame : value -> outcome value.
Variable Series : value -> outcome value.

Lemma zip_of_tuples (l0 : list value) (lists : list (list value)) (n : nat) (w : W) :
  (forall l, In l (l0 :: lists) -> List.length l = n) ->
  vectorize_multi fun_name fn DataFrame Series (map VTuple (l0 :: lists)) w
  = logger_catch (r <- vectorize_multi fun_name fn DataFrame Series (map VList (l0 :: lists)) ;;
                  lift (py_tuple r)) w.
Proof.
  intros Hn.
  assert (Hfirst : py_index (map VTuple (l0 :: lists)) 0 = Return (VTuple l0))
    by reflexivity.
  pose proof (tuples_same_kind (l0 :: lists) l0) as Hkind.
  rewrite vectorize_multi_unfold. apply logger_catch_ext. clear w. intros w.
  unfold vectorize_multi_body.
  rewrite (containers_not_leaves Hfirst Hkind eq_refl).
  rewrite (containers_consistent Hfirst Hkind eq_refl). cbn [negb].
  unfold bind at 1. unfold lift at 1. rewrite Hfirst.
  unfold bind at 1. unfold lift at 1.
  rewrite (len_consistency_list Hfirst Hkind) by (right; now left).
  rewrite (@tuples_shapes_agree (l0 :: lists) l0 n (Hn l0 (or_introl eq_refl)) Hn).
  cbn [negb]. unfold bind at 1. unfold lift at 1.
  now rewrite omap_py_list_tuples.
Qed.

Lemma zip_of_sets (l0 : list value) (lists : list (list value)) (n : nat) (w : W) :
  (forall l, In l (l0 :: lists) -> List.length l = n) ->
  vectorize_multi fun_name fn DataFrame Series (map VSet (l0 :: lists)) w
  = logger_catch (r <- vectorize_multi fun_name fn DataFrame Series (map VList (l0 :: lists)) ;;
                  lift (py_set r)) w.
Proof.
  intros Hn.
  assert (Hfirst : py_index (map VSet (l0 :: lists)) 0 = Return (VSet l0)) by reflexivity.
  pose proof (sets_same_kind (l0 :: lists) l0) as Hkind.
  rewrite vectorize_multi_unfold. apply logger_catch_ext. clear w. intros w.
  unfold vectorize_multi_body.
  rewrite (containers_not_leaves Hfirst Hkind eq_refl).
  rewrite (containers_consistent Hfirst Hkind eq_refl). cbn [negb].
  unfold bind at 1. unfold lift at 1. rewrite Hfirst.
  unfold bind at 1. unfold lift at 1.
  rewrite (len_consistency_list Hfirst Hkind) by (right; right; now left).
  rewrite (@sets_shapes_agree (l0 :: lists) l0 n (Hn l0 (or_introl eq_refl)) Hn).
  cbn [negb]. unfold bind at 1. unfold lift at 1.
  now rewrite omap_py_list_sets.
Qed.

Lemma zip_with_params_of_tuples (l0 : list value) (lists : list (list value))
    (params : kwargs) (n : nat) (w : W) :
  forallb (fun param => isinstance param TYPES) (map snd params) = true ->
  (forall l, In l (l0 :: lists) -> List.length l = n) ->
  vectorize_multi_param fun_name fn DataFrame Series (map VTuple (l0 :: lists)) params w
  = logger_catch (r <- vectorize_multi_param fun_name fn DataFrame Series
                                             (map VList (l0 :: lists)) params ;;
                  lift (py_tuple r)) w.
Proof.
  intros Hp Hn.
  assert (Hfirst : py_index (map VTuple (l0 :: lists)) 0 = Return (VTuple l0))
    by reflexivity.
  pose proof (tuples_same_kind (l0 :: lists) l0) as Hkind.
  rewrite vectorize_multi_param_unfold. apply logger_catch_ext. clear w. intros w.
  unfold vectorize_multi_param_body. rewrite Hp. cbn [negb].
  change (forallb (fun obj => isinstance obj TYPES) (map VTuple (l0 :: lists)))
    with (all_types_same (map VTuple (l0 :: lists)) TYPES).
  change (existsb (fun typ => forallb (fun obj => isinstance1 obj typ)
                                      (map VTuple (l0 :: lists))) CONTAINER_TYPES)
    with (argument_consistency (map VTuple (l0 :: lists)) CONTAINER_TYPES).
  rewrite (containers_not_leaves Hfirst Hkind eq_refl).
  rewrite (containers_consistent Hfirst Hkind eq_refl). cbn [negb].
  unfold bind at 1. unfold lift at 1. rewrite Hfirst.
  unfold bind at 1. unfold lift at 1.
  rewrite (len_consistency_tuple Hfirst Hkind) by reflexivity.
  rewrite (@tuples_shapes_agree (l0 :: lists) l0 n (Hn l0 (or_introl eq_refl)) Hn).
  cbn [negb]. unfold bind at 1. unfold lift at 1.
  now rewrite omap_py_list_tuples.
Qed.

End ZipTuples.



(** ** The helpers [get_section] and [len_consistency] *)

Lemma omap_getitem_short (lists : list (list value)) (i : nat) (l : list value) :
  In l lists -> List.length l <= i ->
  omap (fun obj => py_getitem obj i) (map VList lists)
  = Raise (IndexError "index out of range").
Proof.
  induction lists as [| l' t IH]; intros Hin Hlen; [destruct Hin |].
  cbn [map omap py_getitem]. unfold py_index.
  destruct (nth_error l' i) as [x |] eqn:Hx; [| reflexivity]. cbn [obind].
  destruct Hin as [-> | Hin].
  - apply nth_error_None in Hlen. congruence.
  - now rewrite (IH Hin Hlen).
Qed.

(** X16. [get_section(objects, i, "list")] on lists returns the tuple of
    their [i]-th elements when every list has more than [i] elements and
    raises [IndexError] when one of them is too short; for ["dict"] on
    dicts with more than [i] items it returns the keys and the values of
    the [i]-th items, a key and its value at the same place of the two. *)
Theorem get_section_takes_the_ith_items :
  forall (i : nat),
    (forall lists : list (list value),
        (forall l, In l lists -> i < List.length l) ->
        get_section (map VList lists) i "list" = Return (VTuple (section_of lists i))) /\
    (forall (lists : list (list value)) (l : list value),
        In l lists -> List.length l <= i ->
        exists e, get_section (map VList lists) i "list" = Raise e /\
                  exn_class e = "IndexError") /\
    (forall dicts : list (list (value * value)),
        (forall d, In d dicts -> i < List.length d) ->
        get_section (map VDict dicts) i "dict"
        = Return (VTuple [VList (map (fun d => fst (nth i d (VNone, VNone))) dicts);
                          VTuple (map (fun d => snd (nth i d (VNone, VNone))) dicts)])).
Proof.
  intros i. split; [| split].
  - intros lists H. unfold get_section. cbn [String.eqb Ascii.eqb Bool.eqb].
    now rewrite omap_getitem_lists.
  - intros lists l Hin Hlen. unfold get_section. cbn [String.eqb Ascii.eqb Bool.eqb].
    rewrite (omap_getitem_short _ _ Hin Hlen). cbn [obind]. eauto.
  - intros dicts H. unfold get_section. cbn [String.eqb Ascii.eqb Bool.eqb].
    assert (Hk : omap (fun obj => ks <~ py_keys obj ;; py_index ks i) (map VDict dicts)
                 = Return (map (fun d => fst (nth i d (VNone, VNone))) dicts)).
    { rewrite <- (omap_item_dicts dicts (map fst) fst (fun d => eq_refl) H).
      clear H. induction dicts as [| d t IH]; [reflexivity |].
      cbn [map omap py_keys obind]. now rewrite IH. }
    assert (Hv : omap (fun obj => vs <~ py_values obj ;; py_index vs i) (map VDict dicts)
                 = Return (map (fun d => snd (nth i d (VNone, VNone))) dicts)).
    { rewrite <- (omap_item_dicts dicts (map snd) snd (fun d => eq_refl) H).
      clear H Hk. induction dicts as [| d t IH]; [reflexivity |].
      cbn [map omap py_values obind]. now rewrite IH. }
    now rewrite Hk, Hv.
Qed.

Lemma get_section_takes_the_ith_items_witness :
  get_section [VList [VInt 1; VInt 2]; VList [VInt 3; VInt 4]] 1 "list"
  = Return (VTuple [VInt 2; VInt 4]).
Proof.
  refine (proj1 (get_section_takes_the_ith_items 1) [[VInt 1; VInt 2]; [VInt 3; VInt 4]] _).
  intros l [<- | [<- | []]]; cbn; lia.
Defined.

Lemma shapes_agree_iff (objects : list value) (first : value) :
  forallb (shapes_agree first) objects = true <->
  forall obj, In obj objects -> shape_of obj = shape_of first.
Proof.
  split.
  - intros H obj Hin. rewrite forallb_forall in H. now apply list_eqb_nat_eq, H.
  - apply same_shapes_agree.
Qed.

(** X17. On objects of one kind, [len_consistency] asked with the ctype
    of that kind answers [True] exactly when every object has the shape of
    the first one: the length for lists and tuples, the number of keys for
    dicts, the shape for arrays, frames and series. *)
Theorem len_consistency_compares_with_the_first :
  forall (objects : list value) (first : value) (ctype : string),
    py_index objects 0 = Return first ->
    same_kind objects first ->
    In (type_of first, ctype)
       [(t_list, "list"); (t_tuple, "tuple"); (t_dict, "dict"); (np_ndarray, "np.ndarray");
        (pd_DataFrame, "pd.DataFrame"); (pd_Series, "pd.Series")] ->
    exists b,
      len_consistency objects ctype = Return b /\
      (b = true <-> forall obj, In obj objects -> shape_of obj = shape_of first).
Proof.
  intros objects first ctype Hfirst Hkind Hin.
  exists (forallb (shapes_agree first) objects). split; [| apply shapes_agree_iff].
  cbn [In] in Hin.
  destruct Hin as [H | [H | [H | [H | [H | [H | []]]]]]]; injection H as Hty <-.
  - apply len_consistency_list; [assumption | assumption |]. rewrite <- Hty. now left.
  - apply len_consistency_tuple; [assumption | assumption |]. now rewrite <- Hty.
  - apply len_consistency_dict; [assumption | assumption |]. now rewrite <- Hty.
  - apply len_consistency_ndarray; [assumption | assumption |]. now rewrite <- Hty.
  - apply len_consistency_DataFrame; [assumption | assumption |]. now rewrite <- Hty.
  - apply len_consistency_Series; [assumption | assumption |]. now rewrite <- Hty.
Qed.

Lemma len_consistency_compares_with_the_first_witness :
  exists b,
    len_consistency [VList [VInt 1; VInt 2]; VList [VInt 3]] "list" = Return b /\
    (b = true <->
     forall obj, In obj [VList [VInt 1; VInt 2]; VList [VInt 3]] ->
                 shape_of obj = shape_of (VList [VInt 1; VInt 2])).
Proof.
  refine (@len_consistency_compares_with_the_first
            [VList [VInt 1; VInt 2]; VList [VInt 3]] (VList [VInt 1; VInt 2]) "list"
            eq_refl _ (or_introl eq_refl)).
  intros obj [<- | [<- | []]]; reflexivity.
Defined.

(** * The color helpers *)

Lemma lookup_In (d : list (string * string)) (k c : string) :
  lookup d k = Some c -> In (k, c) d.
Proof.
  induction d as [| [k' x] t IH]; cbn [lookup]; [discriminate |].
  destruct (String.eqb_spec k k') as [-> | _].
  - intros [= ->]. now left.
  - intros H. right. now apply IH.
Qed.

Lemma lookup_known (d : list (string * string)) (k : string) :
  existsb (String.eqb k) (map fst d) = true <-> exists c, lookup d k = Some c.
Proof.
  induction d as [| [k' x] t IH]; cbn [lookup map fst existsb].
  - split; [discriminate | intros [c H]; discriminate].
  - destruct (String.eqb k k'); cbn [orb]; [| exact IH].
    split; [eauto | reflexivity].
Qed.

Lemma known_In (d : list (string * string)) (k : string) :
  existsb (String.eqb k) (map fst d) = true <-> In k (map fst d).
Proof.
  rewrite existsb_exists. split.
  - intros [x [Hin Heq]]. apply String.eqb_eq in Heq. now subst.
  - intros Hin. exists k. split; [assumption | apply String.eqb_refl].
Qed.

Lemma length_app (a b : string) :
  String.length (a ++ b) = (String.length a + String.length b)%nat.
Proof. induction a as [| c a IH]; cbn; [reflexivity | now rewrite IH]. Qed.

Lemma append_assoc (a b c : string) : (a ++ b) ++ c = a ++ b ++ c.
Proof. induction a as [| x a IH]; cbn; [reflexivity | now rewrite IH]. Qed.

Lemma append_empty (a : string) : a ++ "" = a.
Proof. induction a as [| x a IH]; cbn; [reflexivity | now rewrite IH]. Qed.

Lemma substring_middle (a b c : string) :
  substring (String.length a) (String.length b) (a ++ b ++ c) = b.
Proof.
  induction a as [| x a IH]; cbn [String.length String.append substring]; [| exact IH].
  induction b as [| y b IHb]; cbn [String.length String.append substring].
  - now destruct c.
  - now rewrite IHb.
Qed.

Lemma font_codes_length :
  Forall (fun kv => String.length (snd kv) = 5%nat) Color_font.
Proof. repeat constructor. Qed.

Lemma bg_codes_length :
  Forall (fun kv => String.length (snd kv) = 5%nat) Color_bg.
Proof. repeat constructor. Qed.

Lemma paint_inv (to_color : value) (font_color bg_color s : string) :
  paint to_color font_color bg_color = Return s ->
  exists f b,
    lookup Color_font font_color = Some f /\ lookup Color_bg bg_color = Some b /\
    s = f ++ b ++ py_str to_color ++ reset_font ++ reset_bg.
Proof.
  unfold paint.
  destruct (existsb (String.eqb font_color) (map fst Color_font)); cbn [negb]; [| discriminate].
  destruct (existsb (String.eqb bg_color) (map fst Color_bg)); cbn [negb]; [| discriminate].
  destruct (lookup Color_font font_color) as [f |]; [| discriminate].
  destruct (lookup Color_bg bg_color) as [b |]; [| discriminate].
  intros [= <-]. now exists f, b.
Qed.

(** X18. [paint] returns exactly when both color names are keys of their
    tables.  An unknown font color raises [ValueError] whatever the
    background is; an unknown background raises [ValueError] once the font
    color is known; each message lists the supported names. *)
Theorem paint_succeeds_iff_both_colors_are_known :
  forall (to_color : value) (font_color bg_color : string),
    ((exists s, paint to_color font_color bg_color = Return s) <->
     In font_color (map fst Color_font) /\ In bg_color (map fst Color_bg)) /\
    (~ In font_color (map fst Color_font) ->
     paint to_color font_color bg_color
     = Raise (ValueError ("`font_color` color " ++ font_color
                          ++ " not supported. Select one of " ++ keys_str Color_font))) /\
    (In font_color (map fst Color_font) -> ~ In bg_color (map fst Color_bg) ->
     paint to_color font_color bg_color
     = Raise (ValueError ("`bg_color` color " ++ bg_color
                          ++ " not supported. Select one of " ++ keys_str Color_bg))).
Proof.
  intros to_color font_color bg_color.
  pose proof (known_In Color_font font_color) as Hf.
  pose proof (known_In Color_bg bg_color) as Hb.
  pose proof (lookup_known Color_font font_color) as Lf.
  pose proof (lookup_known Color_bg bg_color) as Lb.
  unfold paint.
  destruct (existsb (String.eqb font_color) (map fst Color_font)); cbn [negb].
  - destruct (existsb (String.eqb bg_color) (map fst Color_bg)); cbn [negb].
    + destruct (proj1 Lf eq_refl) as [f ->]. destruct (proj1 Lb eq_refl) as [b ->].
      repeat split.
      * now apply Hf.
      * now apply Hb.
      * eauto.
      * intros H. now destruct H; apply Hf.
      * intros _ H. now destruct H; apply Hb.
    + repeat split.
      * destruct H as [s H]. discriminate.
      * destruct H as [s H]. discriminate.
      * intros [_ H]. apply Hb in H. discriminate.
      * intros H. now destruct H; apply Hf.
  - repeat split.
    + destruct H as [s H]. discriminate.
    + destruct H as [s H]. discriminate.
    + intros [H _]. apply Hf in H. discriminate.
    + intros H. apply Hf in H. discriminate.
Qed.

Lemma paint_succeeds_iff_both_colors_are_known_witness :
  paint (VStr "ok") "pink" "black"
  = Raise (ValueError ("`font_color` color pink not supported. Select one of "
                       ++ keys_str Color_font)).
Proof.
  refine (proj1 (proj2 (paint_succeeds_iff_both_colors_are_known (VStr "ok") "pink" "black")) _).
  cbn. intros H. repeat (destruct H as [H | H]; [discriminate H |]). exact H.
Defined.

(** X19. What [paint] returns is the printed form of the object between
    two codes of five characters each and the two resets: twenty characters
    longer than the text, which sits at offset ten. *)
Theorem paint_adds_twenty_characters :
  forall (to_color : value) (font_color bg_color s : string),
    paint to_color font_color bg_color = Return s ->
    String.length s = (20 + String.length (py_str to_color))%nat /\
    substring 10 (String.length (py_str to_color)) s = py_str to_color /\
    substring (10 + String.length (py_str to_color)) 10 s = reset_font ++ reset_bg.
Proof.
  intros to_color font_color bg_color s H.
  destruct (paint_inv _ _ _ H) as [f [b [Hf [Hb ->]]]].
  apply lookup_In in Hf, Hb.
  pose proof (proj1 (Forall_forall _ _) font_codes_length _ Hf) as Lf.
  pose proof (proj1 (Forall_forall _ _) bg_codes_length _ Hb) as Lb.
  cbn [snd] in Lf, Lb.
  assert (Lfb : String.length (f ++ b) = 10%nat) by (rewrite length_app; lia).
  repeat split.
  - rewrite !length_app, Lf, Lb. cbn. lia.
  - rewrite <- Lfb, <- (append_assoc f b). apply substring_middle.
  - replace (10 + String.length (py_str to_color))%nat
      with (String.length ((f ++ b) ++ py_str to_color)) by (rewrite length_app; lia).
    change 10%nat with (String.length (reset_font ++ reset_bg)) at 1.
    rewrite <- (append_assoc f b), <- (append_assoc (f ++ b) (py_str to_color)).
    rewrite <- (append_empty (reset_font ++ reset_bg)) at 2.
    apply substring_middle.
Qed.

Lemma paint_adds_twenty_characters_witness :
  String.length (code "[31m" ++ code "[40m" ++ "ok" ++ reset_font ++ reset_bg)
  = (20 + String.length (py_str (VStr "ok")))%nat /\
  substring 10 (String.length (py_str (VStr "ok")))
    (code "[31m" ++ code "[40m" ++ "ok" ++ reset_font ++ reset_bg) = py_str (VStr "ok") /\
  substring (10 + String.length (py_str (VStr "ok"))) 10
    (code "[31m" ++ code "[40m" ++ "ok" ++ reset_font ++ reset_bg) = reset_font ++ reset_bg.
Proof.
  exact (@paint_adds_twenty_characters (VStr "ok") "red" "black" _ eq_refl).
Defined.

Lemma is_int_inv (c : value) :
  is_int c -> (exists z, c = VInt z) \/ (exists b, c = VBool b).
Proof.
  unfold is_int. destruct c; try discriminate; eauto.
  destruct t; discriminate.
Qed.

Lemma in_range_is_int (c : value) : in_range c = true -> is_int c.
Proof. destruct c; cbn; (discriminate || reflexivity). Qed.

Lemma is_in_interval_int (type_str : value -> string) (c : value) :
  is_int c -> is_in_interval type_str c 0 255 = Return (in_range c).
Proof. intros H. destruct (is_int_inv H) as [[z ->] | [b ->]]; reflexivity. Qed.

Lemma omap_in_range (type_str : value -> string) (l : list value) :
  Forall is_int l ->
  omap (fun rgb => is_in_interval type_str rgb 0 255) l = Return (map in_range l).
Proof.
  induction 1 as [| c t Hc _ IH]; [reflexivity |].
  cbn [omap map]. rewrite (is_in_interval_int type_str Hc). cbn [obind].
  now rewrite IH.
Qed.

Lemma forallb_id_map (A : Type) (f : A -> bool) (l : list A) :
  forallb id (map f l) = forallb f l.
Proof. induction l as [| a t IH]; [reflexivity |]. cbn. now rewrite IH. Qed.

Lemma all_in_range_int (l : list value) : forallb in_range l = true -> Forall is_int l.
Proof.
  rewrite forallb_forall. intros H. apply Forall_forall. intros c Hc.
  now apply in_range_is_int, H.
Qed.

(** The two validations of [paint_rgb] on tuples of integers. *)
Lemma paint_rgb_checks (type_str : value -> string) (to_color : value) (fs bs : list value) :
  Forall is_int fs ->
  paint_rgb type_str to_color (VTuple fs) (VTuple bs)
  = if negb (forallb in_range fs) then Raise (ValueError (rgb_message (VTuple fs)))
    else
      oks <~ omap (fun rgb => is_in_interval type_str rgb 0 255) bs ;;
      if negb (forallb id oks) then Raise (ValueError (rgb_message (VTuple bs)))
      else
        f0 <~ py_index fs 0 ;; f1 <~ py_index fs 1 ;; f2 <~ py_index fs 2 ;;
        b0 <~ py_index bs 0 ;; b1 <~ py_index bs 1 ;; b2 <~ py_index bs 2 ;;
        Return (rgb_code "38" f0 f1 f2 ++ rgb_code "48" b0 b1 b2
                ++ py_str to_color ++ reset_font ++ reset_bg).
Proof.
  intros Hf. unfold paint_rgb. cbn [py_iter obind].
  rewrite (omap_in_range type_str Hf). cbn [obind]. rewrite forallb_id_map.
  reflexivity.
Qed.

(** X20. With every component an integer in [0, 255], [paint_rgb] builds
    the two codes from the first three components of each tuple, printed in
    decimal ([True] and [False] for booleans), and ignores any further
    component. *)
Theorem paint_rgb_uses_the_first_three_components :
  forall (type_str : value -> string) (to_color r g b r' g' b' : value)
         (rest rest' : list value),
    forallb in_range (r :: g :: b :: rest) = true ->
    forallb in_range (r' :: g' :: b' :: rest') = true ->
    paint_rgb type_str to_color (VTuple (r :: g :: b :: rest)) (VTuple (r' :: g' :: b' :: rest'))
    = Return (rgb_code "38" r g b ++ rgb_code "48" r' g' b'
              ++ py_str to_color ++ reset_font ++ reset_bg).
Proof.
  intros type_str to_color r g b r' g' b' rest rest' Hf Hb.
  rewrite paint_rgb_checks by now apply all_in_range_int.
  rewrite Hf. cbn [negb].
  rewrite (omap_in_range type_str (all_in_range_int _ Hb)). cbn [obind].
  rewrite forallb_id_map, Hb. reflexivity.
Qed.

Lemma paint_rgb_uses_the_first_three_components_witness :
  paint_rgb (fun _ => "<class>") (VStr "ok")
    (VTuple [VInt 255; VInt 0; VBool true; VInt 7]) (VTuple [VInt 1; VInt 2; VInt 3])
  = Return (code "[38;2;255;0;Truem" ++ code "[48;2;1;2;3m" ++ "ok" ++ reset_font ++ reset_bg).
Proof.
  exact (@paint_rgb_uses_the_first_three_components (fun _ => "<class>") (VStr "ok")
           (VInt 255) (VInt 0) (VBool true) (VInt 1) (VInt 2) (VInt 3) [VInt 7] []
           eq_refl eq_refl).
Defined.

Lemma py_index_short (l : list value) (i : nat) :
  (List.length l <= i)%nat -> py_index l i = Raise (IndexError "index out of range").
Proof.
  intros H. unfold py_index. now rewrite (proj2 (nth_error_None l i) H).
Qed.

Lemma py_index_long (l : list value) (i : nat) :
  (i < List.length l)%nat -> exists x, py_index l i = Return x.
Proof.
  intros H. unfold py_index. destruct (nth_error l i) as [x |] eqn:E; [eauto |].
  apply nth_error_None in E. lia.
Qed.

Lemma three_indices (l : list value) (A : Type) (k : value -> value -> value -> outcome A) :
  (List.length l < 3)%nat ->
  (f0 <~ py_index l 0 ;; f1 <~ py_index l 1 ;; f2 <~ py_index l 2 ;; k f0 f1 f2)
  = Raise (IndexError "index out of range").
Proof.
  intros H. destruct l as [| a [| b [| c t]]]; cbn in *; try reflexivity. lia.
Qed.

(** X21. [paint_rgb] never checks the length of a tuple: with every
    component an integer in range, a tuple of fewer than three components
    passes both validations and the call ends in [IndexError], not in the
    [ValueError] that asks for a 3-tuple. *)
Theorem paint_rgb_does_not_check_the_length :
  forall (type_str : value -> string) (to_color : value) (fs bs : list value),
    forallb in_range fs = true ->
    forallb in_range bs = true ->
    (List.length fs < 3)%nat \/ (List.length bs < 3)%nat ->
    exists e,
      paint_rgb type_str to_color (VTuple fs) (VTuple bs) = Raise e /\
      exn_class e = "IndexError".
Proof.
  intros type_str to_color fs bs Hf Hb Hshort.
  exists (IndexError "index out of range"). split; [| reflexivity].
  rewrite paint_rgb_checks by now apply all_in_range_int.
  rewrite Hf. cbn [negb].
  rewrite (omap_in_range type_str (all_in_range_int _ Hb)). cbn [obind].
  rewrite forallb_id_map, Hb. cbn [negb].
  destruct (Nat.lt_ge_cases (List.length fs) 3) as [Hlt | Hge].
  - now apply three_indices.
  - destruct Hshort as [Hlt | Hlt]; [lia |].
    destruct fs as [| a [| b [| c t]]]; cbn in Hge; try lia.
    cbn [py_index nth_error obind].
    now apply three_indices.
Qed.

Lemma paint_rgb_does_not_check_the_length_witness :
  exists e,
    paint_rgb (fun _ => "<class>") (VStr "ok") (VTuple [VInt 1; VInt 2])
      (VTuple [VInt 1; VInt 2; VInt 3]) = Raise e /\
    exn_class e = "IndexError".
Proof.
  exact (@paint_rgb_does_not_check_the_length (fun _ => "<class>") (VStr "ok")
           [VInt 1; VInt 2] [VInt 1; VInt 2; VInt 3] eq_refl eq_refl
           (or_introl (le_n 3))).
Defined.

(** X22. On tuples of integers with a component outside [0, 255],
    [paint_rgb] raises [ValueError].  The message prints the font tuple if
    that one is at fault and else the background tuple; in both cases it
    names [font_rgb]. *)
Theorem paint_rgb_rejects_components_out_of_range :
  forall (type_str : value -> string) (to_color : value) (fs bs : list value),
    Forall is_int fs ->
    Forall is_int bs ->
    forallb in_range fs && forallb in_range bs = false ->
    paint_rgb type_str to_color (VTuple fs) (VTuple bs)
    = Raise (ValueError (rgb_message (VTuple (if forallb in_range fs then bs else fs)))).
Proof.
  intros type_str to_color fs bs Hf Hb Hbad.
  rewrite paint_rgb_checks by assumption.
  destruct (forallb in_range fs); cbn [negb]; [| reflexivity].
  cbn [andb] in Hbad.
  rewrite (omap_in_range type_str Hb). cbn [obind].
  now rewrite forallb_id_map, Hbad.
Qed.

Lemma paint_rgb_rejects_components_out_of_range_witness :
  paint_rgb (fun _ => "<class>") (VStr "ok") (VTuple [VInt 1; VInt 2; VInt 3])
    (VTuple [VInt 0; VInt 256; VInt 0])
  = Raise (ValueError
      "`font_rgb` must be 3-tuple of integer numbers in range [0, 255]. Got (0, 256, 0).").
Proof.
  refine (@paint_rgb_rejects_components_out_of_range (fun _ => "<class>") (VStr "ok")
            [VInt 1; VInt 2; VInt 3] [VInt 0; VInt 256; VInt 0] _ _ eq_refl);
    repeat constructor.
Defined.

Lemma omap_stops_at_non_int (type_str : value -> string) (pre post : list value) (x : value) :
  Forall is_int pre -> isinstance1 x t_int = false ->
  omap (fun rgb => is_in_interval type_str rgb 0 255) (pre ++ x :: post)
  = Raise (ValueError ("`n` must be integer. Got instead " ++ type_str x ++ ".")).
Proof.
  intros Hpre Hx. induction Hpre as [| c t Hc _ IH].
  - cbn [app omap]. unfold is_in_interval. rewrite Hx. reflexivity.
  - cbn [app omap]. rewrite (is_in_interval_int type_str Hc). cbn [obind].
    now rewrite IH.
Qed.

(** X23. A font component that is not an integer makes [paint_rgb] raise
    the [ValueError] of [is_in_interval], which names the type of that
    component, also when an earlier component is out of range and whatever
    the background is: the range test comes after every component has been
    looked at. *)
Theorem paint_rgb_rejects_non_integer_component_first :
  forall (type_str : value -> string) (to_color bg_rgb x : value) (pre post : list value),
    Forall is_int pre ->
    isinstance1 x t_int = false ->
    paint_rgb type_str to_color (VTuple (pre ++ x :: post)) bg_rgb
    = Raise (ValueError ("`n` must be integer. Got instead " ++ type_str x ++ ".")).
Proof.
  intros type_str to_color bg_rgb x pre post Hpre Hx.
  unfold paint_rgb. cbn [py_iter obind].
  now rewrite (@omap_stops_at_non_int type_str pre post x Hpre Hx).
Qed.

Lemma paint_rgb_rejects_non_integer_component_first_witness :
  paint_rgb (fun _ => "<class 'float'>") (VStr "ok")
    (VTuple ([VInt 300] ++ VScalar t_float "0.5" :: [VInt 0])) VNone
  = Raise (ValueError "`n` must be integer. Got instead <class 'float'>.").
Proof.
  refine (@paint_rgb_rejects_non_integer_component_first (fun _ => "<class 'float'>")
            (VStr "ok") VNone (VScalar t_float "0.5") [VInt 300] [VInt 0] _ eq_refl).
  repeat constructor.
Defined.
